(** * FB_BatchRequestServer: the batch sender and the rate-limit aggregator

    A shallow embedding of
    - [send_batch_to_facebook] of [main.py] (module [Main]),
    - [send_batch_to_facebook] and [_summarize_rate_limits_from_batch] of
      [test2.py] (module [Test2]),
    - [BatchRequest.validate_urls] of [models.py] (module [Models]),
    - the handlers of [/batch] and [/health] of [main.py], and those of
      [/batch], [/rate_limit] and [/health] of [test2.py],
    - [_log_batch_summary] of [test2.py]: what it collects and prints, not the
      layout of the text,
    the properties of the specification that concern them, and further
    properties of this code.

    Python values are the values [json.loads] can produce.  An [int] is an
    integer; a [float] is an IEEE 754 binary64 number ([spec_float] of the
    standard library, precision 53 and maximal exponent 1024), with its
    infinities, its NaN, the rounding of [float(n)] and of a sum, and the
    [OverflowError] of [float(n)] for an integer out of range.  A [str] is the
    string of its UTF-8 bytes; [str.lower] folds the ASCII letters only.
    [json.loads] is a parameter of the functions that call it (section variable
    [loads]); it returns a value or fails in one of the three ways
    [json.loads] fails on a [str].  [json_loads] is a reference decoder used to
    run the code on concrete responses.  The network is a parameter of the
    senders: a function from the call made to what [requests.post] gives
    back.  [str] of an [int] of more than 4300 digits raises [ValueError], as
    the decoder does for such a literal; the standard output is taken to
    accept what [print] writes to it. *)

From Stdlib Require Import QArith Ascii String SpecFloat.
From stdpp Require Import gmap strings list.

Local Open Scope string_scope.
Local Open Scope Z_scope.

(** ** Python values *)

(** A [float]: binary64. *)
Abbreviation float := spec_float.

#[warnings="-register-all"]
Inductive json : Type :=
| JNull
| JBool (b : bool)
| JInt (z : Z)
| JFloat (f : float)
| JStr (s : string)
| JList (l : list json)
| JDict (d : list (string * json)).

(** A [dict] with [str] keys, in insertion order. *)
Abbreviation pydict := (list (string * json)).

(** The exceptions the modelled functions raise, with the data of their
    message. *)
Inductive value_error : Type :=
| InvalidAccessToken
| UrlCountOutOfRange (n : nat)
| VersionInRelativeUrl (url : string)
| IntegerStringTooLong.

Inductive runtime_error : Type :=
| CallFailed (e : string)
| ResponseNotJson (text : string)
| TopLevelError (msg etype code : json)
| ResponseNotList (raw : json).

Inductive exn : Type :=
| ValueError (e : value_error)
| RuntimeError (e : runtime_error)
| JSONDecodeError
| TypeError
| AttributeError
| IndexError
| OverflowError
| RecursionError.

Inductive outcome (A : Type) : Type :=
| Ok (a : A)
| Raise (e : exn).
Arguments Ok {A} a.
Arguments Raise {A} e.

#[global] Instance outcome_ret : MRet outcome := fun A a => Ok a.
#[global] Instance outcome_bind : MBind outcome :=
  fun A B f m => match m with Ok a => f a | Raise e => Raise e end.

(** ** Truth value, numbers, comparison *)

(** [float(n)] for an integer [n]: the nearest [float], ties to even, which
    is an infinity when [n] is out of range; and the sum of two [float]s. *)
Definition float_of_Z (z : Z) : float := binary_normalize 53 1024 z 0 false.

Definition float_add (x y : float) : float := SFadd 53 1024 x y.

Definition is_nan (f : float) : bool :=
  match f with S754_nan => true | _ => false end.

(** What a number is worth: a rational, an infinity, or nothing for a NaN. *)
Inductive xnum : Type :=
| XNaN
| XNegInf
| XFin (q : Q)
| XPosInf.

Definition pow2 (e : Z) : Q :=
  if 0 <=? e then inject_Z (2 ^ e) else Qmake 1 (Z.to_pos (2 ^ (- e))).

Definition float_val (f : float) : xnum :=
  match f with
  | S754_zero _ => XFin 0
  | S754_infinity s => if s then XNegInf else XPosInf
  | S754_nan => XNaN
  | S754_finite s m e => XFin (inject_Z (if s then Zneg m else Zpos m) * pow2 e)
  end.

(** [a > b] and [a == b] on what two numbers are worth: Python compares an
    [int] with a [float] exactly, and every comparison with a NaN is false. *)
Definition x_gt (a b : xnum) : bool :=
  match a, b with
  | XNaN, _ | _, XNaN => false
  | XNegInf, _ => false
  | _, XNegInf => true
  | XPosInf, XPosInf => false
  | XPosInf, _ => true
  | XFin _, XPosInf => false
  | XFin p, XFin q => negb (Qle_bool p q)
  end.

Definition x_eq (a b : xnum) : bool :=
  match a, b with
  | XFin p, XFin q => Qeq_bool p q
  | XNegInf, XNegInf | XPosInf, XPosInf => true
  | _, _ => false
  end.

Definition float_gt (x y : float) : bool := x_gt (float_val x) (float_val y).

(** [bool(v)] *)
Definition truthy (v : json) : bool :=
  match v with
  | JNull => false
  | JBool b => b
  | JInt z => negb (z =? 0)
  | JFloat f => match f with S754_zero _ => false | _ => true end
  | JStr s => negb (String.eqb s EmptyString)
  | JList l => match l with [] => false | _ => true end
  | JDict d => match d with [] => false | _ => true end
  end.

(** [isinstance(v, (int, float))]: [bool] is a subclass of [int]. *)
Definition is_number (v : json) : bool :=
  match v with
  | JBool _ | JInt _ | JFloat _ => true
  | _ => false
  end.

(** What a numeric value is worth. *)
Definition num_of (v : json) : option xnum :=
  match v with
  | JBool b => Some (XFin (inject_Z (if b then 1 else 0)))
  | JInt z => Some (XFin (inject_Z z))
  | JFloat f => Some (float_val f)
  | _ => None
  end.

(** The integer of an [int] (a [bool] counts as one). *)
Definition int_of (v : json) : option Z :=
  match v with
  | JInt z => Some z
  | JBool b => Some (if b then 1 else 0)
  | _ => None
  end.

(** [float(v)] for a value that passed [isinstance(v, (int, float))]: an
    integer is rounded to the nearest [float], and one that is out of the
    range of the [float]s raises [OverflowError]. *)
Definition py_float (v : json) : outcome float :=
  match v with
  | JBool b => Ok (float_of_Z (if b then 1 else 0))
  | JInt z =>
      match float_of_Z z with
      | S754_infinity _ => Raise OverflowError
      | f => Ok f
      end
  | JFloat f => Ok f
  | _ => Raise TypeError
  end.

(** [v == n] for an [int] literal [n]. *)
Definition py_eq_int (v : json) (n : Z) : bool :=
  match num_of v with
  | Some x => x_eq x (XFin (inject_Z n))
  | None => false
  end.

(** [item > cur], with [cur] a number: ordering a number against a value that
    is not one raises [TypeError]. *)
Definition py_gt (item cur : json) : outcome bool :=
  match num_of item, num_of cur with
  | Some i, Some c => Ok (x_gt i c)
  | _, _ => Raise TypeError
  end.

(** [max(cur, item)]: the first argument stays unless the second is greater. *)
Definition py_max2 (cur item : json) : outcome json :=
  greater ← py_gt item cur;
  mret (if greater : bool then item else cur).

(** [max(values)] of a non-empty list of floats, [None] for the empty one
    ([max(vs) if vs else None]). *)
Definition py_max_floats (vs : list float) : option float :=
  match vs with
  | [] => None
  | v :: rest => Some (fold_left (fun m x => if float_gt x m then x else m) rest v)
  end.

(** ** Dictionaries *)

Fixpoint dict_get (k : string) (d : pydict) : option json :=
  match d with
  | [] => None
  | (k', v) :: rest => if String.eqb k' k then Some v else dict_get k rest
  end.

(** [d.get(k, default)] *)
Definition dict_get_default (k : string) (d : pydict) (dflt : json) : json :=
  match dict_get k d with Some v => v | None => dflt end.

(** [d[k] = v]: an existing key keeps its position. *)
Fixpoint dict_set (k : string) (v : json) (d : pydict) : pydict :=
  match d with
  | [] => [(k, v)]
  | (k', v') :: rest =>
      if String.eqb k' k then (k, v) :: rest else (k', v') :: dict_set k v rest
  end.

(** [v.get(k, default)] on an arbitrary value: only a [dict] has [get]. *)
Definition py_get (v : json) (k : string) (dflt : json) : outcome json :=
  match v with
  | JDict d => Ok (dict_get_default k d dflt)
  | _ => Raise AttributeError
  end.

(** ** Strings *)

(** [s.lstrip("/")] *)
Fixpoint lstrip_slash (s : string) : string :=
  match s with
  | String "/"%char rest => lstrip_slash rest
  | _ => s
  end.

(** [s.startswith(p)] *)
Definition startswith (s p : string) : bool := String.prefix p s.

(** [s.split("/", 1)[0]] and [s.split('/')[0]]: the text before the first
    slash. *)
Fixpoint first_segment (s : string) : string :=
  match s with
  | EmptyString => EmptyString
  | String c rest => if Ascii.eqb c "/"%char then EmptyString else String c (first_segment rest)
  end.

(** [sub in s] *)
Fixpoint contains (sub s : string) : bool :=
  String.prefix sub s ||
  match s with
  | EmptyString => false
  | String _ rest => contains sub rest
  end.

Definition lower_ascii (c : ascii) : ascii :=
  let n := nat_of_ascii c in
  if ((65 <=? n) && (n <=? 90))%nat then ascii_of_nat (n + 32) else c.

(** [s.lower()] on the ASCII letters.  The letters outside ASCII are left as
    they are: no name that has one folds to one of the two header names that
    are looked up. *)
Fixpoint lower (s : string) : string :=
  match s with
  | EmptyString => EmptyString
  | String c rest => String (lower_ascii c) (lower rest)
  end.

(** A byte that continues a character in UTF-8. *)
Definition is_continuation (c : ascii) : bool :=
  let n := nat_of_ascii c in ((128 <=? n) && (n <? 192))%nat.

(** [s[:n]]: the first [n] characters, each with the bytes that continue
    it. *)
Fixpoint take_chars (n : nat) (s : string) : string :=
  match s with
  | EmptyString => EmptyString
  | String c rest =>
      if is_continuation c then String c (take_chars n rest)
      else
        match n with
        | O => EmptyString
        | S n' => String c (take_chars n' rest)
        end
  end.

(** ** Decoding *)

(** How [json.loads] fails on a [str]: the text is not JSON
    ([json.JSONDecodeError]); an integer literal has more digits than the
    limit of the conversion of a string to an [int] (a plain [ValueError]);
    the values are nested more deeply than the interpreter follows
    ([RecursionError]). *)
Inductive decode_failure : Type :=
| NotJson
| IntegerTooLong
| NestingTooDeep.

Inductive decoded : Type :=
| Decoded (v : json)
| Undecoded (f : decode_failure).

Definition decode_error (f : decode_failure) : exn :=
  match f with
  | NotJson => JSONDecodeError
  | IntegerTooLong => ValueError IntegerStringTooLong
  | NestingTooDeep => RecursionError
  end.

(** [json.loads(v)] for the decoder [loads]: a value that is not a [str]
    raises [TypeError], and a text that does not decode raises the exception
    of its failure. *)
Definition py_json_loads (loads : string -> decoded) (v : json) : outcome json :=
  match v with
  | JStr s =>
      match loads s with
      | Decoded j => Ok j
      | Undecoded f => Raise (decode_error f)
      end
  | _ => Raise TypeError
  end.

(** ** A reference decoder

    [json_loads] follows Python's [json.loads] on a [str]: white space around
    values, [null], [true], [false], [NaN], [Infinity] and [-Infinity],
    numbers (an [int] unless a fraction or an exponent is written, and
    otherwise the [float] nearest to the decimal written), strings with their
    escapes, arrays and objects (a repeated key keeps its first position and
    its last value).  An [int] of more than [max_str_digits] digits fails as
    in Python 3.11 and later.  Python follows the nesting of arrays and
    objects down to its recursion limit, which depends on the interpreter
    and on the depth of the call; the reference decoder follows it
    [max_depth] levels down, as Python 3.11 does at the top level of a script
    with the default limit. *)

Definition dquote : ascii := ascii_of_nat 34.

(** [js s] is [s] with a double quote for every apostrophe: JSON texts are
    written below with apostrophes around their strings. *)
Fixpoint js (s : string) : string :=
  match s with
  | EmptyString => EmptyString
  | String c rest => String (if Ascii.eqb c "'"%char then dquote else c) (js rest)
  end.

Definition max_str_digits : nat := 4300.

Definition max_depth : nat := 994.

(** What a parser gives: a value and what follows it, or a failure. *)
Inductive parsed (A : Type) : Type :=
| Parsed (a : A) (rest : string)
| Failed (f : decode_failure).
Arguments Parsed {A} a rest.
Arguments Failed {A} f.

Definition is_ws (c : ascii) : bool :=
  let n := nat_of_ascii c in
  ((n =? 32) || (n =? 9) || (n =? 10) || (n =? 13))%nat.

Fixpoint skip_ws (s : string) : string :=
  match s with
  | String c rest => if is_ws c then skip_ws rest else s
  | EmptyString => s
  end.

Definition digit_of (c : ascii) : option Z :=
  let n := nat_of_ascii c in
  if ((48 <=? n) && (n <=? 57))%nat then Some (Z.of_nat (n - 48)) else None.

(** The longest run of digits at the head of [s]: its value after [acc], how
    many there are, and what follows. *)
Fixpoint read_digits (s : string) (acc : Z) (n : nat) : Z * nat * string :=
  match s with
  | String c rest =>
      match digit_of c with
      | Some d => read_digits rest (10 * acc + d) (S n)
      | None => (acc, n, s)
      end
  | EmptyString => (acc, n, s)
  end.

(** The integer part: a single zero, or digits that do not start with zero;
    with the number of its digits. *)
Definition read_int_part (s : string) : option (Z * nat * string) :=
  match s with
  | String c rest =>
      match digit_of c with
      | Some 0 => Some (0, 1%nat, rest)
      | Some _ => Some (read_digits s 0 0)
      | None => None
      end
  | EmptyString => None
  end.

(** An optional fraction: a dot and at least one digit. *)
Definition read_frac (s : string) : option (Z * nat) * string :=
  match s with
  | String "."%char rest =>
      match read_digits rest 0 0 with
      | (_, O, _) => (None, s)
      | (v, n, r) => (Some (v, n), r)
      end
  | _ => (None, s)
  end.

(** An optional exponent: e or E, an optional sign, at least one digit. *)
Definition read_exp (s : string) : option Z * string :=
  match s with
  | String c rest =>
      if Ascii.eqb c "e"%char || Ascii.eqb c "E"%char then
        let '(neg, digits) :=
          match rest with
          | String "-"%char r => (true, r)
          | String "+"%char r => (false, r)
          | _ => (false, rest)
          end in
        match read_digits digits 0 0 with
        | (_, O, _) => (None, s)
        | (v, _, r) => (Some (if neg : bool then - v else v), r)
        end
      else (None, s)
  | EmptyString => (None, s)
  end.

(** The [float] nearest to [mantissa] times ten to the [exponent], negated
    when [neg], for [mantissa] at least 0: ties go to the even [float], a
    number out of range gives an infinity and one too small a zero. *)
Definition float_of_decimal (neg : bool) (mantissa exponent : Z) : float :=
  match mantissa with
  | Zpos _ =>
      if 0 <=? exponent
      then binary_round 53 1024 neg (Z.to_pos (mantissa * 10 ^ exponent)) 0
      else
        let '(q, e, l) :=
          SFdiv_core_binary 53 1024 mantissa 0 (10 ^ (- exponent)) 0 in
        binary_round_aux 53 1024 neg q e l
  | _ => S754_zero neg
  end.

Definition parse_number (s : string) : parsed json :=
  let '(neg, s1) :=
    match s with
    | String "-"%char r => (true, r)
    | _ => (false, s)
    end in
  match read_int_part s1 with
  | None => Failed NotJson
  | Some (i, digits, s2) =>
      match read_frac s2, read_exp (snd (read_frac s2)) with
      | (None, _), (None, s4) =>
          if (max_str_digits <? digits)%nat then Failed IntegerTooLong
          else Parsed (JInt (if neg : bool then - i else i)) s4
      | (None, _), (Some e, s4) => Parsed (JFloat (float_of_decimal neg i e)) s4
      | (Some (f, k), _), (None, s4) =>
          Parsed (JFloat (float_of_decimal neg (i * 10 ^ Z.of_nat k + f)
                            (- Z.of_nat k))) s4
      | (Some (f, k), _), (Some e, s4) =>
          Parsed (JFloat (float_of_decimal neg (i * 10 ^ Z.of_nat k + f)
                            (e - Z.of_nat k))) s4
      end
  end.

Definition hex_of (c : ascii) : option N :=
  let n := nat_of_ascii c in
  if ((48 <=? n) && (n <=? 57))%nat then Some (N.of_nat (n - 48))
  else if ((65 <=? n) && (n <=? 70))%nat then Some (N.of_nat (n - 55))
  else if ((97 <=? n) && (n <=? 102))%nat then Some (N.of_nat (n - 87))
  else None.

Definition hex4 (a b c d : ascii) : option N :=
  x ← hex_of a; y ← hex_of b; z ← hex_of c; w ← hex_of d;
  Some (((x * 16 + y) * 16 + z) * 16 + w)%N.

Definition byte (n : N) : ascii := ascii_of_N n.

(** The UTF-8 bytes of a code point, in front of [rest]. *)
Definition utf8 (cp : N) (rest : string) : string :=
  (if cp <? 128 then String (byte cp) rest
   else if cp <? 2048 then
     String (byte (192 + cp / 64)) (String (byte (128 + cp mod 64)) rest)
   else if cp <? 65536 then
     String (byte (224 + cp / 4096))
       (String (byte (128 + (cp / 64) mod 64)) (String (byte (128 + cp mod 64)) rest))
   else
     String (byte (240 + cp / 262144))
       (String (byte (128 + (cp / 4096) mod 64))
          (String (byte (128 + (cp / 64) mod 64))
             (String (byte (128 + cp mod 64)) rest))))%N.

Definition simple_escape (c : ascii) : option ascii :=
  let n := nat_of_ascii c in
  if ((n =? 34) || (n =? 92) || (n =? 47))%nat then Some c
  else if (n =? 98)%nat then Some (ascii_of_nat 8)
  else if (n =? 102)%nat then Some (ascii_of_nat 12)
  else if (n =? 110)%nat then Some (ascii_of_nat 10)
  else if (n =? 114)%nat then Some (ascii_of_nat 13)
  else if (n =? 116)%nat then Some (ascii_of_nat 9)
  else None.

(** The text of a string after its opening quote, and what follows the
    closing one.  A high surrogate escape followed by a low one is one code
    point; control characters must be escaped. *)
Fixpoint parse_string (s : string) : option (string * string) :=
  match s with
  | EmptyString => None
  | String c rest =>
      if (nat_of_ascii c =? 34)%nat then Some (EmptyString, rest)
      else if (nat_of_ascii c =? 92)%nat then
        match rest with
        | String "u"%char (String a (String b (String c' (String d rest')))) =>
            match hex4 a b c' d with
            | None => None
            | Some hi =>
                match rest' with
                | String "\"%char (String "u"%char
                    (String a2 (String b2 (String c2 (String d2 rest''))))) =>
                    match hex4 a2 b2 c2 d2 with
                    | Some lo =>
                        if ((55296 <=? hi) && (hi <? 56320)
                            && (56320 <=? lo) && (lo <? 57344))%N
                        then
                          '(t, r) ← parse_string rest'';
                          Some (utf8 (65536 + (hi - 55296) * 1024 + (lo - 56320))%N t, r)
                        else '(t, r) ← parse_string rest'; Some (utf8 hi t, r)
                    | None => '(t, r) ← parse_string rest'; Some (utf8 hi t, r)
                    end
                | _ => '(t, r) ← parse_string rest'; Some (utf8 hi t, r)
                end
            end
        | String e rest' =>
            match simple_escape e with
            | Some x => '(t, r) ← parse_string rest'; Some (String x t, r)
            | None => None
            end
        | EmptyString => None
        end
      else if (nat_of_ascii c <? 32)%nat then None
      else '(t, r) ← parse_string rest; Some (String c t, r)
  end.

Definition strip_prefix (p s : string) : option string :=
  if String.prefix p s
  then Some (String.substring (String.length p) (String.length s - String.length p) s)
  else None.

(** A value that is not a string, an array or an object: a constant or a
    number. *)
Definition parse_atom (s : string) : parsed json :=
  match strip_prefix "null" s, strip_prefix "true" s, strip_prefix "false" s with
  | Some r, _, _ => Parsed JNull r
  | _, Some r, _ => Parsed (JBool true) r
  | _, _, Some r => Parsed (JBool false) r
  | _, _, _ =>
      match strip_prefix "NaN" s, strip_prefix "Infinity" s,
            strip_prefix "-Infinity" s with
      | Some r, _, _ => Parsed (JFloat S754_nan) r
      | _, Some r, _ => Parsed (JFloat (S754_infinity false)) r
      | _, _, Some r => Parsed (JFloat (S754_infinity true)) r
      | _, _, _ => parse_number s
      end
  end.

(** [fuel] bounds the number of steps and [depth] the nesting that is
    left. *)
Fixpoint parse_value (fuel depth : nat) (s : string) : parsed json :=
  match fuel with
  | O => Failed NotJson
  | S fuel' =>
      match s with
      | String "{"%char rest =>
          match depth with
          | O => Failed NestingTooDeep
          | S depth' =>
              match skip_ws rest with
              | String "}"%char r => Parsed (JDict []) r
              | r => parse_members fuel' depth' r []
              end
          end
      | String "["%char rest =>
          match depth with
          | O => Failed NestingTooDeep
          | S depth' =>
              match skip_ws rest with
              | String "]"%char r => Parsed (JList []) r
              | r => parse_elements fuel' depth' r []
              end
          end
      | String c rest =>
          if Ascii.eqb c dquote
          then match parse_string rest with
               | Some (t, r) => Parsed (JStr t) r
               | None => Failed NotJson
               end
          else parse_atom s
      | EmptyString => Failed NotJson
      end
  end
with parse_members (fuel depth : nat) (s : string) (acc : pydict) : parsed json :=
  match fuel with
  | O => Failed NotJson
  | S fuel' =>
      match s with
      | String c rest =>
          if Ascii.eqb c dquote then
            match parse_string rest with
            | None => Failed NotJson
            | Some (k, r1) =>
                match skip_ws r1 with
                | String ":"%char r2 =>
                    match parse_value fuel' depth (skip_ws r2) with
                    | Failed f => Failed f
                    | Parsed v r3 =>
                        let acc' := dict_set k v acc in
                        match skip_ws r3 with
                        | String ","%char r4 =>
                            parse_members fuel' depth (skip_ws r4) acc'
                        | String "}"%char r4 => Parsed (JDict acc') r4
                        | _ => Failed NotJson
                        end
                    end
                | _ => Failed NotJson
                end
            end
          else Failed NotJson
      | EmptyString => Failed NotJson
      end
  end
with parse_elements (fuel depth : nat) (s : string) (acc : list json) : parsed json :=
  match fuel with
  | O => Failed NotJson
  | S fuel' =>
      match parse_value fuel' depth s with
      | Failed f => Failed f
      | Parsed v r1 =>
          match skip_ws r1 with
          | String ","%char r2 => parse_elements fuel' depth (skip_ws r2) (acc ++ [v])
          | String "]"%char r2 => Parsed (JList (acc ++ [v])) r2
          | _ => Failed NotJson
          end
      end
  end.

Definition json_loads (s : string) : decoded :=
  match parse_value (S (String.length s)) max_depth (skip_ws s) with
  | Parsed v rest =>
      match skip_ws rest with
      | EmptyString => Decoded v
      | _ => Undecoded NotJson
      end
  | Failed f => Undecoded f
  end.

(** ** The outbound call *)

(** [requests.post(api_url, data=payload, timeout=timeout_sec)].  The form
    field [batch] is [json.dumps] of [call_batch]. *)
Record Call : Type := {
  call_url : string;
  call_access_token : string;
  call_batch : json;
  call_ensure_ascii : bool;
  call_include_headers : string;
  call_timeout : Z
}.

(** What the call gives back: a [RequestException] (transport failure, timeout
    or the HTTP error status [raise_for_status] rejects) or the text of the
    response.  The library is taken to raise nothing else. *)
Inductive HttpOutcome : Type :=
| RequestFailed (e : string)
| HttpResponse (text : string).

Abbreviation Network := (Call -> HttpOutcome).

Definition API_VERSION : string := "v23.0".

(** [[{"method": "GET", "relative_url": u} for u in normalized_urls]] *)
Definition batch_payload (normalized_urls : list string) : json :=
  JList (map (fun u => JDict [("method", JStr "GET"); ("relative_url", JStr u)])
             normalized_urls).

(** [not access_token or "YOUR_ACCESS_TOKEN" in access_token] *)
Definition bad_token (access_token : string) : bool :=
  String.eqb access_token EmptyString || contains "YOUR_ACCESS_TOKEN" access_token.

(** [not 1 <= len(urls) <= 50] *)
Definition bad_count (urls : list string) : bool :=
  negb ((1 <=? length urls)%nat && (length urls <=? 50)%nat).

(** ** The answers of the endpoints *)

(** The body of a request to [/batch]. *)
Record BatchRequest : Type := {
  access_token : string;
  relative_urls : list string
}.

(** The detail of an [HTTPException]: a prefix and the text of the exception
    caught, or a fixed text. *)
Inductive detail : Type :=
| FromException (pre : string) (e : exn)
| Text (s : string).

Record HTTPException : Type := {
  status_code : Z;
  detail_of : detail
}.

(** What a handler does: it returns a value, or raises an [HTTPException].
    What the framework makes of the value returned (its validation and its
    serialisation) is not modelled. *)
Inductive answer (A : Type) : Type :=
| Returned (body : A)
| Raised (h : HTTPException).
Arguments Returned {A} body.
Arguments Raised {A} h.

(** [except ValueError]: [json.JSONDecodeError] is a subclass of
    [ValueError].  ([OverflowError] is an [ArithmeticError], not one.) *)
Definition is_ValueError (e : exn) : bool :=
  match e with
  | ValueError _ | JSONDecodeError => true
  | _ => false
  end.

(** [except RuntimeError]: [RecursionError] is a subclass of
    [RuntimeError]. *)
Definition is_RuntimeError (e : exn) : bool :=
  match e with
  | RuntimeError _ | RecursionError => true
  | _ => false
  end.

(** The three [except] clauses of the [/batch] handlers, in order; [internal]
    is the prefix of the detail of the last one. *)
Definition http_error_of (internal : string) (e : exn) : HTTPException :=
  if is_ValueError e
  then {| status_code := 400; detail_of := FromException EmptyString e |}
  else if is_RuntimeError e
  then {| status_code := 502; detail_of := FromException "Bad Gateway: " e |}
  else {| status_code := 500; detail_of := FromException internal e |}.

(** ** models.py *)

Module Models.

(** [BatchRequest.validate_urls] *)
Definition validate_urls (v : list string) : outcome (list string) :=
  if bad_count v then Raise (ValueError (UrlCountOutOfRange (length v)))
  else Ok v.

End Models.

(** ** main.py *)

Module Main.

Section Sender.

Variable loads : string -> decoded.

(** The test of line 59 on a normalized path:
    [u.startswith(f"{api_version}/") or
     u.startswith("v") and u.split("/", 1)[0] == api_version]. *)
Definition has_version (api_version u : string) : bool :=
  startswith u (api_version ++ "/")
  || (startswith u "v" && String.eqb (first_segment u) api_version).

(** The normalization loop: the first path that carries the version raises. *)
Fixpoint normalize_urls (api_version : string) (relative_urls : list string)
  : outcome (list string) :=
  match relative_urls with
  | [] => Ok []
  | url :: rest =>
      let u := lstrip_slash url in
      if has_version api_version u
      then Raise (ValueError (VersionInRelativeUrl url))
      else us ← normalize_urls api_version rest; mret (u :: us)
  end.

Definition NULL_RESULT : json :=
  JStr "Kết quả NULL (yêu cầu có thể thất bại hoặc bị bỏ qua).".

Definition body_not_json (body_text : json) : json :=
  match body_text with
  | JStr s => JStr ("Body không phải JSON. Raw: " ++ take_chars 500 s)
  | _ => JStr "Body không phải JSON. Raw: "
  end.

(** The error of a sub-request that did not answer 200. *)
Definition error_of_body (body_json : json) : json :=
  match body_json with
  | JDict d => match dict_get "error" d with Some e => e | None => body_json end
  | _ => body_json
  end.

(** The body of the loop over [enumerate(data)]. *)
Definition process_item (normalized_urls : list string) (i : nat) (item : json)
  : outcome pydict :=
  let result_item : pydict :=
    [("request_index", JInt (Z.of_nat i));
     ("requested_url",
        match normalized_urls !! i with Some u => JStr u | None => JNull end);
     ("status_code", JNull);
     ("data", JNull);
     ("error", JNull)] in
  match item with
  | JNull => Ok (dict_set "error" NULL_RESULT result_item)
  | _ =>
      code ← py_get item "code" JNull;
      let result_item := dict_set "status_code" code result_item in
      body_text ← py_get item "body" (JStr EmptyString);
      match (if truthy body_text then py_json_loads loads body_text
             else Ok (JDict [])) with
      | Raise JSONDecodeError =>
          Ok (dict_set "error" (body_not_json body_text) result_item)
      | Raise e => Raise e
      | Ok body_json =>
          if py_eq_int code 200
          then Ok (dict_set "data" body_json result_item)
          else Ok (dict_set "error" (error_of_body body_json) result_item)
      end
  end.

Fixpoint process_items (normalized_urls : list string) (i : nat) (data : list json)
  : outcome (list pydict) :=
  match data with
  | [] => Ok []
  | item :: rest =>
      r ← process_item normalized_urls i item;
      rs ← process_items normalized_urls (S i) rest;
      mret (r :: rs)
  end.

(** [resp.json()], where only [json.JSONDecodeError] is caught, and what
    follows it. *)
Definition process_response (normalized_urls : list string) (text : string)
  : outcome (list pydict) :=
  match loads text with
  | Undecoded NotJson =>
      Raise (RuntimeError (ResponseNotJson (take_chars 1000 text)))
  | Undecoded f => Raise (decode_error f)
  | Decoded data =>
      match data with
      | JDict d =>
          match dict_get "error" d with
          | Some err =>
              msg ← py_get err "message" JNull;
              code ← py_get err "code" JNull;
              etype ← py_get err "type" JNull;
              Raise (RuntimeError (TopLevelError msg etype code))
          | None => Raise (RuntimeError (ResponseNotList data))
          end
      | JList items => process_items normalized_urls 0 items
      | _ => Raise (RuntimeError (ResponseNotList data))
      end
  end.

Definition make_call (api_version access_token : string)
    (normalized_urls : list string) (timeout_sec : Z) : Call :=
  {| call_url := "https://graph.facebook.com/" ++ api_version;
     call_access_token := access_token;
     call_batch := batch_payload normalized_urls;
     call_ensure_ascii := false;
     call_include_headers := "true";
     call_timeout := timeout_sec |}.

(** [send_batch_to_facebook]: the outbound calls made, in order, and the
    result or the exception. *)
Definition send_batch_to_facebook (net : Network)
    (relative_urls : list string) (access_token : string)
    (api_version : string) (timeout_sec : Z)
  : list Call * outcome (list pydict) :=
  if bad_token access_token then ([], Raise (ValueError InvalidAccessToken))
  else if bad_count relative_urls
  then ([], Raise (ValueError (UrlCountOutOfRange (length relative_urls))))
  else
    match normalize_urls api_version relative_urls with
    | Raise e => ([], Raise e)
    | Ok normalized_urls =>
        let call := make_call api_version access_token normalized_urls timeout_sec in
        ([call],
         match net call with
         | RequestFailed e => Raise (RuntimeError (CallFailed e))
         | HttpResponse text => process_response normalized_urls text
         end)
    end.

End Sender.

Section Endpoints.

Variable loads : string -> decoded.

(** [GET /batch]: the calls made and the answer. *)
Definition process_batch_request_get (net : Network)
    (access_token : string) (relative_urls : list string)
  : list Call * answer pydict :=
  let '(calls, o) :=
    send_batch_to_facebook loads net relative_urls access_token API_VERSION 120 in
  (calls,
   match o with
   | Ok results =>
       Returned [("status", JStr "success"); ("results", JList (map JDict results))]
   | Raise e => Raised (http_error_of "Internal error: " e)
   end).

(** [POST /batch] *)
Definition process_batch_request_post (net : Network) (payload : BatchRequest)
  : list Call * answer pydict :=
  let '(calls, o) :=
    send_batch_to_facebook loads net (relative_urls payload) (access_token payload)
      API_VERSION 120 in
  (calls,
   match o with
   | Ok results =>
       Returned [("status", JStr "success"); ("results", JList (map JDict results))]
   | Raise e => Raised (http_error_of "Internal error: " e)
   end).

(** [GET /health] *)
Definition health : pydict := [("ok", JBool true)].

End Endpoints.

End Main.

(** ** test2.py *)

(** The three accumulators of [_summarize_rate_limits_from_batch]. *)
Record agg_state : Type := {
  app_usage_values : list float;
  account_usages : gmap string float;
  st_etas : gmap string json
}.

(** Its return value: [insights_app_usage] and the two mappings of
    [account_details]. *)
Record RateLimitSummary : Type := {
  insights_app_usage : option float;
  insights_account_usages : gmap string float;
  etas : gmap string json
}.

(** Statements that update the accumulators and may raise: the accumulators
    are Python objects mutated in place, so what was written before an
    exception stays written. *)
Definition St (A : Type) : Type := agg_state -> agg_state * outcome A.

Definition st_ret {A} (a : A) : St A := fun st => (st, Ok a).

Definition st_bind {A B} (m : St A) (f : A -> St B) : St B :=
  fun st =>
    match m st with
    | (st', Ok a) => f a st'
    | (st', Raise e) => (st', Raise e)
    end.

Definition lift {A} (o : outcome A) : St A := fun st => (st, o).
Definition gets {A} (f : agg_state -> A) : St A := fun st => (st, Ok (f st)).
Definition modify (f : agg_state -> agg_state) : St unit := fun st => (f st, Ok tt).

#[global] Instance St_ret : MRet St := fun A a => st_ret a.
#[global] Instance St_bind : MBind St := fun A B f m => st_bind m f.

(** [try: body  except (json.JSONDecodeError, TypeError): pass] *)
Definition try_pass (body : St unit) : St unit :=
  fun st =>
    match body st with
    | (st', Raise JSONDecodeError) => (st', Ok tt)
    | (st', Raise TypeError) => (st', Ok tt)
    | r => r
    end.

(** [for x in l: body] *)
Fixpoint for_each {A} (l : list A) (body : A -> St unit) : St unit :=
  match l with
  | [] => st_ret tt
  | x :: rest => st_bind (body x) (fun _ => for_each rest body)
  end.

Definition append_app_usage (v : float) (st : agg_state) : agg_state :=
  {| app_usage_values := app_usage_values st ++ [v];
     account_usages := account_usages st;
     st_etas := st_etas st |}.

Definition set_account_usage (acc : string) (v : float) (st : agg_state) : agg_state :=
  {| app_usage_values := app_usage_values st;
     account_usages := <[acc := v]> (account_usages st);
     st_etas := st_etas st |}.

Definition set_eta (key : string) (v : json) (st : agg_state) : agg_state :=
  {| app_usage_values := app_usage_values st;
     account_usages := account_usages st;
     st_etas := <[key := v]> (st_etas st) |}.

Definition init_state : agg_state :=
  {| app_usage_values := []; account_usages := ∅; st_etas := ∅ |}.

(** Statements over a state of any type [S], as [St] is over [agg_state]. *)
Definition Stm (S A : Type) : Type := S -> S * outcome A.

Definition stm_ret {S A} (a : A) : Stm S A := fun s => (s, Ok a).

Definition stm_bind {S A B} (m : Stm S A) (f : A -> Stm S B) : Stm S B :=
  fun s =>
    match m s with
    | (s', Ok a) => f a s'
    | (s', Raise e) => (s', Raise e)
    end.

Definition stm_lift {S A} (o : outcome A) : Stm S A := fun s => (s, o).
Definition stm_gets {S A} (f : S -> A) : Stm S A := fun s => (s, Ok (f s)).
Definition stm_modify {S} (f : S -> S) : Stm S unit := fun s => (f s, Ok tt).

(** [try: body  except (json.JSONDecodeError, TypeError): pass] *)
Definition stm_try_pass {S} (body : Stm S unit) : Stm S unit :=
  fun s =>
    match body s with
    | (s', Raise JSONDecodeError) => (s', Ok tt)
    | (s', Raise TypeError) => (s', Ok tt)
    | r => r
    end.

(** [for x in l: body] *)
Fixpoint stm_for_each {S A} (l : list A) (body : A -> Stm S unit) : Stm S unit :=
  match l with
  | [] => stm_ret tt
  | x :: rest => stm_bind (body x) (fun _ => stm_for_each rest body)
  end.

(** [cur + x] for a number [cur]: the sum of two [int]s (a [bool] counts as
    one) is an [int]; in a sum with a [float] the other number is converted
    as by [float(n)], which raises [OverflowError] for an integer out of
    range, and the sum is the [float] nearest to the sum of the two; adding
    a value that is not a number to a number raises [TypeError]. *)
Definition py_add (cur x : json) : outcome json :=
  match int_of cur, int_of x with
  | Some a, Some b => Ok (JInt (a + b))
  | _, _ =>
      if is_number cur && is_number x
      then a ← py_float cur; b ← py_float x; Ok (JFloat (float_add a b))
      else Raise TypeError
  end.

(** The characters of a [str], each with the bytes that continue it. *)
Fixpoint chars (s : string) : list json :=
  match s with
  | EmptyString => []
  | String c rest =>
      match rest with
      | String c2 _ =>
          if is_continuation c2
          then match chars rest with
               | JStr t :: ts => JStr (String c t) :: ts
               | l => JStr (String c EmptyString) :: l
               end
          else JStr (String c EmptyString) :: chars rest
      | EmptyString => [JStr (String c EmptyString)]
      end
  end.

(** [for entry in v]: the elements of a [list], the characters of a [str],
    the keys of a [dict]; the other values are not iterable. *)
Definition py_iter (v : json) : outcome (list json) :=
  match v with
  | JList l => Ok l
  | JStr s => Ok (chars s)
  | JDict d => Ok (map (fun kv => JStr (fst kv)) d)
  | _ => Raise TypeError
  end.

(** The value of [account_costs] for an account in [_log_batch_summary]. *)
Record cost : Type := {
  total_cputime : json;
  total_time : json;
  max_eta : json
}.

Definition zero_cost : cost :=
  {| total_cputime := JInt 0; total_time := JInt 0; max_eta := JInt 0 |}.

(** The counters and collections of [_log_batch_summary]. *)
Record log_state : Type := {
  successful_calls : nat;
  failed_calls : nat;
  log_app_usage_values : list float;
  account_costs : gmap string cost
}.

Definition init_log_state : log_state :=
  {| successful_calls := 0; failed_calls := 0;
     log_app_usage_values := []; account_costs := ∅ |}.

(** [str(v)] of a number: an [int] of more than [max_str_digits] digits has
    no text, and [str] raises [ValueError] for it. *)
Definition printable (v : json) : bool :=
  match v with
  | JInt z => Z.abs z <? 10 ^ Z.of_nat max_str_digits
  | _ => true
  end.

(** The three numbers of every row of the table have a text (lines
    114-119). *)
Definition rows_printable (costs : gmap string cost) : bool :=
  forallb (fun kv => printable (total_cputime (snd kv))
                     && printable (total_time (snd kv))
                     && printable (max_eta (snd kv)))
          (map_to_list costs).

(** What [_log_batch_summary] prints: the three counts, the maximum of the
    application usages ([N/A] when there is none) and one table row for each
    account.  The layout of the text is not modelled, and the standard output
    is taken to accept what is written to it. *)
Record batch_summary : Type := {
  total_requests : nat;
  successful : nat;
  failed : nat;
  max_app_usage : option float;
  costs : gmap string cost
}.

(** The body of the answer of [POST /batch] in [test2.py]. *)
Record BatchResponse : Type := {
  response_status : string;
  rate_limit_summary : RateLimitSummary;
  response_results : list pydict
}.

(** The response model of [GET /rate_limit]. *)
Record RateLimitResponse : Type := {
  app_id_util_pct : option float;
  acc_id_util_pct : gmap string float;
  message : string
}.

Module Test2.

Section Sender.

Variable loads : string -> decoded.

Definition BODY_NOT_JSON : json := JDict [("message", JStr "Body không phải JSON.")].
Definition NULL_RESULT : json := JDict [("message", JStr "Kết quả NULL.")].

(** The body of the loop over [enumerate(data)].  The dictionary display is
    evaluated first, left to right: [normalized_urls[i]], then
    [item.get("code")] and [item.get("headers", [])]. *)
Definition process_item (normalized_urls : list string) (i : nat) (item : json)
  : outcome pydict :=
  url ← match normalized_urls !! i with
        | Some u => Ok (JStr u)
        | None => Raise IndexError
        end;
  code ← py_get item "code" JNull;
  headers ← py_get item "headers" (JList []);
  let result_item : pydict :=
    [("request_index", JInt (Z.of_nat i));
     ("requested_url", url);
     ("status_code", code);
     ("headers", headers);
     ("data", JNull);
     ("error", JNull)] in
  if truthy item then
    body ← py_get item "body" (JStr "{}");
    match py_json_loads loads body with
    | Raise JSONDecodeError => Ok (dict_set "error" BODY_NOT_JSON result_item)
    | Raise e => Raise e
    | Ok body_json =>
        if py_eq_int code 200
        then Ok (dict_set "data" body_json result_item)
        else
          e ← py_get body_json "error" body_json;
          Ok (dict_set "error" e result_item)
    end
  else Ok (dict_set "error" NULL_RESULT result_item).

Fixpoint process_items (normalized_urls : list string) (i : nat) (data : list json)
  : outcome (list pydict) :=
  match data with
  | [] => Ok []
  | item :: rest =>
      r ← process_item normalized_urls i item;
      rs ← process_items normalized_urls (S i) rest;
      mret (r :: rs)
  end.

(** What follows [requests.post]: [resp.json()] is not guarded here. *)
Definition process_response (normalized_urls : list string) (text : string)
  : outcome (list pydict) :=
  match loads text with
  | Undecoded f => Raise (decode_error f)
  | Decoded (JList items) => process_items normalized_urls 0 items
  | Decoded data => Raise (RuntimeError (ResponseNotList data))
  end.

Definition make_call (api_version access_token : string)
    (normalized_urls : list string) (timeout_sec : Z) : Call :=
  {| call_url := "https://graph.facebook.com/" ++ api_version;
     call_access_token := access_token;
     call_batch := batch_payload normalized_urls;
     call_ensure_ascii := true;
     call_include_headers := "true";
     call_timeout := timeout_sec |}.

(** [send_batch_to_facebook]: the outbound calls made, in order, and the
    result or the exception. *)
Definition send_batch_to_facebook (net : Network)
    (relative_urls : list string) (access_token : string)
    (api_version : string) (timeout_sec : Z)
  : list Call * outcome (list pydict) :=
  if bad_token access_token then ([], Raise (ValueError InvalidAccessToken))
  else if bad_count relative_urls
  then ([], Raise (ValueError (UrlCountOutOfRange (length relative_urls))))
  else
    let normalized_urls := map lstrip_slash relative_urls in
    let call := make_call api_version access_token normalized_urls timeout_sec in
    ([call],
     match net call with
     | RequestFailed e => Raise (RuntimeError (CallFailed e))
     | HttpResponse text => process_response normalized_urls text
     end).

End Sender.

Section Aggregator.

Variable loads : string -> decoded.

(** [name.lower()]: only a [str] has [lower]. *)
Definition py_lower (v : json) : outcome string :=
  match v with
  | JStr s => Ok (lower s)
  | _ => Raise AttributeError
  end.

(** The dict comprehension over the elements of a list of headers. *)
Fixpoint headers_of_list (hs : list json) (acc : pydict) : outcome pydict :=
  match hs with
  | [] => Ok acc
  | h :: rest =>
      name ← py_get h "name" (JStr EmptyString);
      key ← py_lower name;
      value ← py_get h "value" JNull;
      headers_of_list rest (dict_set key value acc)
  end.

(** The dictionary of lower-cased header names to header values, for a
    [headers_list] that is not falsy: the elements of a [str] and the keys of a
    [dict] are strings, which have no [get]; a number is not iterable. *)
Definition headers_dict_of (headers_list : json) : outcome pydict :=
  match headers_list with
  | JList hs => headers_of_list hs []
  | JStr _ | JDict _ => Raise AttributeError
  | _ => Raise TypeError
  end.

(** Lines 251-257: the account of the request, from its path. *)
Definition acc_id_from_url (result : pydict) : option string :=
  match dict_get_default "requested_url" result (JStr EmptyString) with
  | JStr s =>
      let a := first_segment s in
      if startswith a "act_" then Some a else None
  | _ => None
  end.

(** Lines 260-268. *)
Definition throttle_block (headers_dict : pydict) (acc : option string) : St unit :=
  let throttle_str :=
    dict_get_default "x-fb-ads-insights-throttle" headers_dict (JStr "{}") in
  try_pass (
    throttle ← lift (py_json_loads loads throttle_str);
    app ← lift (py_get throttle "app_id_util_pct" JNull);
    (if is_number app
     then v ← lift (py_float app); modify (append_app_usage v)
     else mret tt);;
    match acc with
    | Some a =>
        accv ← lift (py_get throttle "acc_id_util_pct" JNull);
        if is_number accv
        then v ← lift (py_float accv); modify (set_account_usage a v)
        else mret tt
    | None => mret tt
    end).

(** [buc.items()] *)
Definition py_items (v : json) : outcome pydict :=
  match v with
  | JDict d => Ok d
  | _ => Raise AttributeError
  end.

(** Lines 277-279, for one entry of one account. *)
Definition eta_entry (buc_acc_id : string) (entry : json) : St unit :=
  entry_eta ← lift (py_get entry "estimated_time_to_regain_access" (JInt 0));
  cur ← gets (fun st => default (JInt 0) (st_etas st !! buc_acc_id));
  m ← lift (py_max2 cur entry_eta);
  modify (set_eta ("act_" ++ buc_acc_id) m).

(** Lines 271-281. *)
Definition buc_block (headers_dict : pydict) : St unit :=
  let buc_str :=
    dict_get_default "x-business-use-case-usage" headers_dict (JStr "{}") in
  try_pass (
    buc ← lift (py_json_loads loads buc_str);
    items ← lift (py_items buc);
    for_each items (fun '(buc_acc_id, entries) =>
      match entries with
      | JList es => for_each es (eta_entry buc_acc_id)
      | _ => mret tt
      end)).

(** The body of the loop over [results]. *)
Definition summarize_result (result : pydict) : St unit :=
  let headers_list := dict_get_default "headers" result (JList []) in
  if negb (truthy headers_list) then mret tt
  else
    headers_dict ← lift (headers_dict_of headers_list);
    let acc := acc_id_from_url result in
    throttle_block headers_dict acc;;
    buc_block headers_dict.

Definition summary_of (st : agg_state) : RateLimitSummary :=
  {| insights_app_usage := py_max_floats (app_usage_values st);
     insights_account_usages := account_usages st;
     etas := st_etas st |}.

Definition _summarize_rate_limits_from_batch (results : list pydict)
  : outcome RateLimitSummary :=
  match for_each results summarize_result init_state with
  | (st, Ok _) => Ok (summary_of st)
  | (_, Raise e) => Raise e
  end.

End Aggregator.

Section Logging.

Variable loads : string -> decoded.

#[local] Instance Stm_ret : MRet (Stm log_state) := fun A a => stm_ret a.
#[local] Instance Stm_bind : MBind (Stm log_state) := fun A B f m => stm_bind m f.

Definition count_call (ok : bool) (st : log_state) : log_state :=
  {| successful_calls := if ok then S (successful_calls st) else successful_calls st;
     failed_calls := if ok then failed_calls st else S (failed_calls st);
     log_app_usage_values := log_app_usage_values st;
     account_costs := account_costs st |}.

Definition log_append_app_usage (v : float) (st : log_state) : log_state :=
  {| successful_calls := successful_calls st;
     failed_calls := failed_calls st;
     log_app_usage_values := log_app_usage_values st ++ [v];
     account_costs := account_costs st |}.

Definition set_cost (acc_id : string) (c : cost) (st : log_state) : log_state :=
  {| successful_calls := successful_calls st;
     failed_calls := failed_calls st;
     log_app_usage_values := log_app_usage_values st;
     account_costs := <[acc_id := c]> (account_costs st) |}.

(** Lines 78-79: a first entry for an account that has none. *)
Definition init_cost (acc_id : string) (st : log_state) : log_state :=
  match account_costs st !! acc_id with
  | Some _ => st
  | None => set_cost acc_id zero_cost st
  end.

Definition cost_of (acc_id : string) (st : log_state) : cost :=
  default zero_cost (account_costs st !! acc_id).

(** Lines 67-72. *)
Definition log_throttle (headers_dict : pydict) : Stm log_state unit :=
  stm_try_pass (
    throttle ← stm_lift (py_json_loads loads
      (dict_get_default "x-fb-ads-insights-throttle" headers_dict (JStr "{}")));
    app ← stm_lift (py_get throttle "app_id_util_pct" JNull);
    if is_number app
    then v ← stm_lift (py_float app); stm_modify (log_append_app_usage v)
    else mret tt).

(** Lines 82-87, for one entry of one account. *)
Definition cost_entry (acc_id : string) (entry : json) : Stm log_state unit :=
  x ← stm_lift (py_get entry "total_cputime" (JInt 0));
  c ← stm_gets (cost_of acc_id);
  s ← stm_lift (py_add (total_cputime c) x);
  stm_modify (set_cost acc_id
    {| total_cputime := s; total_time := total_time c; max_eta := max_eta c |});;
  y ← stm_lift (py_get entry "total_time" (JInt 0));
  c ← stm_gets (cost_of acc_id);
  s ← stm_lift (py_add (total_time c) y);
  stm_modify (set_cost acc_id
    {| total_cputime := total_cputime c; total_time := s; max_eta := max_eta c |});;
  eta ← stm_lift (py_get entry "estimated_time_to_regain_access" (JInt 0));
  c ← stm_gets (cost_of acc_id);
  m ← stm_lift (py_max2 (max_eta c) eta);
  stm_modify (set_cost acc_id
    {| total_cputime := total_cputime c; total_time := total_time c; max_eta := m |}).

(** Lines 78-87, for one account of the usage header. *)
Definition cost_account (acc_id : string) (entries : json) : Stm log_state unit :=
  stm_modify (init_cost acc_id);;
  es ← stm_lift (py_iter entries);
  stm_for_each es (cost_entry acc_id).

(** Lines 75-89. *)
Definition log_usage (headers_dict : pydict) : Stm log_state unit :=
  stm_try_pass (
    buc ← stm_lift (py_json_loads loads
      (dict_get_default "x-business-use-case-usage" headers_dict (JStr "{}")));
    items ← stm_lift (py_items buc);
    stm_for_each items (fun kv => cost_account (fst kv) (snd kv))).

(** The body of the loop over [results], lines 54-89. *)
Definition log_result (result : pydict) : Stm log_state unit :=
  stm_modify (count_call
    (py_eq_int (dict_get_default "status_code" result JNull) 200));;
  let headers_list := dict_get_default "headers" result (JList []) in
  if negb (truthy headers_list) then mret tt
  else
    headers_dict ← stm_lift (headers_dict_of headers_list);
    log_throttle headers_dict;;
    log_usage headers_dict.

(** [_log_batch_summary]: [None] when it returns at once, on an empty list,
    and otherwise what it prints; the [ValueError] of [str] when a number of
    a row is an [int] of too many digits. *)
Definition _log_batch_summary (results : list pydict)
  : outcome (option batch_summary) :=
  match results with
  | [] => Ok None
  | _ =>
      match stm_for_each results log_result init_log_state with
      | (st, Ok _) =>
          if rows_printable (account_costs st)
          then Ok (Some {| total_requests := length results;
                           successful := successful_calls st;
                           failed := failed_calls st;
                           max_app_usage := py_max_floats (log_app_usage_values st);
                           costs := account_costs st |})
          else Raise (ValueError IntegerStringTooLong)
      | (_, Raise e) => Raise e
      end
  end.

End Logging.

Section Endpoints.

Variable loads : string -> decoded.

(** [POST /batch] *)
Definition process_batch_request_post (net : Network) (payload : BatchRequest)
  : list Call * answer BatchResponse :=
  let '(calls, o) :=
    send_batch_to_facebook loads net (relative_urls payload) (access_token payload)
      API_VERSION 180 in
  (calls,
   match (results ← o;
          summary ← _summarize_rate_limits_from_batch loads results;
          _ ← _log_batch_summary loads results;
          mret {| response_status := "success";
                  rate_limit_summary := summary;
                  response_results := results |}) with
   | Ok body => Returned body
   | Raise e => Raised (http_error_of "Internal Server Error: " e)
   end).

(** [f"{acc_id}/insights?fields=account_id&limit=1"] *)
Definition probe_url (acc_id : string) : string :=
  acc_id ++ "/insights?fields=account_id&limit=1".

(** [GET /rate_limit] *)
Definition get_facebook_rate_limit (net : Network)
    (access_token : string) (ad_account_ids : list string)
  : list Call * answer RateLimitResponse :=
  match ad_account_ids with
  | [] =>
      ([], Raised {| status_code := 400;
                     detail_of :=
                       Text "Vui lòng cung cấp ít nhất một ID tài khoản quảng cáo." |})
  | _ =>
      let '(calls, o) :=
        send_batch_to_facebook loads net (map probe_url ad_account_ids)
          access_token API_VERSION 180 in
      (calls,
       match (results ← o; _summarize_rate_limits_from_batch loads results) with
       | Ok summary =>
           Returned {| app_id_util_pct := insights_app_usage summary;
                       acc_id_util_pct := insights_account_usages summary;
                       message := "Truy vấn thành công." |}
       | Raise e =>
           Raised {| status_code := 500;
                     detail_of := FromException "Internal Server Error: " e |}
       end)
  end.

(** [GET /health] *)
Definition health : pydict := [("status", JStr "ok")].

End Endpoints.

End Test2.

(** * Notions of the specification *)

(** ** The loop of the senders *)

(** The loop over [enumerate(data)], for a loop body: [process_items] of
    [main.py] and of [test2.py] are this loop for their [process_item]. *)
Fixpoint item_loop (process_item : list string -> nat -> json -> outcome pydict)
    (normalized_urls : list string) (i : nat) (data : list json)
  : outcome (list pydict) :=
  match data with
  | [] => Ok []
  | item :: rest =>
      r ← process_item normalized_urls i item;
      rs ← item_loop process_item normalized_urls (S i) rest;
      mret (r :: rs)
  end.

(** ** Results *)

(** The success payload and the error of a result are not both set. *)
Definition exclusive (r : pydict) : Prop :=
  dict_get "data" r = Some JNull \/ dict_get "error" r = Some JNull.

(** A result without headers: [headers] is missing, [None] or empty. *)
Definition headerless (result : pydict) : bool :=
  negb (truthy (dict_get_default "headers" result (JList []))).

Definition empty_summary : RateLimitSummary :=
  {| insights_app_usage := None; insights_account_usages := ∅; etas := ∅ |}.

(** ** What the aggregator reads from a result *)

(** The value of the last header of [hs] whose name is [name] once in lower
    case ([None] as value when the header has none). *)
Fixpoint last_header (name : string) (hs : list json) : option json :=
  match hs with
  | [] => None
  | h :: rest =>
      match last_header name rest with
      | Some v => Some v
      | None =>
          match h with
          | JDict d =>
              match dict_get_default "name" d (JStr EmptyString) with
              | JStr n =>
                  if String.eqb (lower n) name
                  then Some (dict_get_default "value" d JNull)
                  else None
              | _ => None
              end
          | _ => None
          end
      end
  end.

(** The text the aggregator decodes for the header [name]: an empty object
    when the header is absent. *)
Definition header_text (name : string) (hs : list json) : json :=
  default (JStr "{}") (last_header name hs).

(** The [float] of the number stored under [k], if there is one and it is in
    the range of the [float]s; [overflows_at] when there is one and it is
    not, so that [float] raises [OverflowError]. *)
Definition number_at (k : string) (t : pydict) : option float :=
  let v := dict_get_default k t JNull in
  if is_number v
  then match py_float v with Ok f => Some f | Raise _ => None end
  else None.

Definition overflows_at (k : string) (t : pydict) : bool :=
  let v := dict_get_default k t JNull in
  is_number v && match py_float v with Ok _ => false | Raise _ => true end.

Section Observed.

Variable loads : string -> decoded.

(** The throttle header of a result, decoded, when the result has a non-empty
    list of headers and the text decodes to an object. *)
Definition throttle_of (result : pydict) : option pydict :=
  match dict_get_default "headers" result (JList []) with
  | JList (h :: hs) =>
      match py_json_loads loads
              (header_text "x-fb-ads-insights-throttle" (h :: hs)) with
      | Ok (JDict t) => Some t
      | _ => None
      end
  | _ => None
  end.

(** The [app_id_util_pct] values a result contributes: none or one. *)
Definition observed_app_usage (result : pydict) : list float :=
  match throttle_of result ≫= number_at "app_id_util_pct" with
  | Some q => [q]
  | None => []
  end.

(** The [acc_id_util_pct] value a result contributes for the account [acc]:
    the result is for [acc] when the first segment of its path is [acc] and
    starts with [act_]. *)
Definition observed_account_usage (acc : string) (result : pydict) : option float :=
  match Test2.acc_id_from_url result with
  | Some a =>
      if String.eqb a acc
      then throttle_of result ≫= number_at "acc_id_util_pct"
      else None
  | None => None
  end.

End Observed.

(** [a <= b] on what two numbers are worth: neither is a NaN and [a] is not
    greater than [b]. *)
Definition x_le (a b : xnum) : bool :=
  match a, b with
  | XNaN, _ | _, XNaN => false
  | _, _ => negb (x_gt a b)
  end.

Definition float_le (x y : float) : Prop :=
  x_le (float_val x) (float_val y) = true.

(** [m] is absent when [l] is empty, and otherwise a member of [l] that no
    member is greater than; [is_max_of] when every member is less than or
    equal to it. *)
Definition not_exceeded (m : option float) (l : list float) : Prop :=
  match m with
  | None => l = []
  | Some q => In q l /\ forall x, In x l -> float_gt x q = false
  end.

Definition is_max_of (m : option float) (l : list float) : Prop :=
  match m with
  | None => l = []
  | Some q => In q l /\ forall x, In x l -> float_le x q
  end.

(** What the throttle block does to the accumulators, for a decoded header
    whose numbers are in the range of the [float]s. *)
Definition throttle_update (acc : option string) (t : pydict) (st : agg_state)
  : agg_state :=
  let st1 := match number_at "app_id_util_pct" t with
             | Some q => append_app_usage q st
             | None => st
             end in
  match acc, number_at "acc_id_util_pct" t with
  | Some a, Some q => set_account_usage a q st1
  | _, _ => st1
  end.

(** The throttle block raises [OverflowError] for a decoded header:
    [app_id_util_pct] is out of range or, for a result that has an account,
    [acc_id_util_pct] is; and the accumulators when it does. *)
Definition throttle_overflows (acc : option string) (t : pydict) : bool :=
  overflows_at "app_id_util_pct" t
  || (bool_decide (is_Some acc) && overflows_at "acc_id_util_pct" t).

Definition throttle_partial (t : pydict) (st : agg_state) : agg_state :=
  if overflows_at "app_id_util_pct" t then st
  else match number_at "app_id_util_pct" t with
       | Some q => append_app_usage q st
       | None => st
       end.

(** Two states with the same usage accumulators. *)
Definition same_usage (st st' : agg_state) : Prop :=
  app_usage_values st' = app_usage_values st /\
  account_usages st' = account_usages st.

(** Headers as the aggregator expects them: a header is an object whose name,
    if it has one, is a string; the text of the throttle header decodes to an
    object whose two usages, if they are numbers, are in the range of the
    [float]s, or it is not a string or not JSON; the text of the usage header
    decodes to an object, where the entries listed for an account are
    objects, or it is not a string or not JSON. *)
Definition wf_header (h : json) : bool :=
  match h with
  | JDict d =>
      match dict_get_default "name" d (JStr EmptyString) with
      | JStr _ => true
      | _ => false
      end
  | _ => false
  end.

Definition is_dict (v : json) : bool :=
  match v with JDict _ => true | _ => false end.

(** [except (json.JSONDecodeError, TypeError)] *)
Definition is_skipped (e : exn) : bool :=
  match e with
  | JSONDecodeError | TypeError => true
  | _ => false
  end.

Definition wf_throttle (loads : string -> decoded) (text : json) : bool :=
  match py_json_loads loads text with
  | Ok (JDict t) =>
      negb (overflows_at "app_id_util_pct" t)
      && negb (overflows_at "acc_id_util_pct" t)
  | Ok _ => false
  | Raise e => is_skipped e
  end.

Definition wf_usage (loads : string -> decoded) (text : json) : bool :=
  match py_json_loads loads text with
  | Ok (JDict items) =>
      forallb (fun '(_, entries) =>
                 match entries with
                 | JList es => forallb is_dict es
                 | _ => true
                 end) items
  | Ok _ => false
  | Raise e => is_skipped e
  end.

Definition wf_result (loads : string -> decoded) (result : pydict) : bool :=
  match dict_get_default "headers" result (JList []) with
  | JList hs =>
      forallb wf_header hs
      && wf_throttle loads (header_text "x-fb-ads-insights-throttle" hs)
      && wf_usage loads (header_text "x-business-use-case-usage" hs)
  | v => negb (truthy v)
  end.

(** Every eta stored is a number. *)
Definition etas_numeric (st : agg_state) : Prop :=
  map_Forall (fun (_ : string) v => is_number v = true) (st_etas st).

(** ** Inputs of the examples *)

(** A network that answers every call with the text [text]. *)
Definition upstream (text : string) : Network := fun _ => HttpResponse text.

(** An upstream answer with a null element, a failed sub-request and a
    successful one. *)
Definition mixed_response : string :=
  js "[null, {'code': 400, 'body': '{\'error\': {\'code\': 100}}'}, {'code': 200, 'body': '{\'id\': \'1\'}'}]".

Definition three_paths : list string := ["me"; "/act_1/ads"; "me/accounts"].

(** A result as [send_batch_to_facebook] of [test2.py] builds it for a
    sub-request that answered 200 with an empty object, with the given
    response headers. *)
Definition result_with_headers (i : Z) (url : string)
    (headers : list (string * string)) : pydict :=
  [("request_index", JInt i);
   ("requested_url", JStr url);
   ("status_code", JInt 200);
   ("headers",
      JList (map (fun '(n, v) => JDict [("name", JStr n); ("value", JStr v)]) headers));
   ("data", JDict []);
   ("error", JNull)].

Definition usage_120_then_0 : string :=
  js "{'123': [{'type': 'ads_insights', 'estimated_time_to_regain_access': 120}, {'type': 'ads_management', 'estimated_time_to_regain_access': 0}]}".

Definition usage_0_then_120 : string :=
  js "{'123': [{'type': 'ads_management', 'estimated_time_to_regain_access': 0}, {'type': 'ads_insights', 'estimated_time_to_regain_access': 120}]}".

Definition throttle (app acc : string) : string :=
  js "{'app_id_util_pct': " ++ app ++ js ", 'acc_id_util_pct': " ++ acc ++ "}".

(** [s] as a JSON string: between double quotes, with a backslash before its
    double quotes and backslashes. *)
Fixpoint escaped (s : string) : string :=
  match s with
  | EmptyString => EmptyString
  | String c rest =>
      if Ascii.eqb c dquote || Ascii.eqb c "\"%char
      then String "\"%char (String c (escaped rest))
      else String c (escaped rest)
  end.

Definition quoted (s : string) : string :=
  String dquote (escaped s ++ String dquote EmptyString).

(** The answer of the upstream to one sub-request, with the usage header
    [usage_120_then_0] echoed. *)
Definition usage_response : string :=
  js "[{'code': 200, 'headers': [{'name': 'x-business-use-case-usage', 'value': "
  ++ quoted usage_120_then_0 ++ js "}], 'body': '{}'}]".

(** Two results for the account [act_1], the first reporting 10.0 for the
    application and 50 for the account, the second 25.0 and 10. *)
Definition two_throttled : list pydict :=
  [result_with_headers 0 "act_1/insights"
     [("X-FB-Ads-Insights-Throttle", throttle "10.0" "50")];
   result_with_headers 1 "act_1/campaigns"
     [("x-fb-ads-insights-throttle", throttle "25.0" "10")]].

(** [n] zeros. *)
Fixpoint zeros (n : nat) : string :=
  match n with
  | O => EmptyString
  | S n' => String "0"%char (zeros n')
  end.

(** A result for [act_1] that reports 25.0 for the application, followed by a
    result whose throttle header decodes to an array; by one whose
    [app_id_util_pct] is the integer 10 to the 400. *)
Definition usage_then_array : list pydict :=
  [result_with_headers 0 "act_1/insights"
     [("x-fb-ads-insights-throttle", throttle "25.0" "10")];
   result_with_headers 1 "act_1/ads" [("x-fb-ads-insights-throttle", "[]")]].

Definition usage_then_huge : list pydict :=
  [result_with_headers 0 "act_1/insights"
     [("x-fb-ads-insights-throttle", throttle "25.0" "10")];
   result_with_headers 1 "act_1/ads"
     [("x-fb-ads-insights-throttle", throttle ("1" ++ zeros 400) "1")]].

(** Two results that report a NaN and then 5.0 for the application. *)
Definition nan_then_five : list pydict :=
  [result_with_headers 0 "act_1/insights"
     [("x-fb-ads-insights-throttle", throttle "NaN" "1")];
   result_with_headers 1 "act_1/ads"
     [("x-fb-ads-insights-throttle", throttle "5.0" "1")]].

(** Results without headers: as [main.py] builds them, and with an empty
    list. *)
Definition without_headers : list pydict :=
  [[("request_index", JInt 0); ("requested_url", JStr "act_1/ads");
    ("status_code", JInt 200); ("data", JDict []); ("error", JNull)];
   result_with_headers 1 "act_1/insights" []].

(** ** Upstream elements and submitted paths *)

(** The exceptions of the decoder that [except json.JSONDecodeError] does
    not catch. *)
Definition decoder_escape (e : exn) : Prop :=
  e = ValueError IntegerStringTooLong \/ e = RecursionError.

(** An element of the upstream array as [main.py] expects it: null, or an
    object whose body is absent, empty, or a string that decodes or is not
    JSON. *)
Definition wf_item (loads : string -> decoded) (item : json) : bool :=
  match item with
  | JNull => true
  | JDict d =>
      match dict_get_default "body" d (JStr EmptyString) with
      | JStr s =>
          String.eqb s EmptyString
          || match loads s with
             | Decoded _ | Undecoded NotJson => true
             | Undecoded _ => false
             end
      | v => negb (truthy v)
      end
  | _ => false
  end.

(** [n] slashes. *)
Fixpoint slashes (n : nat) : string :=
  match n with
  | O => EmptyString
  | S n' => String "/"%char (slashes n')
  end.

(** The first segment of a path once its leading slashes are stripped. *)
Definition leading_segment (url : string) : string :=
  first_segment (lstrip_slash url).

(** ** What [_log_batch_summary] reads from a result *)

(** [result.get("status_code") == 200] *)
Definition is_200 (result : pydict) : bool :=
  py_eq_int (dict_get_default "status_code" result JNull) 200.

(** The eta of an entry of the usage header, 0 when the entry has none. *)
Definition eta_of (d : pydict) : json :=
  dict_get_default "estimated_time_to_regain_access" d (JInt 0).

(** [isinstance(v, int)] *)
Definition is_int (v : json) : bool :=
  match v with
  | JInt _ | JBool _ => true
  | _ => false
  end.

(** An entry whose two costs are integers or absent and whose eta is a number
    or absent. *)
Definition wf_cost_entry (entry : json) : bool :=
  match entry with
  | JDict d =>
      is_int (dict_get_default "total_cputime" d (JInt 0))
      && is_int (dict_get_default "total_time" d (JInt 0))
      && is_number (eta_of d)
  | _ => false
  end.

(** A decoded usage header that maps every account to a list of such
    entries. *)
Definition wf_cost_items (items : pydict) : bool :=
  forallb (fun kv => match snd kv with
                     | JList es => forallb wf_cost_entry es
                     | _ => false
                     end) items.

(** [v] is the eta of an entry of [es]; of an entry listed for [acc] in
    [items]. *)
Definition reported_in_entries (es : list json) (v : json) : Prop :=
  exists d, In (JDict d) es /\ eta_of d = v.

Definition reported_in_items (items : pydict) (acc : string) (v : json) : Prop :=
  exists es, In (acc, JList es) items /\ reported_in_entries es v.

(** [m] is the maximum of 0 and of the etas of [R]: a number that is not a
    NaN and not less than 0, that no eta of [R] is greater than, and that is
    the initial 0 or one of these etas. *)
Definition is_max_eta (R : json -> Prop) (m : json) : Prop :=
  (exists x, num_of m = Some x /\
             x_le (XFin 0) x = true /\
             forall v y, R v -> num_of v = Some y -> x_gt y x = false) /\
  (m = JInt 0 \/ R m).

(** [c] is a cost whose sums are integers and whose [max_eta] is the maximum
    of 0 and of the etas of [R]. *)
Definition cost_ok (R : json -> Prop) (c : cost) : Prop :=
  is_int (total_cputime c) = true /\
  is_int (total_time c) = true /\
  is_max_eta R (max_eta c).

(** Every account that has a cost has one that is right for the etas [R]
    gives it, and the other accounts have no eta in [R]. *)
Definition costs_ok (R : string -> json -> Prop) (st : log_state) : Prop :=
  forall acc,
    match account_costs st !! acc with
    | Some c => cost_ok (R acc) c
    | None => forall v, ~ R acc v
    end.

Section LogObserved.

Variable loads : string -> decoded.

(** The usage header of a result, decoded, when the result has a non-empty
    list of headers and the text decodes to an object. *)
Definition usage_of (result : pydict) : option pydict :=
  match dict_get_default "headers" result (JList []) with
  | JList (h :: hs) =>
      match py_json_loads loads
              (header_text "x-business-use-case-usage" (h :: hs)) with
      | Ok (JDict items) => Some items
      | _ => None
      end
  | _ => None
  end.

(** [v] is the eta of an entry that the usage header of one of [results]
    lists for the account [acc]. *)
Definition eta_reported (results : list pydict) (acc : string) (v : json) : Prop :=
  exists r items,
    In r results /\ usage_of r = Some items /\ reported_in_items items acc v.

(** A result as [_log_batch_summary] expects it: no headers, or headers that
    are objects with string names, a throttle text as the aggregator expects
    it, and a usage text that decodes to an object of lists of entries with
    integer costs and numeric etas, or that is not a string or not JSON. *)
Definition wf_log_result (result : pydict) : bool :=
  match dict_get_default "headers" result (JList []) with
  | JList [] => true
  | JList hs =>
      forallb wf_header hs
      && wf_throttle loads (header_text "x-fb-ads-insights-throttle" hs)
      && match py_json_loads loads (header_text "x-business-use-case-usage" hs) with
         | Ok (JDict items) => wf_cost_items items
         | Ok _ => false
         | Raise e => is_skipped e
         end
  | v => negb (truthy v)
  end.

End LogObserved.

(** The counters and the application usages of a state of
    [_log_batch_summary]. *)
Definition log_front (st : log_state) : nat * nat * list float :=
  (successful_calls st, failed_calls st, log_app_usage_values st).

(** Two results: one that answered 200, with a throttle header and the usage
    header [usage_120_then_0], and one that answered 400, without headers. *)
Definition logged_results : list pydict :=
  [result_with_headers 0 "act_123/insights"
     [("x-fb-ads-insights-throttle", throttle "25.0" "10");
      ("x-business-use-case-usage", usage_120_then_0)];
   [("request_index", JInt 1); ("requested_url", JStr "act_123/ads");
    ("status_code", JInt 400); ("headers", JList []); ("data", JNull);
    ("error", JDict [("code", JInt 100)])]].

(** ** The totals of [_log_batch_summary] *)

(** The cost [k] of an entry, 0 when the entry has none. *)
Definition int_at (k : string) (entry : json) : Z :=
  match entry with
  | JDict d => default 0 (int_of (dict_get_default k d (JInt 0)))
  | _ => 0
  end.

(** The sum of the cost [k] over the entries of [es]; over the entries that
    [items] lists for the account [acc]; over those that the usage headers of
    [results] list for it. *)
Definition entries_total (k : string) (es : list json) : Z :=
  fold_right (fun e a => int_at k e + a) 0 es.

Definition items_total (k acc : string) (items : pydict) : Z :=
  fold_right (fun kv a =>
                (if String.eqb (fst kv) acc
                 then match snd kv with
                      | JList es => entries_total k es
                      | _ => 0
                      end
                 else 0) + a) 0 items.

Definition results_total (loads : string -> decoded) (k acc : string)
    (results : list pydict) : Z :=
  fold_right (fun r a =>
                match usage_of loads r with
                | Some items => items_total k acc items
                | None => 0
                end + a) 0 results.

(** The usage header of one of [results] has the account [acc] as a key. *)
Definition account_listed (loads : string -> decoded) (results : list pydict)
    (acc : string) : Prop :=
  exists r items, In r results /\ usage_of loads r = Some items /\
                  In acc (map fst items).

(** The accounts that have a cost are those of [L], and their two totals are
    the integers [f] and [g] give. *)
Definition sums_ok (f g : string -> Z) (L : string -> Prop) (st : log_state)
  : Prop :=
  forall acc,
    match account_costs st !! acc with
    | Some c => total_cputime c = JInt (f acc) /\ total_time c = JInt (g acc) /\ L acc
    | None => f acc = 0 /\ g acc = 0 /\ ~ L acc
    end.


(** ** The keys and the etas of a summary *)

(** The accounts of the two mappings start with [act_], and every eta is a
    number that is not negative. *)
Definition act_key {V} (k : string) (_ : V) : Prop := startswith k "act_" = true.

Definition eta_value (v : json) : Prop :=
  exists x, num_of v = Some x /\ x_le (XFin 0) x = true.

Definition summary_inv (st : agg_state) : Prop :=
  map_Forall act_key (account_usages st) /\
  map_Forall (fun k v => act_key k v /\ eta_value v) (st_etas st).

(** * Properties *)

Ltac case_outcome H :=
  match type of H with
  | context [match ?m with Ok _ => _ | Raise _ => _ end] =>
      let e := fresh "e" in destruct m as [?|e] eqn:?; [|try destruct e]
  | context [if ?b then _ else _] => destruct b eqn:?
  end; try discriminate.

Ltac st_unfold :=
  unfold mbind, mret, St_bind, St_ret, st_bind, st_ret, lift, gets, modify,
    try_pass in *.

(** ** Strings and dictionaries *)

Lemma append_String (a : ascii) (p q : string) :
  (String a p ++ q)%string = String a (p ++ q)%string.
Proof. reflexivity. Qed.

Lemma append_empty (q : string) : (EmptyString ++ q)%string = q.
Proof. reflexivity. Qed.

Lemma prefix_app (p s : string) :
  String.prefix p s = true <-> exists post, s = (p ++ post)%string.
Proof.
  revert s. induction p as [|a p IH]; intros s.
  - split; [intros _; exists s; reflexivity | intros _; destruct s; reflexivity].
  - destruct s as [|b s]; cbn.
    + split; [discriminate | intros [post H]; discriminate].
    + destruct (Ascii.ascii_dec a b) as [->|Hne].
      * rewrite IH. split; intros [post H]; exists post;
          rewrite append_String in *; congruence.
      * split; [discriminate | intros [post H]; rewrite append_String in H; congruence].
Qed.

Lemma contains_unfold (sub s : string) :
  contains sub s =
  String.prefix sub s
  || match s with EmptyString => false | String _ rest => contains sub rest end.
Proof. destruct s; reflexivity. Qed.

Lemma contains_spec (sub s : string) :
  contains sub s = true <-> exists pre post, s = (pre ++ sub ++ post)%string.
Proof.
  split.
  - induction s as [|c s IH]; rewrite contains_unfold; intros H.
    + apply orb_true_iff in H as [H|H]; [|discriminate].
      apply prefix_app in H as [post H]. exists EmptyString, post. exact H.
    + apply orb_true_iff in H as [H|H].
      * apply prefix_app in H as [post H]. exists EmptyString, post. exact H.
      * destruct (IH H) as (pre & post & ->). exists (String c pre), post. reflexivity.
  - intros (pre & post & ->). induction pre as [|c pre IH]; rewrite contains_unfold.
    + rewrite append_empty.
      assert (Hp : String.prefix sub (sub ++ post) = true)
        by (apply prefix_app; eauto).
      rewrite Hp. reflexivity.
    + rewrite append_String, IH. apply orb_true_r.
Qed.

Lemma first_segment_cases (u : string) :
  u = first_segment u \/ exists rest, u = (first_segment u ++ "/" ++ rest)%string.
Proof.
  induction u as [|c u IH]; cbn [first_segment]; [left; reflexivity|].
  destruct (Ascii.eqb_spec c "/"%char) as [->|Hne].
  - right. exists u. reflexivity.
  - destruct IH as [IH|[rest IH]].
    + left. congruence.
    + right. exists rest. rewrite append_String. congruence.
Qed.

Lemma dict_get_set_eq (k : string) (v : json) (d : pydict) :
  dict_get k (dict_set k v d) = Some v.
Proof.
  induction d as [|[k' v'] d IH]; simpl.
  - rewrite String.eqb_refl. reflexivity.
  - destruct (String.eqb k' k) eqn:E; simpl.
    + rewrite String.eqb_refl. reflexivity.
    + rewrite E. exact IH.
Qed.

Lemma dict_get_set_ne (k k' : string) (v : json) (d : pydict) :
  k <> k' -> dict_get k' (dict_set k v d) = dict_get k' d.
Proof.
  intros Hne. induction d as [|[k0 v0] d IH]; simpl.
  - apply String.eqb_neq in Hne. rewrite Hne. reflexivity.
  - destruct (String.eqb k0 k) eqn:E; simpl.
    + apply String.eqb_eq in E. subst k0.
      apply String.eqb_neq in Hne. rewrite Hne. reflexivity.
    + destruct (String.eqb k0 k'); [reflexivity | exact IH].
Qed.

(** ** The reference decoder on examples *)

Example json_loads_object :
  json_loads (js "{ 'a': [1, -2.5, 1e2, true, null], 'b': {'c': 'x\ny'}, 'a': 'last' }")
  = Decoded (JDict [("a", JStr "last");
                    ("b", JDict [("c", JStr (String "x" (String (ascii_of_nat 10) "y")))])]).
Proof. vm_compute. reflexivity. Qed.

Example json_loads_numbers :
  json_loads "[0, -7, 10.0, 2.5e-1, 12E1, 0.1, -0.0, 1e400, 1e-400]"
  = Decoded (JList [JInt 0; JInt (-7);
                    JFloat (S754_finite false 5629499534213120 (-49));
                    JFloat (S754_finite false 4503599627370496 (-54));
                    JFloat (S754_finite false 8444249301319680 (-46));
                    JFloat (S754_finite false 7205759403792794 (-56));
                    JFloat (S754_zero true);
                    JFloat (S754_infinity false);
                    JFloat (S754_zero false)]).
Proof. vm_compute. reflexivity. Qed.

Example json_loads_constants :
  json_loads "[NaN, Infinity, -Infinity]"
  = Decoded (JList [JFloat S754_nan; JFloat (S754_infinity false);
                    JFloat (S754_infinity true)]).
Proof. vm_compute. reflexivity. Qed.

Example json_loads_rejects :
  json_loads "{not json" = Undecoded NotJson /\
  json_loads "[1, 2" = Undecoded NotJson /\
  json_loads "01" = Undecoded NotJson /\
  json_loads (js "{'a': 1,}") = Undecoded NotJson /\
  json_loads EmptyString = Undecoded NotJson /\
  json_loads "[1] x" = Undecoded NotJson /\
  json_loads "nan" = Undecoded NotJson.
Proof. repeat split; vm_compute; reflexivity. Qed.

(** ** Input validation *)

Lemma bad_token_spec (token : string) :
  token = EmptyString \/
  (exists pre post, token = (pre ++ "YOUR_ACCESS_TOKEN" ++ post)%string) ->
  bad_token token = true.
Proof.
  unfold bad_token. intros [->|H]; [reflexivity|].
  apply contains_spec in H. rewrite H. apply orb_true_r.
Qed.

Lemma bad_count_spec (urls : list string) :
  urls = [] \/ (50 < length urls)%nat -> bad_count urls = true.
Proof.
  unfold bad_count. intros [->|H]; [reflexivity|].
  apply negb_true_iff, andb_false_iff. right. apply Nat.leb_gt. exact H.
Qed.

(** C9. [send_batch_to_facebook], in [main.py] and in [test2.py], raises
    [ValueError] (the invalid-input failure) with no outbound call made when
    the list of paths is empty or has more than 50 entries, and when the
    access token is empty or contains the placeholder [YOUR_ACCESS_TOKEN];
    [BatchRequest.validate_urls] raises [ValueError] on such a list. *)
Theorem send_rejects_invalid_input
    (loads : string -> decoded) (net : Network)
    (urls : list string) (token api_version : string) (timeout_sec : Z) :
  urls = [] \/ (50 < length urls)%nat \/ token = EmptyString \/
  (exists pre post, token = (pre ++ "YOUR_ACCESS_TOKEN" ++ post)%string) ->
  (exists e, Main.send_batch_to_facebook loads net urls token api_version timeout_sec
             = ([], Raise (ValueError e))) /\
  (exists e, Test2.send_batch_to_facebook loads net urls token api_version timeout_sec
             = ([], Raise (ValueError e))) /\
  (urls = [] \/ (50 < length urls)%nat ->
   exists e, Models.validate_urls urls = Raise (ValueError e)).
Proof.
  intros H.
  assert (Hbad : bad_token token = true \/ bad_count urls = true).
  { destruct H as [H|[H|[H|H]]].
    - right. apply bad_count_spec. auto.
    - right. apply bad_count_spec. auto.
    - left. apply bad_token_spec. auto.
    - left. apply bad_token_spec. auto. }
  unfold Main.send_batch_to_facebook, Test2.send_batch_to_facebook, Models.validate_urls.
  split; [|split].
  - destruct (bad_token token); [eauto|].
    destruct Hbad as [Hb|Hb]; [discriminate|]. rewrite Hb. eauto.
  - destruct (bad_token token); [eauto|].
    destruct Hbad as [Hb|Hb]; [discriminate|]. rewrite Hb. eauto.
  - intros Hc. rewrite (bad_count_spec _ Hc). eauto.
Qed.

Lemma send_rejects_invalid_input_witness :
  (exists e, Main.send_batch_to_facebook json_loads
               (fun _ => HttpResponse "[]") [] "YOUR_ACCESS_TOKEN_HERE" API_VERSION 120
             = ([], Raise (ValueError e))) /\
  (exists e, Test2.send_batch_to_facebook json_loads
               (fun _ => HttpResponse "[]") [] "YOUR_ACCESS_TOKEN_HERE" API_VERSION 120
             = ([], Raise (ValueError e))) /\
  (@nil string = [] \/ (50 < @length string [])%nat ->
   exists e, Models.validate_urls [] = Raise (ValueError e)).
Proof.
  apply (send_rejects_invalid_input json_loads (fun _ => HttpResponse "[]")
           [] "YOUR_ACCESS_TOKEN_HERE" API_VERSION 120).
  left. reflexivity.
Defined.

(** ** The loop over the upstream array *)

Lemma outcome_bind_Ok {A B} (m : outcome A) (f : A -> outcome B) (b : B) :
  mbind f m = Ok b -> exists a, m = Ok a /\ f a = Ok b.
Proof. destruct m as [a|e]; [eauto | discriminate]. Qed.

(** A loop that returns has produced one result per element, each by the loop
    body at the element's position. *)
Lemma item_loop_Ok (process_item : list string -> nat -> json -> outcome pydict)
    (urls : list string) (data : list json) :
  forall (k : nat) (rs : list pydict),
    item_loop process_item urls k data = Ok rs ->
    length rs = length data /\
    forall (i : nat) (item : json),
      data !! i = Some item ->
      exists r, rs !! i = Some r /\ process_item urls (k + i)%nat item = Ok r.
Proof.
  induction data as [|item0 rest IH]; intros k rs H; simpl in H.
  - injection H as <-. split; [reflexivity|]. intros i item Hi. discriminate.
  - apply outcome_bind_Ok in H as (r & Hr & H).
    apply outcome_bind_Ok in H as (rs' & Hrs & H).
    injection H as <-. destruct (IH _ _ Hrs) as [Hlen Hitems].
    split; [simpl; congruence|].
    intros [|i] item Hi; simpl in Hi.
    + injection Hi as <-. exists r. rewrite Nat.add_0_r. auto.
    + destruct (Hitems i item Hi) as (r' & Hr' & Hp).
      exists r'. split; [exact Hr'|]. rewrite <- Nat.add_succ_comm. exact Hp.
Qed.

(** The loop returns when its body returns at every position. *)
Lemma item_loop_returns (process_item : list string -> nat -> json -> outcome pydict)
    (urls : list string) (data : list json) :
  forall k : nat,
    (forall (i : nat) (item : json),
        data !! i = Some item -> exists r, process_item urls (k + i)%nat item = Ok r) ->
    exists rs, item_loop process_item urls k data = Ok rs.
Proof.
  induction data as [|item0 rest IH]; intros k H; simpl.
  - eauto.
  - destruct (H 0%nat item0 eq_refl) as [r Hr]. rewrite Nat.add_0_r in Hr.
    rewrite Hr. simpl.
    destruct (IH (S k)) as [rs Hrs].
    { intros i item Hi. rewrite Nat.add_succ_comm. apply (H (S i)). exact Hi. }
    rewrite Hrs. simpl. eauto.
Qed.

Lemma main_process_items_loop (loads : string -> decoded)
    (urls : list string) (data : list json) (k : nat) :
  Main.process_items loads urls k data = item_loop (Main.process_item loads) urls k data.
Proof.
  revert k. induction data as [|item rest IH]; intros k; simpl; [reflexivity|].
  rewrite IH. reflexivity.
Qed.

Lemma test2_process_items_loop (loads : string -> decoded)
    (urls : list string) (data : list json) (k : nat) :
  Test2.process_items loads urls k data = item_loop (Test2.process_item loads) urls k data.
Proof.
  revert k. induction data as [|item rest IH]; intros k; simpl; [reflexivity|].
  rewrite IH. reflexivity.
Qed.

(** What a successful call of either sender went through: the checks passed,
    one call was made, its answer decoded to an array and the loop over that
    array returned. *)
Lemma main_send_Ok (loads : string -> decoded) (net : Network)
    (urls : list string) (token api_version : string) (timeout_sec : Z)
    (calls : list Call) (rs : list pydict) :
  Main.send_batch_to_facebook loads net urls token api_version timeout_sec
  = (calls, Ok rs) ->
  exists normalized text items,
    Main.normalize_urls api_version urls = Ok normalized /\
    calls = [Main.make_call api_version token normalized timeout_sec] /\
    net (Main.make_call api_version token normalized timeout_sec) = HttpResponse text /\
    loads text = Decoded (JList items) /\
    Main.process_items loads normalized 0 items = Ok rs.
Proof.
  unfold Main.send_batch_to_facebook, Main.process_response. intros H.
  destruct (bad_token token); [discriminate|].
  destruct (bad_count urls); [discriminate|].
  destruct (Main.normalize_urls api_version urls) as [normalized|e]; [|discriminate].
  injection H as <- H.
  destruct (net _) as [e|text] eqn:Hnet; [discriminate|].
  destruct (loads text) as [[| | | | |items|d]|[]] eqn:Hloads; try discriminate.
  - exists normalized, text, items. auto.
  - destruct (dict_get "error" d) as [err|]; [|discriminate].
    destruct (py_get err "message" JNull); [|discriminate]. simpl in H.
    destruct (py_get err "code" JNull); [|discriminate]. simpl in H.
    destruct (py_get err "type" JNull); discriminate.
Qed.

Lemma test2_send_Ok (loads : string -> decoded) (net : Network)
    (urls : list string) (token api_version : string) (timeout_sec : Z)
    (calls : list Call) (rs : list pydict) :
  Test2.send_batch_to_facebook loads net urls token api_version timeout_sec
  = (calls, Ok rs) ->
  exists text items,
    calls = [Test2.make_call api_version token (map lstrip_slash urls) timeout_sec] /\
    net (Test2.make_call api_version token (map lstrip_slash urls) timeout_sec)
    = HttpResponse text /\
    loads text = Decoded (JList items) /\
    Test2.process_items loads (map lstrip_slash urls) 0 items = Ok rs.
Proof.
  unfold Test2.send_batch_to_facebook, Test2.process_response. intros H.
  destruct (bad_token token); [discriminate|].
  destruct (bad_count urls); [discriminate|].
  injection H as <- H.
  destruct (net _) as [e|text] eqn:Hnet; [discriminate|].
  destruct (loads text) as [[| | | | |items|d]|[]] eqn:Hloads; try discriminate.
  exists text, items. auto.
Qed.

(** ** One result of the loop *)

Lemma main_item_fields (loads : string -> decoded)
    (urls : list string) (i : nat) (item : json) (r : pydict) :
  Main.process_item loads urls i item = Ok r ->
  dict_get "request_index" r = Some (JInt (Z.of_nat i)) /\
  dict_get "requested_url" r
  = Some (match urls !! i with Some u => JStr u | None => JNull end) /\
  exclusive r.
Proof.
  unfold Main.process_item, exclusive, mbind, outcome_bind. intros H.
  destruct item; try discriminate; cbn in H.
  - injection H as <-. cbn. auto.
  - repeat case_outcome H; injection H as <-; cbn; auto.
Qed.

Lemma test2_item_fields (loads : string -> decoded)
    (urls : list string) (i : nat) (item : json) (r : pydict) :
  Test2.process_item loads urls i item = Ok r ->
  dict_get "request_index" r = Some (JInt (Z.of_nat i)) /\
  (exists u, urls !! i = Some u /\ dict_get "requested_url" r = Some (JStr u)) /\
  exclusive r.
Proof.
  unfold Test2.process_item, exclusive, mbind, outcome_bind. intros H.
  destruct (urls !! i) as [u|]; [|discriminate].
  destruct item; try discriminate; cbn in H.
  repeat case_outcome H; injection H as <-; cbn; (split; [|split]); eauto.
Qed.

Lemma main_normalize_urls_Ok (api_version : string) (urls normalized : list string) :
  Main.normalize_urls api_version urls = Ok normalized ->
  normalized = map lstrip_slash urls.
Proof.
  revert normalized. induction urls as [|url rest IH]; intros normalized H; simpl in H.
  - injection H as <-. reflexivity.
  - destruct (Main.has_version api_version (lstrip_slash url)); [discriminate|].
    apply outcome_bind_Ok in H as (us & Hus & H). injection H as <-.
    simpl. f_equal. apply IH. exact Hus.
Qed.

(** ** The results of a call that returns *)



(** C2 (as amended). A call of [send_batch_to_facebook] that returns, in
    [main.py] and in [test2.py], has made one call whose answer decoded to an
    array, and returns one result per element of that array, in order: the
    result at position [i] has [request_index] [i] and, when a path was
    submitted at that position, that path without its leading slashes as
    [requested_url].  There are as many results as submitted paths exactly
    when the array has as many elements. *)
Theorem send_one_result_per_upstream_element
    (loads : string -> decoded) (net : Network)
    (urls : list string) (token api_version : string) (timeout_sec : Z)
    (calls : list Call) (rs : list pydict) :
  Main.send_batch_to_facebook loads net urls token api_version timeout_sec
  = (calls, Ok rs) \/
  Test2.send_batch_to_facebook loads net urls token api_version timeout_sec
  = (calls, Ok rs) ->
  exists call text items,
    calls = [call] /\ net call = HttpResponse text /\
    loads text = Decoded (JList items) /\
    length rs = length items /\
    (forall (i : nat) (r : pydict),
        rs !! i = Some r ->
        dict_get "request_index" r = Some (JInt (Z.of_nat i)) /\
        forall url, urls !! i = Some url ->
                    dict_get "requested_url" r = Some (JStr (lstrip_slash url))) /\
    (length rs = length urls <-> length items = length urls).
Proof.
  intros [H|H].
  - apply main_send_Ok in H as (normalized & text & items & Hn & -> & Hnet & Hl & H).
    apply main_normalize_urls_Ok in Hn. subst normalized.
    rewrite main_process_items_loop in H. apply item_loop_Ok in H as [Hlen H].
    eexists _, text, items. repeat split; try eassumption; try reflexivity; try congruence.
    + destruct (items !! i) as [item|] eqn:Hitem.
      * destruct (H i item Hitem) as (r' & Hr' & Hp).
        assert (r' = r) by congruence. subst r'.
        apply main_item_fields in Hp. apply Hp.
      * apply lookup_ge_None in Hitem. apply lookup_lt_Some in H0. lia.
    + intros url Hurl. destruct (items !! i) as [item|] eqn:Hitem.
      * destruct (H i item Hitem) as (r' & Hr' & Hp).
        assert (r' = r) by congruence. subst r'.
        apply main_item_fields in Hp as (_ & Hp & _). rewrite Hp.
        simpl. rewrite list_lookup_fmap, Hurl. reflexivity.
      * apply lookup_ge_None in Hitem. apply lookup_lt_Some in H0. lia.
  - apply test2_send_Ok in H as (text & items & -> & Hnet & Hl & H).
    rewrite test2_process_items_loop in H. apply item_loop_Ok in H as [Hlen H].
    eexists _, text, items. repeat split; try eassumption; try reflexivity; try congruence.
    + destruct (items !! i) as [item|] eqn:Hitem.
      * destruct (H i item Hitem) as (r' & Hr' & Hp).
        assert (r' = r) by congruence. subst r'.
        apply test2_item_fields in Hp. apply Hp.
      * apply lookup_ge_None in Hitem. apply lookup_lt_Some in H0. lia.
    + intros url Hurl. destruct (items !! i) as [item|] eqn:Hitem.
      * destruct (H i item Hitem) as (r' & Hr' & Hp).
        assert (r' = r) by congruence. subst r'.
        apply test2_item_fields in Hp as (_ & (u & Hu & Hp) & _). rewrite Hp.
        simpl in Hu. rewrite list_lookup_fmap, Hurl in Hu. simpl in Hu. congruence.
      * apply lookup_ge_None in Hitem. apply lookup_lt_Some in H0. lia.
Qed.

Lemma send_one_result_per_upstream_element_witness :
  exists calls rs call text items,
    Test2.send_batch_to_facebook json_loads
      (upstream (js "[{'code': 200, 'body': '{}'}, {'code': 200, 'body': '{}'}]"))
      ["me"; "/me/accounts"] "EAAB" API_VERSION 180 = (calls, Ok rs) /\
    calls = [call] /\
    upstream (js "[{'code': 200, 'body': '{}'}, {'code': 200, 'body': '{}'}]") call
    = HttpResponse text /\
    json_loads text = Decoded (JList items) /\
    length rs = length items /\
    (forall (i : nat) (r : pydict),
        rs !! i = Some r ->
        dict_get "request_index" r = Some (JInt (Z.of_nat i)) /\
        forall url, ["me"; "/me/accounts"] !! i = Some url ->
                    dict_get "requested_url" r = Some (JStr (lstrip_slash url))) /\
    (length rs = length ["me"; "/me/accounts"]
     <-> length items = length ["me"; "/me/accounts"]).
Proof.
  do 2 eexists.
  assert (H : Test2.send_batch_to_facebook json_loads
      (upstream (js "[{'code': 200, 'body': '{}'}, {'code': 200, 'body': '{}'}]"))
      ["me"; "/me/accounts"] "EAAB" API_VERSION 180 = (_, Ok _))
    by (vm_compute; reflexivity).
  destruct (send_one_result_per_upstream_element json_loads
              (upstream (js "[{'code': 200, 'body': '{}'}, {'code': 200, 'body': '{}'}]"))
              ["me"; "/me/accounts"] "EAAB" API_VERSION 180 _ _ (or_intror H))
    as (call & text & items & Hrest).
  exists call, text, items. split; [exact H | exact Hrest].
Defined.

(** C2 (counterexample). With two paths submitted and an upstream array of one
    element, [send_batch_to_facebook] of [main.py] and of [test2.py] return a
    list of one result: no error is raised for the length of the array. *)
Lemma send_length_mismatch :
  snd (Main.send_batch_to_facebook json_loads
         (upstream (js "[{'code': 200, 'body': '{}'}]"))
         ["me"; "me/accounts"] "EAAB" API_VERSION 120)
  = Ok [[("request_index", JInt 0); ("requested_url", JStr "me");
         ("status_code", JInt 200); ("data", JDict []); ("error", JNull)]]
  /\
  snd (Test2.send_batch_to_facebook json_loads
         (upstream (js "[{'code': 200, 'body': '{}'}]"))
         ["me"; "me/accounts"] "EAAB" API_VERSION 180)
  = Ok [[("request_index", JInt 0); ("requested_url", JStr "me");
         ("status_code", JInt 200); ("headers", JList []);
         ("data", JDict []); ("error", JNull)]]
  /\
  length [[("request_index", JInt 0); ("requested_url", JStr "me");
           ("status_code", JInt 200); ("data", JDict []); ("error", JNull)]]
  <> length ["me"; "me/accounts"].
Proof.
  split; [vm_compute; reflexivity|].
  split; [vm_compute; reflexivity|].
  simpl. discriminate.
Qed.

(** An upstream array longer than the list of paths: [main.py] returns a
    result with no [requested_url] for the extra element, [test2.py] fails on
    [normalized_urls[i]]. *)
Lemma send_longer_array :
  snd (Main.send_batch_to_facebook json_loads
         (upstream (js "[{'code': 200, 'body': '{}'}, null]"))
         ["me"] "EAAB" API_VERSION 120)
  = Ok [[("request_index", JInt 0); ("requested_url", JStr "me");
         ("status_code", JInt 200); ("data", JDict []); ("error", JNull)];
        [("request_index", JInt 1); ("requested_url", JNull);
         ("status_code", JNull); ("data", JNull); ("error", Main.NULL_RESULT)]]
  /\
  snd (Test2.send_batch_to_facebook json_loads
         (upstream (js "[{'code': 200, 'body': '{}'}, {'code': 200, 'body': '{}'}]"))
         ["me"] "EAAB" API_VERSION 180)
  = Raise IndexError.
Proof. split; vm_compute; reflexivity. Qed.

(** ** Null elements *)

(** In [main.py] a null element gives, at its position, a result whose error
    is the null-result text and whose status code is [None]; the element does
    not make the loop fail. *)
Lemma main_null_item (loads : string -> decoded) (urls : list string) (i : nat) :
  Main.process_item loads urls i JNull
  = Ok [("request_index", JInt (Z.of_nat i));
        ("requested_url", match urls !! i with Some u => JStr u | None => JNull end);
        ("status_code", JNull);
        ("data", JNull);
        ("error", Main.NULL_RESULT)].
Proof. reflexivity. Qed.

Lemma main_null_element (loads : string -> decoded) (net : Network)
    (urls : list string) (token api_version : string) (timeout_sec : Z)
    (calls : list Call) (rs : list pydict) :
  Main.send_batch_to_facebook loads net urls token api_version timeout_sec
  = (calls, Ok rs) ->
  exists call text items,
    calls = [call] /\ net call = HttpResponse text /\
    loads text = Decoded (JList items) /\
    forall i : nat,
      items !! i = Some JNull ->
      exists r, rs !! i = Some r /\
                dict_get "request_index" r = Some (JInt (Z.of_nat i)) /\
                dict_get "status_code" r = Some JNull /\
                dict_get "error" r = Some Main.NULL_RESULT.
Proof.
  intros H.
  apply main_send_Ok in H as (normalized & text & items & Hn & -> & Hnet & Hl & H).
  rewrite main_process_items_loop in H. apply item_loop_Ok in H as [Hlen H].
  eexists _, text, items. repeat split; try eassumption.
  intros i Hi. destruct (H i JNull Hi) as (r & Hr & Hp).
  exists r. split; [exact Hr|].
  rewrite main_null_item in Hp. injection Hp as <-. cbn. auto.
Qed.

(** C5 (failing input, [test2.py]). The loop body of [test2.py] reads
    [item.get("code")] before it tests [item], so a null element raises
    [AttributeError] (or [IndexError] when no path is left) at every position,
    for every decoder; with the one path [me] and the upstream array [[null]]
    the whole call fails with [AttributeError], where [main.py] returns the
    null-result entry. *)
Theorem test2_null_element_fails :
  (forall (loads : string -> decoded) (urls : list string) (i : nat),
      Test2.process_item loads urls i JNull = Raise AttributeError \/
      Test2.process_item loads urls i JNull = Raise IndexError) /\
  snd (Test2.send_batch_to_facebook json_loads (upstream "[null]")
         ["me"] "EAAB" API_VERSION 180)
  = Raise AttributeError /\
  snd (Main.send_batch_to_facebook json_loads (upstream "[null]")
         ["me"] "EAAB" API_VERSION 120)
  = Ok [[("request_index", JInt 0); ("requested_url", JStr "me");
         ("status_code", JNull); ("data", JNull); ("error", Main.NULL_RESULT)]].
Proof.
  split; [|split; vm_compute; reflexivity].
  intros loads urls i. unfold Test2.process_item.
  destruct (urls !! i); [left | right]; reflexivity.
Qed.

(** ** Status code and body *)

(** In [main.py], an element that is an object with a body text that decodes
    gives a result with the decoded body as [data] and no error when its code
    equals 200, and otherwise a result with no [data] whose error is the
    [error] member of the decoded body when it is an object with one, else the
    decoded body. *)
Lemma main_item_status (loads : string -> decoded)
    (urls : list string) (i : nat) (d : pydict) (text : string) (body_json : json) :
  dict_get_default "body" d (JStr EmptyString) = JStr text ->
  text <> EmptyString ->
  loads text = Decoded body_json ->
  exists r,
    Main.process_item loads urls i (JDict d) = Ok r /\
    dict_get "status_code" r = Some (dict_get_default "code" d JNull) /\
    if py_eq_int (dict_get_default "code" d JNull) 200
    then dict_get "data" r = Some body_json /\ dict_get "error" r = Some JNull
    else dict_get "data" r = Some JNull /\
         dict_get "error" r
         = Some (match body_json with
                 | JDict b => match dict_get "error" b with
                              | Some e => e
                              | None => body_json
                              end
                 | _ => body_json
                 end).
Proof.
  intros Hbody Hne Hloads. unfold Main.process_item. cbn.
  rewrite Hbody. cbn. apply String.eqb_neq in Hne. rewrite Hne. cbn.
  rewrite Hloads.
  destruct (py_eq_int (dict_get_default "code" d JNull) 200);
    eexists; (split; [reflexivity|]); cbn; auto.
Qed.

(** In [test2.py] the same holds for a non-empty element whose body decodes to
    an object. *)
Lemma test2_item_status (loads : string -> decoded)
    (urls : list string) (i : nat) (u : string) (d : pydict)
    (text : string) (body_json : json) :
  urls !! i = Some u ->
  d <> [] ->
  dict_get_default "body" d (JStr "{}") = JStr text ->
  loads text = Decoded body_json ->
  (py_eq_int (dict_get_default "code" d JNull) 200 = true \/
   exists b, body_json = JDict b) ->
  exists r,
    Test2.process_item loads urls i (JDict d) = Ok r /\
    dict_get "status_code" r = Some (dict_get_default "code" d JNull) /\
    if py_eq_int (dict_get_default "code" d JNull) 200
    then dict_get "data" r = Some body_json /\ dict_get "error" r = Some JNull
    else dict_get "data" r = Some JNull /\
         dict_get "error" r
         = Some (match body_json with
                 | JDict b => match dict_get "error" b with
                              | Some e => e
                              | None => body_json
                              end
                 | _ => body_json
                 end).
Proof.
  intros Hu Hd Hbody Hloads Hcase. unfold Test2.process_item. rewrite Hu. cbn.
  destruct d as [|kv d']; [congruence|]. cbn [truthy].
  rewrite Hbody. cbn. rewrite Hloads.
  destruct (py_eq_int (dict_get_default "code" (kv :: d') JNull) 200).
  - eexists; (split; [reflexivity|]); cbn; auto.
  - destruct Hcase as [?|[b ->]]; [discriminate|]. cbn.
    unfold dict_get_default.
    eexists; (split; [reflexivity|]); cbn.
    destruct (dict_get "error" b); auto.
Qed.

(** C7 (failing input, [test2.py]). For a sub-response with status 404 whose
    body is the JSON text [false], [test2.py] calls [get] on the decoded body
    and the whole call fails with [AttributeError]; [main.py] returns the
    entry with [error] set to the decoded body and no payload. *)
Theorem test2_error_body_not_object_fails :
  snd (Test2.send_batch_to_facebook json_loads
         (upstream (js "[{'code': 404, 'body': 'false'}]"))
         ["me"] "EAAB" API_VERSION 180)
  = Raise AttributeError /\
  snd (Main.send_batch_to_facebook json_loads
         (upstream (js "[{'code': 404, 'body': 'false'}]"))
         ["me"] "EAAB" API_VERSION 120)
  = Ok [[("request_index", JInt 0); ("requested_url", JStr "me");
         ("status_code", JInt 404); ("data", JNull); ("error", JBool false)]].
Proof. split; vm_compute; reflexivity. Qed.

(** ** The version tag *)

Lemma has_version_first_segment (u : string) :
  first_segment u = API_VERSION -> Main.has_version API_VERSION u = true.
Proof.
  intros H. unfold Main.has_version, startswith.
  destruct (first_segment_cases u) as [Hu|[rest Hu]]; rewrite H in Hu.
  - subst u. reflexivity.
  - apply orb_true_iff. left. apply prefix_app. exists rest.
    rewrite Hu. reflexivity.
Qed.

Lemma main_normalize_rejects (api_version : string) (urls : list string) (url : string) :
  In url urls ->
  Main.has_version api_version (lstrip_slash url) = true ->
  exists e, Main.normalize_urls api_version urls = Raise (ValueError e).
Proof.
  induction urls as [|url0 rest IH]; intros Hin Hv; [destruct Hin|].
  simpl. destruct (Main.has_version api_version (lstrip_slash url0)) eqn:E; [eauto|].
  destruct Hin as [->|Hin]; [congruence|].
  destruct (IH Hin Hv) as [e ->]. eauto.
Qed.

(** In [main.py], a list with a path whose first segment, leading slashes
    stripped, is the version tag makes the call raise [ValueError] with no
    outbound call. *)
Lemma main_send_rejects_version_path
    (loads : string -> decoded) (net : Network)
    (urls : list string) (token : string) (timeout_sec : Z) (url : string) :
  In url urls ->
  first_segment (lstrip_slash url) = API_VERSION ->
  exists e, Main.send_batch_to_facebook loads net urls token API_VERSION timeout_sec
            = ([], Raise (ValueError e)).
Proof.
  intros Hin Hseg. unfold Main.send_batch_to_facebook.
  destruct (bad_token token); [eauto|].
  destruct (bad_count urls); [eauto|].
  destruct (main_normalize_rejects API_VERSION urls url Hin
              (has_version_first_segment _ Hseg)) as [e ->].
  eauto.
Qed.

(** C4 (failing input, [test2.py]). [test2.py] only strips the leading
    slashes: for the path [/v23.0/me], whose first segment is the version tag,
    its [send_batch_to_facebook] makes the outbound call with the relative
    url [v23.0/me], whatever the network and the decoder, where [main.py]
    raises [ValueError] before any call. *)
Theorem test2_send_forwards_version_path
    (loads : string -> decoded) (net : Network) :
  first_segment (lstrip_slash "/v23.0/me") = API_VERSION /\
  fst (Test2.send_batch_to_facebook loads net ["/v23.0/me"] "EAAB" API_VERSION 180)
  = [{| call_url := "https://graph.facebook.com/v23.0";
        call_access_token := "EAAB";
        call_batch :=
          JList [JDict [("method", JStr "GET"); ("relative_url", JStr "v23.0/me")]];
        call_ensure_ascii := true;
        call_include_headers := "true";
        call_timeout := 180 |}] /\
  Main.send_batch_to_facebook loads net ["/v23.0/me"] "EAAB" API_VERSION 120
  = ([], Raise (ValueError (VersionInRelativeUrl "/v23.0/me"))).
Proof. repeat split. Qed.

(** ** The dictionary of headers *)

Lemma headers_of_list_lookup (name : string) (hs : list json) :
  forall acc hd : pydict,
    Test2.headers_of_list hs acc = Ok hd ->
    dict_get name hd
    = match last_header name hs with
      | Some v => Some v
      | None => dict_get name acc
      end.
Proof.
  induction hs as [|h rest IH]; intros acc hd H; simpl in H.
  - injection H as <-. reflexivity.
  - apply outcome_bind_Ok in H as (nm & Hnm & H).
    apply outcome_bind_Ok in H as (key & Hkey & H).
    apply outcome_bind_Ok in H as (value & Hvalue & H).
    destruct h as [| | | | | |d]; try discriminate.
    injection Hnm as <-. injection Hvalue as <-.
    destruct (dict_get_default "name" d (JStr EmptyString)) as [| | | |n| |] eqn:En;
      try discriminate.
    injection Hkey as <-.
    rewrite (IH _ _ H). simpl. rewrite En.
    destruct (last_header name rest); [reflexivity|].
    destruct (String.eqb_spec (lower n) name) as [->|Hne].
    + apply dict_get_set_eq.
    + apply dict_get_set_ne. exact Hne.
Qed.

Lemma headers_dict_text (name : string) (hs : list json) (hd : pydict) :
  Test2.headers_of_list hs [] = Ok hd ->
  dict_get_default name hd (JStr "{}") = header_text name hs.
Proof.
  intros H. unfold dict_get_default, header_text.
  rewrite (headers_of_list_lookup name hs [] hd H).
  destruct (last_header name hs); reflexivity.
Qed.

(** ** The accumulators *)

(** [float] of a number raises nothing but [OverflowError]. *)
Lemma py_float_raises (v : json) (e : exn) :
  is_number v = true -> py_float v = Raise e -> e = OverflowError.
Proof.
  destruct v; try discriminate; intros _; unfold py_float; try discriminate.
  destruct (float_of_Z z); congruence.
Qed.

Lemma throttle_block_eq (loads : string -> decoded)
    (hd : pydict) (acc : option string) (st : agg_state) :
  Test2.throttle_block loads hd acc st
  = match py_json_loads loads
            (dict_get_default "x-fb-ads-insights-throttle" hd (JStr "{}")) with
    | Ok (JDict t) =>
        if throttle_overflows acc t
        then (throttle_partial t st, Raise OverflowError)
        else (throttle_update acc t st, Ok tt)
    | Ok _ => (st, Raise AttributeError)
    | Raise JSONDecodeError | Raise TypeError => (st, Ok tt)
    | Raise e => (st, Raise e)
    end.
Proof.
  unfold Test2.throttle_block. st_unfold.
  destruct (py_json_loads loads _) as [[| | | | | |t]|[]]; try reflexivity.
  unfold throttle_overflows, throttle_partial, throttle_update, number_at,
    overflows_at.
  cbn [py_get].
  generalize (dict_get_default "app_id_util_pct" t JNull) as v1.
  generalize (dict_get_default "acc_id_util_pct" t JNull) as v2.
  intros v2 v1.
  destruct (is_number v1) eqn:H1.
  - destruct (py_float v1) as [f1|e1] eqn:P1;
      [|rewrite (py_float_raises _ _ H1 P1); reflexivity].
    destruct acc as [a|]; [|reflexivity]. simpl.
    destruct (is_number v2) eqn:H2; [|reflexivity].
    destruct (py_float v2) as [f2|e2] eqn:P2;
      [|rewrite (py_float_raises _ _ H2 P2)]; reflexivity.
  - destruct acc as [a|]; [|reflexivity]. simpl.
    destruct (is_number v2) eqn:H2; [|reflexivity].
    destruct (py_float v2) as [f2|e2] eqn:P2;
      [|rewrite (py_float_raises _ _ H2 P2)]; reflexivity.
Qed.

Lemma same_usage_refl (st : agg_state) : same_usage st st.
Proof. split; reflexivity. Qed.

Lemma same_usage_trans (st1 st2 st3 : agg_state) :
  same_usage st1 st2 -> same_usage st2 st3 -> same_usage st1 st3.
Proof. intros [? ?] [? ?]. split; congruence. Qed.

Lemma for_each_same_usage {A} (l : list A) (body : A -> St unit) :
  (forall x st, same_usage st (fst (body x st))) ->
  forall st, same_usage st (fst (for_each l body st)).
Proof.
  intros Hbody. induction l as [|x rest IH]; intros st; simpl.
  - apply same_usage_refl.
  - unfold st_bind. specialize (Hbody x st).
    destruct (body x st) as [st1 [[]|e]]; simpl in *; [|exact Hbody].
    eapply same_usage_trans; [exact Hbody | apply IH].
Qed.

Lemma eta_entry_same_usage (id : string) (entry : json) (st : agg_state) :
  same_usage st (fst (Test2.eta_entry id entry st)).
Proof.
  unfold Test2.eta_entry. st_unfold.
  destruct (py_get entry _ _) as [eta|e]; simpl; [|apply same_usage_refl].
  destruct (py_max2 _ eta) as [m|e]; simpl; split; reflexivity.
Qed.

Lemma buc_block_same_usage (loads : string -> decoded)
    (hd : pydict) (st : agg_state) :
  same_usage st (fst (Test2.buc_block loads hd st)).
Proof.
  unfold Test2.buc_block. st_unfold.
  destruct (py_json_loads loads _) as [buc|e]; simpl.
  - destruct (Test2.py_items buc) as [items|e]; simpl; [|destruct e; apply same_usage_refl].
    pose proof (for_each_same_usage items
      (fun '(buc_acc_id, entries) =>
         match entries with
         | JList es => for_each es (Test2.eta_entry buc_acc_id)
         | _ => st_ret tt
         end)) as Hloop.
    match goal with
    | |- context [for_each items ?f st] =>
        assert (Hs : same_usage st (fst (for_each items f st)))
    end.
    { apply Hloop. intros [id entries] st0.
      destruct entries; try apply same_usage_refl.
      apply for_each_same_usage. intros entry st1. apply eta_entry_same_usage. }
    destruct (for_each items _ st) as [st1 [[]|[]]]; exact Hs.
  - destruct e; apply same_usage_refl.
Qed.

Lemma throttle_update_app (acc : option string) (t : pydict) (st : agg_state) :
  app_usage_values (throttle_update acc t st)
  = (app_usage_values st
     ++ match number_at "app_id_util_pct" t with Some q => [q] | None => [] end)%list.
Proof.
  unfold throttle_update.
  destruct (number_at "app_id_util_pct" t), acc as [a|],
    (number_at "acc_id_util_pct" t); simpl; try reflexivity;
    symmetry; apply app_nil_r.
Qed.

Lemma throttle_update_account (acc : option string) (t : pydict) (st : agg_state)
    (a : string) :
  account_usages (throttle_update acc t st) !! a
  = match acc with
    | Some a' =>
        if String.eqb a' a
        then match number_at "acc_id_util_pct" t with
             | Some q => Some q
             | None => account_usages st !! a
             end
        else account_usages st !! a
    | None => account_usages st !! a
    end.
Proof.
  unfold throttle_update.
  destruct acc as [a'|].
  - destruct (String.eqb_spec a' a) as [->|Hne];
      destruct (number_at "acc_id_util_pct" t), (number_at "app_id_util_pct" t);
      simpl; rewrite ?lookup_insert_eq, ?lookup_insert_ne by exact Hne; reflexivity.
  - destruct (number_at "app_id_util_pct" t); reflexivity.
Qed.

Lemma throttle_of_falsy (loads : string -> decoded) (r : pydict) :
  truthy (dict_get_default "headers" r (JList [])) = false ->
  throttle_of loads r = None.
Proof.
  unfold throttle_of.
  destruct (dict_get_default "headers" r (JList [])) as [| | | | |[|h hs]|];
    simpl; congruence.
Qed.

Lemma headers_dict_of_Ok (hl : json) (hd : pydict) :
  truthy hl = true ->
  Test2.headers_dict_of hl = Ok hd ->
  exists h hs, hl = JList (h :: hs) /\ Test2.headers_of_list (h :: hs) [] = Ok hd.
Proof.
  destruct hl as [| | | | |[|h hs]|]; simpl; try discriminate.
  intros _ H. eauto.
Qed.

Lemma observed_without_throttle (loads : string -> decoded) (r : pydict)
    (st : agg_state) :
  throttle_of loads r = None ->
  app_usage_values st = (app_usage_values st ++ observed_app_usage loads r)%list /\
  forall acc : string,
    account_usages st !! acc
    = match observed_account_usage loads acc r with
      | Some q => Some q
      | None => account_usages st !! acc
      end.
Proof.
  intros Ht. unfold observed_app_usage, observed_account_usage. rewrite Ht. simpl.
  split; [symmetry; apply app_nil_r|].
  intros acc. destruct (Test2.acc_id_from_url r) as [a|];
    [destruct (String.eqb a acc)|]; reflexivity.
Qed.

(** One turn of the loop over the results that does not raise: the values the
    result contributes are appended, respectively stored. *)
Lemma summarize_result_Ok (loads : string -> decoded)
    (r : pydict) (st st' : agg_state) :
  Test2.summarize_result loads r st = (st', Ok tt) ->
  app_usage_values st' = (app_usage_values st ++ observed_app_usage loads r)%list /\
  forall acc : string,
    account_usages st' !! acc
    = match observed_account_usage loads acc r with
      | Some q => Some q
      | None => account_usages st !! acc
      end.
Proof.
  unfold Test2.summarize_result.
  destruct (truthy (dict_get_default "headers" r (JList []))) eqn:Et;
    cbn [negb]; st_unfold.
  - destruct (Test2.headers_dict_of _) as [hd|e] eqn:Ehd; [|discriminate].
    destruct (headers_dict_of_Ok _ _ Et Ehd) as (h & hs & Ehl & Hhd).
    rewrite throttle_block_eq, (headers_dict_text _ _ _ Hhd).
    intros H.
    assert (Hstep : forall st1,
      Test2.buc_block loads hd st1 = (st', Ok tt) -> same_usage st1 st').
    { intros st1 Hb. pose proof (buc_block_same_usage loads hd st1) as Hs.
      rewrite Hb in Hs. exact Hs. }
    destruct (py_json_loads loads _) as [v|e] eqn:El.
    + destruct v as [| | | | | |t]; try discriminate.
      destruct (throttle_overflows _ t); [discriminate|].
      destruct (Hstep _ H) as [Ha Hu]. rewrite Ha, Hu.
      assert (Ht : throttle_of loads r = Some t)
        by (unfold throttle_of; rewrite Ehl, El; reflexivity).
      unfold observed_app_usage, observed_account_usage. rewrite Ht. simpl. split.
      * apply throttle_update_app.
      * intros acc. rewrite throttle_update_account.
        destruct (Test2.acc_id_from_url r) as [a|]; [|reflexivity].
        destruct (String.eqb a acc); [|reflexivity].
        destruct (number_at "acc_id_util_pct" t); reflexivity.
    + assert (Ht : throttle_of loads r = None)
        by (unfold throttle_of; rewrite Ehl, El; reflexivity).
      destruct e; try discriminate;
        destruct (Hstep _ H) as [Ha Hu]; rewrite Ha, Hu;
        apply observed_without_throttle; exact Ht.
  - intros H. injection H as <-.
    apply observed_without_throttle, throttle_of_falsy. exact Et.
Qed.

(** The loop over the results, when no turn raises. *)
Lemma summarize_loop_Ok (loads : string -> decoded) (results : list pydict) :
  forall st st' : agg_state,
    for_each results (Test2.summarize_result loads) st = (st', Ok tt) ->
    app_usage_values st'
    = (app_usage_values st ++ flat_map (observed_app_usage loads) results)%list /\
    forall acc : string,
      account_usages st' !! acc
      = match last (omap (observed_account_usage loads acc) results) with
        | Some q => Some q
        | None => account_usages st !! acc
        end.
Proof.
  induction results as [|r rest IH]; intros st st' H; simpl in H.
  - injection H as <-. split; [symmetry; apply app_nil_r | reflexivity].
  - unfold st_bind in H.
    destruct (Test2.summarize_result loads r st) as [st1 [[]|e]] eqn:Hr;
      [|discriminate].
    destruct (summarize_result_Ok _ _ _ _ Hr) as [Ha1 Hu1].
    destruct (IH _ _ H) as [Ha Hu]. split.
    + rewrite Ha, Ha1. simpl. symmetry. apply app_assoc.
    + intros acc. rewrite Hu, Hu1.
      assert (Hom : omap (observed_account_usage loads acc) (r :: rest)
                    = match observed_account_usage loads acc r with
                      | Some q => q :: omap (observed_account_usage loads acc) rest
                      | None => omap (observed_account_usage loads acc) rest
                      end) by reflexivity.
      rewrite Hom.
      destruct (observed_account_usage loads acc r) as [q|]; [rewrite last_cons|];
        destruct (last (omap (observed_account_usage loads acc) rest)); reflexivity.
Qed.

Lemma summarize_Ok (loads : string -> decoded) (results : list pydict)
    (s : RateLimitSummary) :
  Test2._summarize_rate_limits_from_batch loads results = Ok s ->
  exists st,
    for_each results (Test2.summarize_result loads) init_state = (st, Ok tt) /\
    s = Test2.summary_of st.
Proof.
  unfold Test2._summarize_rate_limits_from_batch.
  destruct (for_each results _ init_state) as [st [[]|e]]; [|discriminate].
  intros H. injection H as <-. eauto.
Qed.

(** ** Results on which the aggregator returns *)

Lemma headers_of_list_returns (hs : list json) :
  forallb wf_header hs = true ->
  forall acc, exists hd, Test2.headers_of_list hs acc = Ok hd.
Proof.
  induction hs as [|h rest IH]; simpl; intros H acc; [eauto|].
  apply andb_true_iff in H as [Hh Hrest].
  destruct h as [| | | | | |d]; try discriminate. simpl in *.
  destruct (dict_get_default "name" d (JStr EmptyString)); try discriminate.
  simpl. apply IH. exact Hrest.
Qed.

Lemma for_each_outcome {A} (Q : A -> Prop) (l : list A) (body : A -> St unit) :
  (forall x st, Q x ->
     snd (body x st) = Ok tt \/ snd (body x st) = Raise TypeError) ->
  Forall Q l ->
  forall st,
    snd (for_each l body st) = Ok tt \/ snd (for_each l body st) = Raise TypeError.
Proof.
  intros Hbody Hl. induction Hl as [|x rest Hx _ IH]; intros st; simpl; [auto|].
  unfold st_bind. destruct (Hbody x st Hx) as [H|H];
    destruct (body x st) as [st1 [[]|e]]; simpl in *; try discriminate.
  - apply IH.
  - right. exact H.
Qed.

Lemma eta_entry_outcome (id : string) (entry : json) (st : agg_state) :
  is_dict entry = true ->
  snd (Test2.eta_entry id entry st) = Ok tt \/
  snd (Test2.eta_entry id entry st) = Raise TypeError.
Proof.
  destruct entry as [| | | | | |d]; try discriminate. intros _.
  unfold Test2.eta_entry, py_max2, py_gt. st_unfold. simpl.
  destruct (num_of _); [|auto].
  destruct (num_of _); simpl; auto.
Qed.

Lemma buc_block_returns (loads : string -> decoded) (hd : pydict)
    (st : agg_state) :
  wf_usage loads (dict_get_default "x-business-use-case-usage" hd (JStr "{}")) = true ->
  snd (Test2.buc_block loads hd st) = Ok tt.
Proof.
  unfold wf_usage, Test2.buc_block. st_unfold.
  destruct (py_json_loads loads _) as [v|e] eqn:El.
  - destruct v as [| | | | | |items]; try discriminate. simpl. intros Hwf.
    match goal with
    | |- context [for_each items ?f st] =>
        assert (Hs : snd (for_each items f st) = Ok tt \/
                     snd (for_each items f st) = Raise TypeError)
    end.
    { apply (for_each_outcome
               (fun '(_, entries) =>
                  match entries with
                  | JList es => forallb is_dict es = true
                  | _ => True
                  end)).
      - intros [id entries] st0 Hq. destruct entries; simpl; auto.
        apply (for_each_outcome (fun e => is_dict e = true)).
        + intros entry st1. apply eta_entry_outcome.
        + apply Forall_forall. intros e He. apply list_elem_of_In in He.
          rewrite forallb_forall in Hq. apply Hq. exact He.
      - apply Forall_forall. intros [id entries] Hin. apply list_elem_of_In in Hin.
        rewrite forallb_forall in Hwf. specialize (Hwf _ Hin). simpl in Hwf.
        destruct entries; auto. }
    destruct (for_each items _ st) as [st1 [[]|e]]; simpl in *;
      destruct Hs as [Hs|Hs]; try discriminate; [reflexivity|].
    injection Hs as ->. reflexivity.
  - intros Hs. destruct e; try discriminate Hs; reflexivity.
Qed.

Lemma summarize_result_returns (loads : string -> decoded) (r : pydict)
    (st : agg_state) :
  wf_result loads r = true ->
  snd (Test2.summarize_result loads r st) = Ok tt.
Proof.
  unfold wf_result, Test2.summarize_result.
  destruct (dict_get_default "headers" r (JList [])) as [| | | | |hs|] eqn:Eh;
    try (intros ->; reflexivity).
  intros H. apply andb_true_iff in H as [H Hu]. apply andb_true_iff in H as [Hh Ht].
  destruct hs as [|h hs']; [reflexivity|]. cbn [truthy negb Test2.headers_dict_of].
  destruct (headers_of_list_returns _ Hh []) as [hd Hhd].
  st_unfold. rewrite Hhd, throttle_block_eq.
  rewrite <- (headers_dict_text "x-fb-ads-insights-throttle" _ _ Hhd) in Ht.
  rewrite <- (headers_dict_text "x-business-use-case-usage" _ _ Hhd) in Hu.
  unfold wf_throttle in Ht.
  pose proof (fun st1 => buc_block_returns loads hd st1 Hu) as Hb.
  destruct (py_json_loads loads
              (dict_get_default "x-fb-ads-insights-throttle" hd (JStr "{}")))
    as [v|e] eqn:El.
  - destruct v as [| | | | | |t]; try discriminate.
    apply andb_true_iff in Ht as [H1 H2]. apply negb_true_iff in H1, H2.
    unfold throttle_overflows. rewrite H1, H2, andb_false_r. simpl. apply Hb.
  - destruct e; try discriminate Ht; apply Hb.
Qed.

(** On results whose headers are as expected the aggregator returns. *)
Lemma summarize_returns (loads : string -> decoded) (results : list pydict) :
  forallb (wf_result loads) results = true ->
  exists s, Test2._summarize_rate_limits_from_batch loads results = Ok s.
Proof.
  intros H. unfold Test2._summarize_rate_limits_from_batch.
  assert (Hloop : forall st,
    snd (for_each results (Test2.summarize_result loads) st) = Ok tt).
  { induction results as [|r rest IH]; intros st; simpl; [reflexivity|].
    simpl in H. apply andb_true_iff in H as [Hr Hrest].
    unfold st_bind. pose proof (summarize_result_returns loads r st Hr) as Hs.
    destruct (Test2.summarize_result loads r st) as [st1 [[]|e]]; simpl in *;
      [|discriminate].
    apply IH. exact Hrest. }
  specialize (Hloop init_state).
  destruct (for_each results _ init_state) as [st [[]|e]]; simpl in *;
    [eauto | discriminate].
Qed.

(** ** The maximum *)

Lemma x_gt_nan_r (a : xnum) : x_gt a XNaN = false.
Proof. destruct a; reflexivity. Qed.

Lemma x_le_spec (a b : xnum) :
  x_le a b = true <-> a <> XNaN /\ b <> XNaN /\ x_gt a b = false.
Proof.
  destruct a, b; simpl; split; try discriminate; try tauto;
    try (intros _; repeat split; congruence);
    try (intros (? & ? & ?); congruence).
  - intros H. apply negb_true_iff in H. repeat split; congruence.
  - intros (_ & _ & H). rewrite H. reflexivity.
Qed.

Lemma x_le_refl (a : xnum) : a <> XNaN -> x_le a a = true.
Proof.
  destruct a; simpl; try congruence. intros _.
  apply negb_true_iff, negb_false_iff, Qle_bool_iff, Qle_refl.
Qed.

Lemma x_le_trans (a b c : xnum) :
  x_le a b = true -> x_le b c = true -> x_le a c = true.
Proof.
  destruct a, b, c; simpl; try discriminate; try reflexivity.
  intros H1 H2. apply negb_true_iff, negb_false_iff in H1, H2.
  apply negb_true_iff, negb_false_iff.
  apply Qle_bool_iff in H1, H2. apply Qle_bool_iff.
  eapply Qle_trans; eassumption.
Qed.

(** [a > b] gives [b <= a]. *)
Lemma x_gt_le (a b : xnum) : x_gt a b = true -> x_le b a = true.
Proof.
  destruct a, b; simpl; try discriminate; try reflexivity.
  intros H. apply negb_true_iff in H.
  apply negb_true_iff, negb_false_iff, Qle_bool_iff.
  apply Qlt_le_weak, Qnot_le_lt. intros Hle.
  apply Qle_bool_iff in Hle. congruence.
Qed.

Lemma float_val_nan (f : float) : float_val f = XNaN <-> f = S754_nan.
Proof.
  destruct f as [s|s| |s m e]; simpl; split; try discriminate; try reflexivity.
  destruct s; discriminate.
Qed.

Lemma is_nan_float_val (f : float) : is_nan f = false <-> float_val f <> XNaN.
Proof.
  rewrite float_val_nan. destruct f; simpl; split; congruence.
Qed.

(** [max] from a first value that is not a NaN: the result is not a NaN, is
    a member, is not less than the first value and no member is greater. *)
Lemma fold_max_spec (rest : list float) :
  forall v : float,
    float_val v <> XNaN ->
    let m := fold_left (fun m x => if float_gt x m then x else m) rest v in
    float_val m <> XNaN /\ In m (v :: rest) /\ float_le v m /\
    forall x, In x rest -> float_gt x m = false.
Proof.
  induction rest as [|y rest IH]; intros v Hv; simpl.
  - split; [exact Hv|]. split; [auto|]. split; [apply x_le_refl, Hv|].
    intros x [].
  - destruct (float_gt y v) eqn:E.
    + assert (Hy : float_val y <> XNaN).
      { unfold float_gt in E. destruct (float_val y); simpl in E; congruence. }
      destruct (IH y Hy) as (Hm & Hin & Hle & Hrest).
      split; [exact Hm|]. split; [destruct Hin; auto|]. split.
      * eapply x_le_trans; [apply x_gt_le; exact E | exact Hle].
      * intros x [Hxy|Hx]; [subst x|apply Hrest, Hx].
        apply x_le_spec in Hle. apply Hle.
    + destruct (IH v Hv) as (Hm & Hin & Hle & Hrest).
      split; [exact Hm|]. split; [destruct Hin; auto|]. split; [exact Hle|].
      intros x [Hxy|Hx]; [subst x|apply Hrest, Hx].
      destruct (is_nan y) eqn:Hny.
      { destruct y; try discriminate. reflexivity. }
      apply is_nan_float_val in Hny.
      assert (Hyv : x_le (float_val y) (float_val v) = true)
        by (apply x_le_spec; auto).
      pose proof (x_le_trans _ _ _ Hyv Hle) as Hym.
      apply x_le_spec in Hym. apply Hym.
Qed.

Lemma fold_max_nan (rest : list float) :
  fold_left (fun m x => if float_gt x m then x else m) rest S754_nan = S754_nan.
Proof.
  induction rest as [|y rest IH]; [reflexivity|]. cbn [fold_left].
  replace (float_gt y S754_nan) with false
    by (unfold float_gt; symmetry; apply x_gt_nan_r).
  exact IH.
Qed.

(** [max(vs)] is a member of [vs] that no member is greater than. *)
Lemma py_max_floats_spec (vs : list float) : not_exceeded (py_max_floats vs) vs.
Proof.
  destruct vs as [|v rest]; simpl; [reflexivity|].
  destruct (is_nan v) eqn:Hn.
  - destruct v; try discriminate. rewrite fold_max_nan.
    split; [auto|]. intros x _. unfold float_gt. simpl. apply x_gt_nan_r.
  - apply is_nan_float_val in Hn.
    destruct (fold_max_spec rest v Hn) as (_ & Hin & Hle & Hrest).
    split; [exact Hin|]. intros x [Hxv|Hx]; [subst x|apply Hrest, Hx].
    apply x_le_spec in Hle. apply Hle.
Qed.

(** When no member is a NaN it is their maximum. *)
Lemma py_max_floats_max (vs : list float) :
  Forall (fun x => is_nan x = false) vs -> is_max_of (py_max_floats vs) vs.
Proof.
  intros Hall. pose proof (py_max_floats_spec vs) as H.
  destruct (py_max_floats vs) as [q|]; simpl in *; [|exact H].
  destruct H as [Hin Hgt]. split; [exact Hin|].
  rewrite Forall_forall in Hall.
  intros x Hx. apply x_le_spec. repeat split.
  - apply is_nan_float_val, Hall, list_elem_of_In, Hx.
  - apply is_nan_float_val, Hall, list_elem_of_In, Hin.
  - apply Hgt, Hx.
Qed.

Lemma headerless_loop (loads : string -> decoded) (results : list pydict)
    (st : agg_state) :
  Forall (fun r => headerless r = true) results ->
  for_each results (Test2.summarize_result loads) st = (st, Ok tt).
Proof.
  induction 1 as [|r rest Hr _ IH]; simpl; [reflexivity|].
  unfold st_bind, Test2.summarize_result.
  unfold headerless in Hr. rewrite Hr. simpl. exact IH.
Qed.

(** X18. [_summarize_rate_limits_from_batch] returns on results whose headers
    are as expected; when it returns, its [insights_app_usage] is [None] when no
    [app_id_util_pct] was observed, and otherwise one of the observed values,
    as [float] gives them, that none of them is greater than: their maximum
    when none of them is a NaN; on a list of results without headers, the
    empty list included, it returns [None] and two empty mappings. *)
Theorem max_app_usage_is_maximum
    (loads : string -> decoded) (results : list pydict) :
  (forallb (wf_result loads) results = true ->
   exists s, Test2._summarize_rate_limits_from_batch loads results = Ok s) /\
  (forall s : RateLimitSummary,
      Test2._summarize_rate_limits_from_batch loads results = Ok s ->
      not_exceeded (insights_app_usage s)
        (flat_map (observed_app_usage loads) results) /\
      (Forall (fun x => is_nan x = false)
         (flat_map (observed_app_usage loads) results) ->
       is_max_of (insights_app_usage s)
         (flat_map (observed_app_usage loads) results))) /\
  (Forall (fun r => headerless r = true) results ->
   Test2._summarize_rate_limits_from_batch loads results = Ok empty_summary).
Proof.
  split; [apply summarize_returns|]. split.
  - intros s H. apply summarize_Ok in H as (st & Hloop & ->).
    apply summarize_loop_Ok in Hloop as [Ha _]. simpl in Ha.
    simpl. rewrite Ha. split; [apply py_max_floats_spec|apply py_max_floats_max].
  - intros H. unfold Test2._summarize_rate_limits_from_batch.
    rewrite (headerless_loop loads results init_state H). reflexivity.
Qed.

(** C8 (failing input). A first result reports an application usage of 25.0.
    When the throttle header of a second result decodes to an array,
    [throttle.get] raises [AttributeError]; when its [app_id_util_pct] is the
    integer 10 to the 400, [float] raises [OverflowError].  Neither is caught
    by [except (json.JSONDecodeError, TypeError)]: the aggregator raises and
    returns no [insights_app_usage], where the maximum of the values observed
    is 25.0 in the first case. *)
Theorem max_app_usage_lost_on_raise :
  flat_map (observed_app_usage json_loads) usage_then_array
  = [S754_finite false 7036874417766400 (-48)] /\
  Test2._summarize_rate_limits_from_batch json_loads usage_then_array
  = Raise AttributeError /\
  Test2._summarize_rate_limits_from_batch json_loads usage_then_huge
  = Raise OverflowError.
Proof. repeat split; vm_compute; reflexivity. Qed.

(** With a NaN among the values observed the result depends on their order:
    a NaN that comes first stays, whatever follows. *)
Lemma max_app_usage_nan_first :
  exists s,
    Test2._summarize_rate_limits_from_batch json_loads nan_then_five = Ok s /\
    flat_map (observed_app_usage json_loads) nan_then_five
    = [S754_nan; S754_finite false 5629499534213120 (-50)] /\
    insights_app_usage s = Some S754_nan.
Proof. eexists. repeat split; vm_compute; reflexivity. Qed.

(** C3 (as amended). When [_summarize_rate_limits_from_batch] returns, the
    usage percentage it reports for an account is the [acc_id_util_pct] of the
    last result, in list order, that contributes one for that account, and the
    account is absent from the mapping when no result does. *)
Theorem account_usage_is_last_value
    (loads : string -> decoded) (results : list pydict)
    (s : RateLimitSummary) (acc : string) :
  Test2._summarize_rate_limits_from_batch loads results = Ok s ->
  insights_account_usages s !! acc
  = last (omap (observed_account_usage loads acc) results).
Proof.
  intros H. apply summarize_Ok in H as (st & Hloop & ->).
  apply summarize_loop_Ok in Hloop as [_ Hu]. simpl.
  rewrite Hu. simpl. rewrite lookup_empty.
  destruct (last _); reflexivity.
Qed.

Lemma max_app_usage_is_maximum_witness :
  (exists s,
      Test2._summarize_rate_limits_from_batch json_loads two_throttled = Ok s /\
      insights_app_usage s = Some (S754_finite false 7036874417766400 (-48)) /\
      is_max_of (insights_app_usage s)
        (flat_map (observed_app_usage json_loads) two_throttled)) /\
  Test2._summarize_rate_limits_from_batch json_loads without_headers
  = Ok empty_summary.
Proof.
  split.
  - destruct (max_app_usage_is_maximum json_loads two_throttled)
      as (Hreturns & Hmax & _).
    assert (Hwf : forallb (wf_result json_loads) two_throttled = true)
      by (vm_compute; reflexivity).
    destruct (Hreturns Hwf) as [s Hs].
    exists s. split; [exact Hs|]. split.
    + vm_compute in Hs. injection Hs as <-. reflexivity.
    + apply (Hmax s Hs). vm_compute. repeat constructor.
  - apply (proj2 (proj2 (max_app_usage_is_maximum json_loads without_headers))).
    repeat constructor.
Defined.

Lemma account_usage_is_last_value_witness :
  exists s,
    Test2._summarize_rate_limits_from_batch json_loads two_throttled = Ok s /\
    insights_account_usages s !! "act_1"
    = last (omap (observed_account_usage json_loads "act_1") two_throttled).
Proof.
  eexists. split; [vm_compute; reflexivity|].
  apply (account_usage_is_last_value json_loads two_throttled _ "act_1").
  vm_compute. reflexivity.
Defined.

(** C3 (counterexample). Two results for the account [act_1] report an account
    usage of 50 and then of 10: the aggregator returns 10 for [act_1], the
    last value seen, not the maximum 50. *)
Lemma account_usage_not_maximum :
  exists s,
    Test2._summarize_rate_limits_from_batch json_loads two_throttled = Ok s /\
    omap (observed_account_usage json_loads "act_1") two_throttled
    = [float_of_Z 50; float_of_Z 10] /\
    insights_account_usages s !! "act_1" = Some (float_of_Z 10) /\
    float_gt (float_of_Z 50) (float_of_Z 10) = true.
Proof.
  eexists. split; [vm_compute; reflexivity|].
  split; [vm_compute; reflexivity|].
  split; [vm_compute; reflexivity|].
  vm_compute. reflexivity.
Qed.

(** For an account id that is not itself a key of [etas], which holds for
    every id while the keys written all start with [act_] and the ids do not,
    an entry is compared with 0 and stored under the prefixed key. *)
Lemma eta_entry_unprefixed (id : string) (d : pydict) (st : agg_state) (x : xnum) :
  st_etas st !! id = None ->
  num_of (dict_get_default "estimated_time_to_regain_access" d (JInt 0)) = Some x ->
  Test2.eta_entry id (JDict d) st
  = (set_eta ("act_" ++ id)
       (if x_gt x (XFin (inject_Z 0))
        then dict_get_default "estimated_time_to_regain_access" d (JInt 0)
        else JInt 0) st,
     Ok tt).
Proof.
  intros Hid Hx. unfold Test2.eta_entry, py_max2, py_gt. st_unfold. simpl.
  rewrite Hid, Hx. simpl. destruct (x_gt x (XFin (inject_Z 0))); reflexivity.
Qed.

(** C1 (failing input). One result whose usage header lists, for the account
    [123], an entry with [estimated_time_to_regain_access] 120 and then one
    with 0: the aggregator reads [etas] under the key [123] and writes it under
    [act_123], so every entry is compared with 0 and the last one stays:
    the eta returned for [act_123] is 0, not the maximum 120.  With the two
    entries in the other order it is 120. *)
Theorem eta_keeps_last_entry :
  Test2._summarize_rate_limits_from_batch json_loads
    [result_with_headers 0 "act_123/insights"
       [("x-business-use-case-usage", usage_120_then_0)]]
  = Ok {| insights_app_usage := None;
          insights_account_usages := ∅;
          etas := {["act_123" := JInt 0]} |} /\
  Test2._summarize_rate_limits_from_batch json_loads
    [result_with_headers 0 "act_123/insights"
       [("x-business-use-case-usage", usage_0_then_120)]]
  = Ok {| insights_app_usage := None;
          insights_account_usages := ∅;
          etas := {["act_123" := JInt 120]} |}.
Proof. split; vm_compute; reflexivity. Qed.

(** The result of that example is what the sender of [test2.py] returns for
    the answer [usage_response]. *)
Lemma usage_result_from_sender :
  snd (Test2.send_batch_to_facebook json_loads (upstream usage_response)
         ["act_123/insights"] "EAAB" API_VERSION 180)
  = Ok [result_with_headers 0 "act_123/insights"
          [("x-business-use-case-usage", usage_120_then_0)]].
Proof. vm_compute. reflexivity. Qed.

(** The same across results: 120 in a first result and 0 in a second give 0. *)
Lemma eta_keeps_last_result :
  Test2._summarize_rate_limits_from_batch json_loads
    [result_with_headers 0 "act_123/insights"
       [("x-business-use-case-usage",
         js "{'123': [{'estimated_time_to_regain_access': 120}]}")];
     result_with_headers 1 "act_123/ads"
       [("x-business-use-case-usage",
         js "{'123': [{'estimated_time_to_regain_access': 0}]}")]]
  = Ok {| insights_app_usage := None;
          insights_account_usages := ∅;
          etas := {["act_123" := JInt 0]} |}.
Proof. vm_compute. reflexivity. Qed.

(** ** Headers that are not as expected *)

(** A throttle header, named in any case, whose text decodes to a value other
    than an object makes the aggregator raise, whatever results follow. *)
Lemma summarize_non_object_throttle (loads : string -> decoded)
    (name text : string) (v : json) (i : Z) (url : string) (rest : list pydict) :
  lower name = "x-fb-ads-insights-throttle" ->
  loads text = Decoded v ->
  (forall d, v <> JDict d) ->
  Test2._summarize_rate_limits_from_batch loads
    (result_with_headers i url [(name, text)] :: rest)
  = Raise AttributeError.
Proof.
  intros Hn Hl Hv. unfold Test2._summarize_rate_limits_from_batch.
  cbn [for_each]. unfold st_bind at 1.
  assert (Hr : Test2.summarize_result loads
                 (result_with_headers i url [(name, text)])
                 init_state = (init_state, Raise AttributeError)).
  { unfold Test2.summarize_result. cbn. st_unfold. cbn.
    rewrite throttle_block_eq, Hn. cbn. rewrite Hl.
    destruct v; try reflexivity. exfalso. eapply Hv. reflexivity. }
  rewrite Hr. reflexivity.
Qed.

(** A throttle header and a usage header that are missing when the decoder
    takes the default text to the empty object, or whose values are not
    strings or are not JSON, are skipped: the turn leaves the accumulators as
    they are and the loop goes on. *)
Lemma summarize_result_skips (loads : string -> decoded)
    (r : pydict) (hs : list json) (hd : pydict) (st : agg_state) :
  dict_get_default "headers" r (JList []) = JList hs ->
  Test2.headers_of_list hs [] = Ok hd ->
  (forall name,
      name = "x-fb-ads-insights-throttle" \/ name = "x-business-use-case-usage" ->
      match py_json_loads loads (header_text name hs) with
      | Ok v => v = JDict []
      | Raise e => is_skipped e = true
      end) ->
  Test2.summarize_result loads r st = (st, Ok tt).
Proof.
  intros Hh Hhd Hbad. unfold Test2.summarize_result. rewrite Hh.
  destruct hs as [|h hs']; [reflexivity|]. cbn [truthy negb Test2.headers_dict_of].
  st_unfold. rewrite Hhd. rewrite throttle_block_eq.
  rewrite (headers_dict_text _ _ _ Hhd).
  pose proof (Hbad "x-fb-ads-insights-throttle" (or_introl eq_refl)) as Ht.
  pose proof (Hbad "x-business-use-case-usage" (or_intror eq_refl)) as Hb.
  assert (Hst : Test2.buc_block loads hd st = (st, Ok tt)).
  { unfold Test2.buc_block. st_unfold. rewrite (headers_dict_text _ _ _ Hhd).
    destruct (py_json_loads loads (header_text "x-business-use-case-usage" (h :: hs')))
      as [v|e']; [subst v; reflexivity|].
    destruct e'; try discriminate Hb; reflexivity. }
  destruct (py_json_loads loads (header_text "x-fb-ads-insights-throttle" (h :: hs')))
    as [v|e]; [subst v; destruct (Test2.acc_id_from_url r); exact Hst|].
  destruct e; try discriminate Ht; exact Hst.
Qed.

Lemma summarize_result_skips_example :
  Test2.summarize_result json_loads
    (result_with_headers 0 "act_1/insights"
       [("x-fb-ads-insights-throttle", "not json"); ("date", "today")])
    init_state
  = (init_state, Ok tt).
Proof.
  eapply summarize_result_skips; [reflexivity | reflexivity |].
  intros name [-> | ->]; vm_compute; reflexivity.
Qed.

(** C6 (failing input). A throttle header whose value is the JSON text [null]
    decodes to [None], on which the aggregator calls [get]: it raises
    [AttributeError], and the valid header of the result that follows is not
    aggregated, although alone that result is. *)
Theorem summarize_raises_on_null_header :
  Test2._summarize_rate_limits_from_batch json_loads
    [result_with_headers 0 "act_1/insights" [("x-fb-ads-insights-throttle", "null")];
     result_with_headers 1 "act_1/campaigns"
       [("x-fb-ads-insights-throttle", throttle "25.0" "10")]]
  = Raise AttributeError /\
  Test2._summarize_rate_limits_from_batch json_loads
    [result_with_headers 1 "act_1/campaigns"
       [("x-fb-ads-insights-throttle", throttle "25.0" "10")]]
  = Ok {| insights_app_usage := Some (S754_finite false 7036874417766400 (-48));
          insights_account_usages := {["act_1" := float_of_Z 10]};
          etas := ∅ |}.
Proof. split; vm_compute; reflexivity. Qed.

(** ** The values of [etas] *)

Lemma for_each_invariant {A} (P : agg_state -> Prop) (l : list A)
    (body : A -> St unit) :
  (forall x st, P st -> P (fst (body x st))) ->
  forall st, P st -> P (fst (for_each l body st)).
Proof.
  intros Hbody. induction l as [|x rest IH]; intros st Hst; simpl; [exact Hst|].
  unfold st_bind. specialize (Hbody x st Hst).
  destruct (body x st) as [st1 [[]|e]]; simpl in *; [apply IH|]; exact Hbody.
Qed.

Lemma is_number_num_of (v : json) : is_number v = true <-> exists q, num_of v = Some q.
Proof.
  destruct v; simpl; split; try discriminate; eauto; intros [q H]; discriminate.
Qed.

Lemma py_max2_number (cur item m : json) :
  py_max2 cur item = Ok m -> is_number m = true.
Proof.
  unfold py_max2, py_gt, mbind, outcome_bind, mret, outcome_ret.
  destruct (num_of item) as [qi|] eqn:Ei; [|discriminate].
  destruct (num_of cur) as [qc|] eqn:Ec; [|discriminate].
  intros H. injection H as <-.
  destruct (x_gt qi qc); apply is_number_num_of; eauto.
Qed.

Lemma eta_entry_numeric (id : string) (entry : json) (st : agg_state) :
  etas_numeric st -> etas_numeric (fst (Test2.eta_entry id entry st)).
Proof.
  intros Hst. unfold Test2.eta_entry. st_unfold.
  destruct (py_get entry _ _) as [eta|e]; simpl; [|exact Hst].
  destruct (py_max2 _ eta) as [m|e] eqn:Em; simpl; [|exact Hst].
  unfold etas_numeric. simpl. apply map_Forall_insert_2; [|exact Hst].
  eapply py_max2_number. exact Em.
Qed.

Lemma buc_block_numeric (loads : string -> decoded) (hd : pydict)
    (st : agg_state) :
  etas_numeric st -> etas_numeric (fst (Test2.buc_block loads hd st)).
Proof.
  intros Hst. unfold Test2.buc_block. st_unfold.
  destruct (py_json_loads loads _) as [buc|e]; simpl; [|destruct e; exact Hst].
  destruct (Test2.py_items buc) as [items|e]; simpl; [|destruct e; exact Hst].
  match goal with
  | |- context [for_each items ?f st] =>
      assert (Hs : etas_numeric (fst (for_each items f st)))
  end.
  { apply for_each_invariant; [|exact Hst]. intros [id entries] st0 H0.
    destruct entries; try exact H0.
    apply for_each_invariant; [|exact H0].
    intros entry st1. apply eta_entry_numeric. }
  destruct (for_each items _ st) as [st1 [[]|[]]]; exact Hs.
Qed.

Lemma summarize_result_numeric (loads : string -> decoded) (r : pydict)
    (st : agg_state) :
  etas_numeric st -> etas_numeric (fst (Test2.summarize_result loads r st)).
Proof.
  intros Hst. unfold Test2.summarize_result.
  destruct (negb _); [exact Hst|]. st_unfold.
  destruct (Test2.headers_dict_of _) as [hd|e]; simpl; [|exact Hst].
  rewrite throttle_block_eq.
  assert (Ht : forall acc t, etas_numeric (throttle_update acc t st)).
  { intros acc t. unfold etas_numeric, throttle_update.
    destruct (number_at "app_id_util_pct" t), acc,
      (number_at "acc_id_util_pct" t); exact Hst. }
  destruct (py_json_loads loads _) as [[| | | | | |t]|[]]; simpl;
    try exact Hst; try (apply buc_block_numeric; exact Hst).
  destruct (throttle_overflows _ t); simpl.
  - unfold etas_numeric, throttle_partial.
    destruct (overflows_at _ t), (number_at "app_id_util_pct" t); exact Hst.
  - apply buc_block_numeric. apply Ht.
Qed.

(** The etas the aggregator returns are numbers: the second argument of the
    comparison in [max] is always one. *)
Lemma etas_are_numbers (loads : string -> decoded) (results : list pydict)
    (s : RateLimitSummary) :
  Test2._summarize_rate_limits_from_batch loads results = Ok s ->
  map_Forall (fun (_ : string) v => is_number v = true) (etas s).
Proof.
  intros H. apply summarize_Ok in H as (st & Hloop & ->). simpl.
  pose proof (for_each_invariant etas_numeric results
                (Test2.summarize_result loads)
                (fun r st0 => summarize_result_numeric loads r st0) init_state) as Hinv.
  rewrite Hloop in Hinv. apply Hinv.
  unfold etas_numeric. simpl. apply map_Forall_empty.
Qed.

(** * Further properties of the senders *)

Lemma item_loop_raises (process_item : list string -> nat -> json -> outcome pydict)
    (P : exn -> Prop) (urls : list string) (data : list json) :
  (forall i item e, process_item urls i item = Raise e -> P e) ->
  forall k e, item_loop process_item urls k data = Raise e -> P e.
Proof.
  intros Hbody. induction data as [|item rest IH]; intros k e H; simpl in H;
    [discriminate|].
  unfold mbind, outcome_bind in H.
  destruct (process_item urls k item) as [r|e0] eqn:Hr.
  - destruct (item_loop process_item urls (S k) rest) as [rs|e1] eqn:Hrs;
      [discriminate|].
    injection H as <-. eapply IH. exact Hrs.
  - injection H as <-. eapply Hbody. exact Hr.
Qed.

Lemma py_get_raises (v : json) (k : string) (dflt : json) (e : exn) :
  py_get v k dflt = Raise e -> e = AttributeError.
Proof. destruct v; simpl; congruence. Qed.

Lemma py_json_loads_raises (loads : string -> decoded) (v : json) (e : exn) :
  py_json_loads loads v = Raise e ->
  is_skipped e = true \/ decoder_escape e.
Proof.
  unfold decoder_escape.
  destruct v; simpl; try (intros [= <-]; auto).
  destruct (loads s) as [j|[]]; [discriminate| | |]; intros [= <-]; auto.
Qed.

Lemma is_skipped_cases (e : exn) :
  is_skipped e = true -> e = JSONDecodeError \/ e = TypeError.
Proof. destruct e; try discriminate; auto. Qed.

Lemma main_item_raises (loads : string -> decoded)
    (urls : list string) (i : nat) (item : json) (e : exn) :
  Main.process_item loads urls i item = Raise e ->
  e = AttributeError \/ e = TypeError \/ decoder_escape e.
Proof.
  unfold Main.process_item, mbind, outcome_bind. intros H.
  destruct item; try discriminate; try (injection H as <-; auto).
  simpl in H.
  destruct (truthy _); [|destruct (py_eq_int _ _); discriminate].
  destruct (py_json_loads loads _) as [b|e0] eqn:El.
  - destruct (py_eq_int _ _); discriminate.
  - apply py_json_loads_raises in El as [El|El].
    + apply is_skipped_cases in El as [-> | ->]; [discriminate|].
      injection H as <-. auto.
    + destruct El as [-> | ->]; injection H as <-; unfold decoder_escape; auto.
Qed.

Lemma test2_item_raises (loads : string -> decoded)
    (urls : list string) (i : nat) (item : json) (e : exn) :
  Test2.process_item loads urls i item = Raise e ->
  e = AttributeError \/ e = TypeError \/ e = IndexError \/ decoder_escape e.
Proof.
  unfold Test2.process_item, mbind, outcome_bind. intros H.
  destruct (urls !! i); [|injection H as <-; auto].
  destruct (py_get item "code" JNull) as [code|e0] eqn:Hc;
    [|apply py_get_raises in Hc; subst; injection H as <-; auto].
  destruct (py_get item "headers" (JList [])) as [hs|e0] eqn:Hh;
    [|apply py_get_raises in Hh; subst; injection H as <-; auto].
  destruct (truthy item); [|discriminate].
  destruct (py_get item "body" (JStr "{}")) as [body|e0] eqn:Hb;
    [|apply py_get_raises in Hb; subst; injection H as <-; auto].
  destruct (py_json_loads loads body) as [b|e0] eqn:El.
  - destruct (py_eq_int code 200); [discriminate|].
    destruct (py_get b "error" b) as [x|e1] eqn:Hx; [discriminate|].
    apply py_get_raises in Hx; subst. injection H as <-. auto.
  - apply py_json_loads_raises in El as [El|El].
    + apply is_skipped_cases in El as [-> | ->]; [discriminate|].
      injection H as <-. auto.
    + destruct El as [-> | ->]; injection H as <-; unfold decoder_escape; auto 6.
Qed.

(** What [send_batch_to_facebook] of [main.py] raises once its call is made. *)
Lemma main_response_raises_cases (loads : string -> decoded)
    (urls : list string) (text : string) (e : exn) :
  Main.process_response loads urls text = Raise e ->
  (exists re, e = RuntimeError re) \/ e = AttributeError \/ e = TypeError \/
  decoder_escape e.
Proof.
  unfold Main.process_response, decoder_escape.
  destruct (loads text) as [data|[]]; try (intros [= <-]; eauto 6).
  destruct data as [| | | | |items|d]; try (intros [= <-]; eauto).
  - rewrite main_process_items_loop. intros Hl. right.
    apply (item_loop_raises _
             (fun e => e = AttributeError \/ e = TypeError \/ decoder_escape e))
      in Hl; [exact Hl|].
    intros i item e0 H0. eapply main_item_raises. exact H0.
  - destruct (dict_get "error" d) as [err|]; [|intros [= <-]; eauto].
    unfold mbind, outcome_bind.
    destruct (py_get err "message" JNull) as [m|e0] eqn:H1;
      [|apply py_get_raises in H1; subst; intros [= <-]; auto].
    destruct (py_get err "code" JNull) as [c|e0] eqn:H2;
      [|apply py_get_raises in H2; subst; intros [= <-]; auto].
    destruct (py_get err "type" JNull) as [t|e0] eqn:H3;
      [|apply py_get_raises in H3; subst; intros [= <-]; auto].
    intros [= <-]. eauto.
Qed.

(** The only [ValueError] among them is the one of the decoder. *)
Lemma main_response_raises (loads : string -> decoded)
    (urls : list string) (text : string) (e : exn) :
  Main.process_response loads urls text = Raise e ->
  is_ValueError e = true -> e = ValueError IntegerStringTooLong.
Proof.
  intros H. apply main_response_raises_cases in H
    as [[re ->]|[-> |[-> |[-> | ->]]]]; try discriminate. reflexivity.
Qed.

Lemma main_normalize_raises (api_version : string) (urls : list string) (e : exn) :
  Main.normalize_urls api_version urls = Raise e ->
  exists url, In url urls /\ e = ValueError (VersionInRelativeUrl url).
Proof.
  induction urls as [|url rest IH]; intros Hn; simpl in Hn; [discriminate|].
  destruct (Main.has_version api_version (lstrip_slash url)).
  - injection Hn as <-. exists url. simpl. auto.
  - unfold mbind, outcome_bind in Hn.
    destruct (Main.normalize_urls api_version rest) as [us|e0]; [discriminate|].
    injection Hn as <-. destruct (IH eq_refl) as (u & Hu & ->).
    exists u. simpl. auto.
Qed.

(** What [send_batch_to_facebook] of [test2.py] raises once its call is
    made. *)
Lemma test2_response_raises_cases (loads : string -> decoded)
    (urls : list string) (text : string) (e : exn) :
  Test2.process_response loads urls text = Raise e ->
  (e = JSONDecodeError /\ loads text = Undecoded NotJson) \/
  (exists re, e = RuntimeError re) \/
  e = AttributeError \/ e = TypeError \/ e = IndexError \/ decoder_escape e.
Proof.
  unfold Test2.process_response, decoder_escape.
  destruct (loads text) as [data|[]] eqn:Hl; try (intros [= <-]; auto 8).
  destruct data as [| | | | |items|d]; try (intros [= <-]; eauto).
  rewrite test2_process_items_loop. intros Hloop. right. right.
  apply (item_loop_raises _
           (fun e => e = AttributeError \/ e = TypeError \/ e = IndexError \/
                     decoder_escape e)) in Hloop;
    [exact Hloop|].
  intros i item e0 H0. eapply test2_item_raises. exact H0.
Qed.

Lemma test2_response_raises (loads : string -> decoded)
    (urls : list string) (text : string) (e : exn) :
  Test2.process_response loads urls text = Raise e ->
  (is_ValueError e = true <->
   (e = JSONDecodeError /\ loads text = Undecoded NotJson) \/
   e = ValueError IntegerStringTooLong).
Proof.
  intros H. apply test2_response_raises_cases in H
    as [[-> Hl]|[[re ->]|[-> |[-> |[-> |[-> | ->]]]]]];
    (split; [try discriminate; auto | intros [[? ?]| ?]; try discriminate; auto]).
Qed.

(** X1. In [main.py] a [ValueError] is raised before anything is sent, with
    one exception.  Either the call log is empty and
    [send_batch_to_facebook] raised [ValueError]; or exactly one call was
    made, with the submitted paths stripped of their leading slashes, and
    what follows is a result or an exception that is no [ValueError] other
    than the plain [ValueError] of the decoder for an integer with too many
    digits, which [except json.JSONDecodeError] does not catch. *)
Theorem main_value_error_after_call
    (loads : string -> decoded) (net : Network)
    (urls : list string) (token api_version : string) (timeout_sec : Z) :
  let r := Main.send_batch_to_facebook loads net urls token api_version timeout_sec in
  (fst r = [] /\ exists e, snd r = Raise (ValueError e)) \/
  (fst r = [Main.make_call api_version token (map lstrip_slash urls) timeout_sec] /\
   match snd r with
   | Ok _ => True
   | Raise e => is_ValueError e = true -> e = ValueError IntegerStringTooLong
   end).
Proof.
  unfold Main.send_batch_to_facebook.
  destruct (bad_token token); [left; simpl; eauto|].
  destruct (bad_count urls); [left; simpl; eauto|].
  destruct (Main.normalize_urls api_version urls) as [normalized|e] eqn:Hn.
  - right. apply main_normalize_urls_Ok in Hn. subst normalized. simpl.
    split; [reflexivity|].
    destruct (net _) as [err|text]; [discriminate|].
    destruct (Main.process_response loads _ text) as [rs|e] eqn:Hr; [exact I|].
    eapply main_response_raises. exact Hr.
  - left. simpl. split; [reflexivity|].
    apply main_normalize_raises in Hn as (url & _ & ->). eauto.
Qed.

(** X2. In [test2.py], once the token and the count are accepted exactly one
    call is made, and the only [ValueError]s that can follow it are the
    [JSONDecodeError] of [resp.json()], raised when the text of the answer is
    not JSON, and the plain [ValueError] of the decoder for an integer with
    too many digits. *)
Theorem test2_value_error_after_call
    (loads : string -> decoded) (net : Network)
    (urls : list string) (token api_version : string) (timeout_sec : Z) :
  let call := Test2.make_call api_version token (map lstrip_slash urls) timeout_sec in
  let r := Test2.send_batch_to_facebook loads net urls token api_version timeout_sec in
  (fst r = [] /\ exists e, snd r = Raise (ValueError e)) \/
  (fst r = [call] /\
   match snd r with
   | Ok _ => True
   | Raise e =>
       is_ValueError e = true <->
       (e = JSONDecodeError /\
        exists text, net call = HttpResponse text /\ loads text = Undecoded NotJson) \/
       e = ValueError IntegerStringTooLong
   end).
Proof.
  unfold Test2.send_batch_to_facebook.
  destruct (bad_token token); [left; simpl; eauto|].
  destruct (bad_count urls); [left; simpl; eauto|].
  right. simpl. split; [reflexivity|].
  destruct (net _) as [err|text] eqn:Hnet.
  { split; [discriminate | intros [[? _]|?]; discriminate]. }
  destruct (Test2.process_response loads _ text) as [rs|e] eqn:Hr; [exact I|].
  apply test2_response_raises in Hr. rewrite Hr.
  split.
  - intros [[-> Hl]| ->]; [left; split; [reflexivity|]; eauto | right; reflexivity].
  - intros [[-> (text0 & [= <-] & Hl)]| ->]; auto.
Qed.

Lemma has_version_iff (u : string) :
  Main.has_version API_VERSION u = true <-> first_segment u = API_VERSION.
Proof.
  split; [|apply has_version_first_segment].
  unfold Main.has_version, startswith. intros H.
  apply orb_true_iff in H as [H|H].
  - apply prefix_app in H as [post ->]. reflexivity.
  - apply andb_true_iff in H as [_ H]. apply String.eqb_eq in H. exact H.
Qed.

(** The normalization of [main.py] raises for the first path whose leading
    segment is the version tag, and for no other list. *)
Lemma main_normalize_cases (urls : list string) :
  (Forall (fun url => leading_segment url <> API_VERSION) urls /\
   Main.normalize_urls API_VERSION urls = Ok (map lstrip_slash urls)) \/
  (exists pre url post,
      urls = (pre ++ url :: post)%list /\
      Forall (fun u => leading_segment u <> API_VERSION) pre /\
      leading_segment url = API_VERSION /\
      Main.normalize_urls API_VERSION urls
      = Raise (ValueError (VersionInRelativeUrl url))).
Proof.
  induction urls as [|url rest IH]; [left; split; [constructor | reflexivity]|].
  simpl. destruct (Main.has_version API_VERSION (lstrip_slash url)) eqn:Hv.
  - right. exists [], url, rest. apply has_version_iff in Hv.
    repeat split; auto.
  - assert (Hne : leading_segment url <> API_VERSION).
    { intros Heq. apply has_version_iff in Heq. congruence. }
    destruct IH as [[Hall ->]|(pre & u & post & -> & Hpre & Hu & ->)].
    + left. split; [constructor; assumption | reflexivity].
    + right. exists (url :: pre), u, post. repeat split; auto.
Qed.

(** X3. With a token and a count that pass, [send_batch_to_facebook] of [main.py]
    makes its call exactly when no path has the version tag as leading
    segment; otherwise it raises [ValueError] for the first such path, as it
    was submitted, and makes no call. *)
Theorem main_version_check_exact
    (loads : string -> decoded) (net : Network)
    (urls : list string) (token : string) (timeout_sec : Z) :
  bad_token token = false ->
  bad_count urls = false ->
  (Forall (fun url => leading_segment url <> API_VERSION) urls /\
   fst (Main.send_batch_to_facebook loads net urls token API_VERSION timeout_sec)
   = [Main.make_call API_VERSION token (map lstrip_slash urls) timeout_sec]) \/
  (exists pre url post,
      urls = (pre ++ url :: post)%list /\
      Forall (fun u => leading_segment u <> API_VERSION) pre /\
      leading_segment url = API_VERSION /\
      Main.send_batch_to_facebook loads net urls token API_VERSION timeout_sec
      = ([], Raise (ValueError (VersionInRelativeUrl url)))).
Proof.
  intros Ht Hc. unfold Main.send_batch_to_facebook. rewrite Ht, Hc.
  destruct (main_normalize_cases urls) as [[Hall ->]|(pre & u & post & Hu & Hpre & Hseg & ->)].
  - left. split; [exact Hall | reflexivity].
  - right. exists pre, u, post. auto.
Qed.

Lemma main_version_check_exact_witness :
  exists pre url post,
    ["me"; "//v23.0/me"; "v23.0"] = (pre ++ url :: post)%list /\
    Forall (fun u => leading_segment u <> API_VERSION) pre /\
    leading_segment url = API_VERSION /\
    Main.send_batch_to_facebook json_loads (upstream "[]")
      ["me"; "//v23.0/me"; "v23.0"] "EAAB" API_VERSION 120
    = ([], Raise (ValueError (VersionInRelativeUrl url))).
Proof.
  destruct (main_version_check_exact json_loads (upstream "[]")
              ["me"; "//v23.0/me"; "v23.0"] "EAAB" 120 eq_refl eq_refl)
    as [[Hall _]|H].
  - exfalso. apply Forall_cons in Hall as [_ Hall].
    apply Forall_cons in Hall as [Hne _]. apply Hne. reflexivity.
  - exact H.
Defined.

Lemma main_item_returns (loads : string -> decoded)
    (urls : list string) (i : nat) (item : json) :
  wf_item loads item = true ->
  exists r, Main.process_item loads urls i item = Ok r.
Proof.
  unfold wf_item, Main.process_item, mbind, outcome_bind.
  destruct item as [| | | | | |d]; try discriminate; [eauto|].
  cbn [py_get].
  destruct (dict_get_default "body" d (JStr EmptyString)) as [| |z|f|s|l|d0] eqn:Eb;
    intros Hwf.
  - simpl. destruct (py_eq_int _ _); eauto.
  - apply negb_true_iff in Hwf. rewrite Hwf. destruct (py_eq_int _ _); eauto.
  - apply negb_true_iff in Hwf. rewrite Hwf. destruct (py_eq_int _ _); eauto.
  - apply negb_true_iff in Hwf. rewrite Hwf. destruct (py_eq_int _ _); eauto.
  - cbn [truthy py_json_loads].
    destruct (String.eqb s EmptyString); cbn [negb orb] in *.
    + destruct (py_eq_int _ _); eauto.
    + destruct (loads s) as [j|[]]; try discriminate;
        cbn [decode_error]; [destruct (py_eq_int _ _)|]; eauto.
  - apply negb_true_iff in Hwf. rewrite Hwf. destruct (py_eq_int _ _); eauto.
  - apply negb_true_iff in Hwf. rewrite Hwf. destruct (py_eq_int _ _); eauto.
Qed.

(** X4. A failure of a sub-request does not fail the call of [main.py]: when
    the input passes the checks and the answer decodes to an array whose
    elements are null or objects with an absent or empty body, or a string
    body that decodes or is not JSON, whatever their status codes,
    [send_batch_to_facebook] returns one result per element. *)
Theorem main_send_returns
    (loads : string -> decoded) (net : Network)
    (urls : list string) (token : string) (timeout_sec : Z)
    (text : string) (items : list json) :
  bad_token token = false ->
  bad_count urls = false ->
  Forall (fun url => leading_segment url <> API_VERSION) urls ->
  net (Main.make_call API_VERSION token (map lstrip_slash urls) timeout_sec)
  = HttpResponse text ->
  loads text = Decoded (JList items) ->
  forallb (wf_item loads) items = true ->
  exists rs,
    snd (Main.send_batch_to_facebook loads net urls token API_VERSION timeout_sec)
    = Ok rs /\ length rs = length items.
Proof.
  intros Ht Hc Hall Hnet Hl Hwf. unfold Main.send_batch_to_facebook.
  rewrite Ht, Hc.
  destruct (main_normalize_cases urls) as [[_ ->]|(pre & u & post & -> & _ & Hseg & _)].
  - simpl. rewrite Hnet. unfold Main.process_response. rewrite Hl.
    rewrite main_process_items_loop.
    destruct (item_loop_returns (Main.process_item loads)
                (map lstrip_slash urls) items 0) as [rs Hrs].
    { intros i item Hi. apply main_item_returns.
      rewrite forallb_forall in Hwf. apply Hwf.
      apply list_elem_of_In, list_elem_of_lookup. eauto. }
    exists rs. split; [exact Hrs|].
    apply item_loop_Ok in Hrs. apply Hrs.
  - exfalso. apply Forall_app in Hall as [_ Hall].
    apply Forall_cons in Hall as [Hne _]. contradiction.
Qed.

Lemma main_send_returns_witness :
  exists rs,
    snd (Main.send_batch_to_facebook json_loads (upstream mixed_response)
           three_paths "EAAB" API_VERSION 120) = Ok rs /\
    length rs = 3%nat.
Proof.
  apply (main_send_returns json_loads (upstream mixed_response) three_paths "EAAB"
           120 mixed_response
           [JNull;
            JDict [("code", JInt 400);
                   ("body", JStr (js "{'error': {'code': 100}}"))];
            JDict [("code", JInt 200); ("body", JStr (js "{'id': '1'}"))]]).
  - reflexivity.
  - reflexivity.
  - repeat constructor; vm_compute; discriminate.
  - reflexivity.
  - vm_compute. reflexivity.
  - reflexivity.
Defined.

Lemma lstrip_slash_spec (url : string) :
  exists n, url = (slashes n ++ lstrip_slash url)%string /\
            startswith (lstrip_slash url) "/" = false.
Proof.
  induction url as [|c rest IH].
  - exists 0%nat. split; reflexivity.
  - destruct (Ascii.eqb_spec c "/"%char) as [->|Hne].
    + destruct IH as (n & Hn & Hs). exists (S n). split; [|exact Hs].
      simpl. rewrite append_String. f_equal. exact Hn.
    + exists 0%nat.
      assert (Hl : lstrip_slash (String c rest) = String c rest).
      { destruct c as [[] [] [] [] [] [] [] []]; try reflexivity.
        exfalso. apply Hne. reflexivity. }
      rewrite Hl. split; [reflexivity|].
      unfold startswith.
      destruct (String.prefix "/" (String c rest)) eqn:E; [|reflexivity].
      apply prefix_app in E as [post E]. rewrite append_String in E.
      injection E as E _. congruence.
Qed.

(** X5. What either sender sends upstream: one [GET] per submitted path, in
    order, whose [relative_url] is the path without its leading slashes and
    so never starts with a slash. *)
Theorem sent_paths_are_stripped
    (loads : string -> decoded) (net : Network)
    (urls : list string) (token api_version : string) (timeout_sec : Z)
    (call : Call) :
  In call (fst (Main.send_batch_to_facebook loads net urls token api_version timeout_sec))
  \/ In call (fst (Test2.send_batch_to_facebook loads net urls token api_version
                     timeout_sec)) ->
  exists us,
    call_batch call
    = JList (map (fun u => JDict [("method", JStr "GET"); ("relative_url", JStr u)]) us) /\
    length us = length urls /\
    forall (i : nat) (url : string),
      urls !! i = Some url ->
      exists u n, us !! i = Some u /\ url = (slashes n ++ u)%string /\
                  startswith u "/" = false.
Proof.
  intros H.
  assert (Hcall : call_batch call = batch_payload (map lstrip_slash urls)).
  { destruct H as [H|H].
    - unfold Main.send_batch_to_facebook in H.
      destruct (bad_token token); [destruct H|].
      destruct (bad_count urls); [destruct H|].
      destruct (Main.normalize_urls api_version urls) as [normalized|e] eqn:Hn;
        [|destruct H].
      apply main_normalize_urls_Ok in Hn. subst normalized.
      destruct H as [<-|[]]. reflexivity.
    - unfold Test2.send_batch_to_facebook in H.
      destruct (bad_token token); [destruct H|].
      destruct (bad_count urls); [destruct H|].
      destruct H as [<-|[]]. reflexivity. }
  exists (map lstrip_slash urls). split; [exact Hcall|].
  split; [apply length_map|].
  intros i url Hi. destruct (lstrip_slash_spec url) as (n & Hn & Hs).
  exists (lstrip_slash url), n. rewrite list_lookup_fmap, Hi. auto.
Qed.

Lemma sent_paths_are_stripped_witness :
  exists us,
    call_batch (Test2.make_call API_VERSION "EAAB" ["me"; "act_1/ads"] 180)
    = JList (map (fun u => JDict [("method", JStr "GET"); ("relative_url", JStr u)]) us) /\
    length us = length ["/me"; "//act_1/ads"] /\
    forall (i : nat) (url : string),
      ["/me"; "//act_1/ads"] !! i = Some url ->
      exists u n, us !! i = Some u /\ url = (slashes n ++ u)%string /\
                  startswith u "/" = false.
Proof.
  apply (sent_paths_are_stripped json_loads (upstream "[]")
           ["/me"; "//act_1/ads"] "EAAB" API_VERSION 180
           (Test2.make_call API_VERSION "EAAB" ["me"; "act_1/ads"] 180)).
  right. left. reflexivity.
Defined.

(** * What the aggregator can raise *)

Lemma for_each_raises {A} (P : exn -> Prop) (l : list A) (body : A -> St unit) :
  (forall x st e, snd (body x st) = Raise e -> P e) ->
  forall st e, snd (for_each l body st) = Raise e -> P e.
Proof.
  intros Hbody. induction l as [|x rest IH]; intros st e H; simpl in H;
    [discriminate|].
  unfold st_bind in H. specialize (Hbody x st).
  destruct (body x st) as [st1 [[]|e0]]; simpl in *.
  - eapply IH. exact H.
  - apply Hbody. exact H.
Qed.

Lemma headers_dict_of_raises (hl : json) (e : exn) :
  Test2.headers_dict_of hl = Raise e -> e = AttributeError \/ e = TypeError.
Proof.
  destruct hl as [| | | | |hs|]; simpl; try (intros [= <-]; auto).
  generalize (@nil (string * json)).
  induction hs as [|h rest IH]; intros acc H; simpl in H; [discriminate|].
  unfold mbind, outcome_bind in H.
  destruct (py_get h "name" (JStr EmptyString)) as [nm|e0] eqn:Hn;
    [|apply py_get_raises in Hn; subst; injection H as <-; auto].
  destruct (Test2.py_lower nm) as [key|e0] eqn:Hk.
  - destruct (py_get h "value" JNull) as [v|e0] eqn:Hv;
      [|apply py_get_raises in Hv; subst; injection H as <-; auto].
    eapply IH. exact H.
  - destruct nm; simpl in Hk; try discriminate;
      injection Hk as <-; injection H as <-; auto.
Qed.

Lemma eta_entry_raises (id : string) (entry : json) (st : agg_state) (e : exn) :
  snd (Test2.eta_entry id entry st) = Raise e ->
  e = AttributeError \/ e = TypeError.
Proof.
  unfold Test2.eta_entry, py_max2, py_gt. st_unfold.
  destruct (py_get entry _ _) as [eta|e0] eqn:Hg; simpl.
  - destruct (num_of eta); simpl; [|intros [= <-]; auto].
    destruct (num_of _); simpl; [discriminate | intros [= <-]; auto].
  - apply py_get_raises in Hg. subst. intros [= <-]. auto.
Qed.

Lemma buc_block_raises (loads : string -> decoded) (hd : pydict)
    (st : agg_state) (e : exn) :
  snd (Test2.buc_block loads hd st) = Raise e ->
  e = AttributeError \/ decoder_escape e.
Proof.
  unfold Test2.buc_block. st_unfold.
  destruct (py_json_loads loads _) as [buc|e0] eqn:El; simpl.
  - destruct buc as [| | | | | |items]; simpl; try (intros [= <-]; auto).
    match goal with
    | |- context [for_each items ?f st] =>
        assert (Hloop : forall e1, snd (for_each items f st) = Raise e1 ->
                                   e1 = AttributeError \/ e1 = TypeError)
    end.
    { apply (for_each_raises (fun e => e = AttributeError \/ e = TypeError)).
      intros [id entries] st0 e0.
      destruct entries; try discriminate.
      apply (for_each_raises (fun e => e = AttributeError \/ e = TypeError)).
      intros entry st1 e1. apply eta_entry_raises. }
    destruct (for_each items _ st) as [st1 [[]|e1]]; simpl in *; [discriminate|].
    destruct (Hloop e1 eq_refl) as [-> | ->]; [intros [= <-]; auto | discriminate].
  - apply py_json_loads_raises in El as [El|El].
    + apply is_skipped_cases in El as [-> | ->]; discriminate.
    + destruct El as [-> | ->]; intros [= <-]; unfold decoder_escape; auto.
Qed.

Lemma summarize_result_raises (loads : string -> decoded) (r : pydict)
    (st : agg_state) (e : exn) :
  snd (Test2.summarize_result loads r st) = Raise e ->
  e = AttributeError \/ e = TypeError \/ e = OverflowError \/ decoder_escape e.
Proof.
  unfold Test2.summarize_result.
  destruct (negb _); [discriminate|]. st_unfold.
  destruct (Test2.headers_dict_of _) as [hd|e0] eqn:Hh; simpl;
    [|intros [= <-]; apply headers_dict_of_raises in Hh as [-> | ->]; auto].
  rewrite throttle_block_eq.
  assert (Hb : forall st1,
             snd (Test2.buc_block loads hd st1) = Raise e ->
             e = AttributeError \/ e = TypeError \/ e = OverflowError \/
             decoder_escape e).
  { intros st1 H. apply buc_block_raises in H as [-> |H]; auto. }
  destruct (py_json_loads loads _) as [v|e0] eqn:El.
  - destruct v as [| | | | | |t]; try (intros [= <-]; auto).
    destruct (throttle_overflows _ t); [intros [= <-]; auto|]. apply Hb.
  - apply py_json_loads_raises in El as [El|El].
    + apply is_skipped_cases in El as [-> | ->]; apply Hb.
    + destruct El as [-> | ->]; intros [= <-]; unfold decoder_escape; auto 6.
Qed.

(** What the aggregator raises: [AttributeError] on a value that has no
    [get], [lower] or [items]; [TypeError] on headers that are not iterable;
    [OverflowError] from [float]; and what the decoder raises that is not
    caught. *)
Lemma summarize_raises (loads : string -> decoded) (results : list pydict)
    (e : exn) :
  Test2._summarize_rate_limits_from_batch loads results = Raise e ->
  e = AttributeError \/ e = TypeError \/ e = OverflowError \/ decoder_escape e.
Proof.
  unfold Test2._summarize_rate_limits_from_batch. intros H.
  apply (for_each_raises
           (fun e => e = AttributeError \/ e = TypeError \/ e = OverflowError \/
                     decoder_escape e) results
           (Test2.summarize_result loads)
           (summarize_result_raises loads) init_state).
  destruct (for_each results _ init_state) as [st [[]|e0]]; simpl;
    [discriminate | congruence].
Qed.

(** * [_log_batch_summary] *)

Ltac stm_unfold :=
  unfold mbind, mret, Test2.Stm_bind, Test2.Stm_ret, stm_bind, stm_ret, stm_lift,
    stm_gets, stm_modify, stm_try_pass in *.

Lemma stm_for_each_raises {S A} (P : exn -> Prop) (l : list A)
    (body : A -> Stm S unit) :
  (forall x st e, snd (body x st) = Raise e -> P e) ->
  forall st e, snd (stm_for_each l body st) = Raise e -> P e.
Proof.
  intros Hbody. induction l as [|x rest IH]; intros st e H; simpl in H;
    [discriminate|].
  unfold stm_bind in H. specialize (Hbody x st).
  destruct (body x st) as [st1 [[]|e0]]; simpl in *.
  - eapply IH. exact H.
  - apply Hbody. exact H.
Qed.

Lemma stm_for_each_invariant {S A} (P : S -> Prop) (l : list A)
    (body : A -> Stm S unit) :
  (forall x st, P st -> P (fst (body x st))) ->
  forall st, P st -> P (fst (stm_for_each l body st)).
Proof.
  intros Hbody. induction l as [|x rest IH]; intros st Hst; simpl; [exact Hst|].
  unfold stm_bind. specialize (Hbody x st Hst).
  destruct (body x st) as [st1 [[]|e]]; simpl in *; [apply IH|]; exact Hbody.
Qed.

(** A loop whose body returns at every element, taking the invariant of the
    elements before it to that of the elements up to it, returns and
    establishes the invariant of the whole list. *)
Lemma stm_for_each_prefix {S A} (I : list A -> S -> Prop) (l : list A)
    (body : A -> Stm S unit) :
  (forall pre x post st,
      l = (pre ++ x :: post)%list -> I pre st ->
      exists st', body x st = (st', Ok tt) /\ I (pre ++ [x])%list st') ->
  forall st, I [] st ->
  exists st', stm_for_each l body st = (st', Ok tt) /\ I l st'.
Proof.
  intros Hbody.
  assert (H : forall rest pre st,
             l = (pre ++ rest)%list -> I pre st ->
             exists st', stm_for_each rest body st = (st', Ok tt) /\ I l st').
  { induction rest as [|x rest IH]; intros pre st Hl Hpre; simpl.
    - rewrite app_nil_r in Hl. subst pre. eauto.
    - destruct (Hbody pre x rest st Hl Hpre) as (st1 & Hx & H1).
      unfold stm_bind. rewrite Hx.
      apply (IH (pre ++ [x])%list); [|exact H1].
      rewrite <- app_assoc. exact Hl. }
  intros st Hst. apply (H l [] st); [reflexivity | exact Hst].
Qed.

Lemma log_throttle_eq (loads : string -> decoded) (hd : pydict)
    (st : log_state) :
  Test2.log_throttle loads hd st
  = match py_json_loads loads
            (dict_get_default "x-fb-ads-insights-throttle" hd (JStr "{}")) with
    | Ok (JDict t) =>
        if overflows_at "app_id_util_pct" t then (st, Raise OverflowError)
        else (match number_at "app_id_util_pct" t with
              | Some q => Test2.log_append_app_usage q st
              | None => st
              end, Ok tt)
    | Ok _ => (st, Raise AttributeError)
    | Raise JSONDecodeError | Raise TypeError => (st, Ok tt)
    | Raise e => (st, Raise e)
    end.
Proof.
  unfold Test2.log_throttle. stm_unfold.
  destruct (py_json_loads loads _) as [[| | | | | |t]|[]]; try reflexivity.
  unfold number_at, overflows_at. cbn [py_get].
  generalize (dict_get_default "app_id_util_pct" t JNull) as v1. intros v1.
  destruct (is_number v1) eqn:H1; [|reflexivity].
  destruct (py_float v1) as [f1|e1] eqn:P1;
    [|rewrite (py_float_raises _ _ H1 P1)]; reflexivity.
Qed.

Lemma cost_entry_front (id : string) (entry : json) (st : log_state) :
  log_front (fst (Test2.cost_entry id entry st)) = log_front st.
Proof.
  unfold Test2.cost_entry. stm_unfold.
  repeat match goal with
         | |- context [match ?o with Ok _ => _ | Raise _ => _ end] =>
             destruct o; simpl
         end; reflexivity.
Qed.

Lemma log_usage_front (loads : string -> decoded) (hd : pydict)
    (st : log_state) :
  log_front (fst (Test2.log_usage loads hd st)) = log_front st.
Proof.
  unfold Test2.log_usage. stm_unfold.
  destruct (py_json_loads loads _) as [buc|e]; simpl; [|destruct e; reflexivity].
  destruct (Test2.py_items buc) as [items|e]; simpl; [|destruct e; reflexivity].
  match goal with
  | |- context [stm_for_each items ?f st] =>
      assert (Hs : log_front (fst (stm_for_each items f st)) = log_front st)
  end.
  { apply (stm_for_each_invariant (fun st' => log_front st' = log_front st));
      [|reflexivity].
    intros [id entries] st0 H0. unfold Test2.cost_account. stm_unfold. simpl.
    assert (Hi : log_front (Test2.init_cost id st0) = log_front st).
    { unfold Test2.init_cost. destruct (account_costs st0 !! id); exact H0. }
    destruct (py_iter entries) as [es|e]; simpl; [|exact Hi].
    apply (stm_for_each_invariant (fun st' => log_front st' = log_front st));
      [|exact Hi].
    intros entry st1 H1. rewrite cost_entry_front. exact H1. }
  destruct (stm_for_each items _ st) as [st1 [[]|[]]]; exact Hs.
Qed.

(** One turn of the loop of [_log_batch_summary] that does not raise. *)
Lemma log_result_Ok (loads : string -> decoded) (r : pydict)
    (st st' : log_state) :
  Test2.log_result loads r st = (st', Ok tt) ->
  successful_calls st' = (successful_calls st + (if is_200 r then 1 else 0))%nat /\
  failed_calls st' = (failed_calls st + (if is_200 r then 0 else 1))%nat /\
  log_app_usage_values st'
  = (log_app_usage_values st ++ observed_app_usage loads r)%list.
Proof.
  unfold Test2.log_result. stm_unfold. fold (is_200 r).
  set (st0 := Test2.count_call (is_200 r) st).
  assert (H0 : successful_calls st0
               = (successful_calls st + (if is_200 r then 1 else 0))%nat /\
               failed_calls st0 = (failed_calls st + (if is_200 r then 0 else 1))%nat /\
               log_app_usage_values st0 = log_app_usage_values st).
  { unfold st0, Test2.count_call. destruct (is_200 r); simpl; repeat split; lia. }
  destruct H0 as (Hs & Hf & Ha).
  destruct (truthy (dict_get_default "headers" r (JList []))) eqn:Et; cbn [negb].
  - destruct (Test2.headers_dict_of _) as [hd|e] eqn:Ehd; [|discriminate].
    destruct (headers_dict_of_Ok _ _ Et Ehd) as (h & hs & Ehl & Hhd).
    rewrite log_throttle_eq, (headers_dict_text _ _ _ Hhd).
    intros H.
    assert (Hstep : forall st1,
      Test2.log_usage loads hd st1 = (st', Ok tt) -> log_front st' = log_front st1).
    { intros st1 Hb. pose proof (log_usage_front loads hd st1) as Hfr.
      rewrite Hb in Hfr. exact Hfr. }
    destruct (py_json_loads loads _) as [v|e] eqn:El.
    + destruct v as [| | | | | |t]; try discriminate.
      destruct (overflows_at "app_id_util_pct" t); [discriminate|].
      apply Hstep in H. unfold log_front in H.
      assert (Ht : throttle_of loads r = Some t)
        by (unfold throttle_of; rewrite Ehl, El; reflexivity).
      unfold observed_app_usage. rewrite Ht. simpl.
      destruct (number_at "app_id_util_pct" t); simpl in H;
        injection H as -> -> ->; simpl; rewrite ?app_nil_r; auto.
    + assert (Ht : throttle_of loads r = None)
        by (unfold throttle_of; rewrite Ehl, El; reflexivity).
      unfold observed_app_usage. rewrite Ht. simpl. rewrite app_nil_r.
      destruct e; try discriminate; apply Hstep in H; unfold log_front in H;
        injection H as -> -> ->; auto.
  - intros H. injection H as <-.
    unfold observed_app_usage. rewrite (throttle_of_falsy _ _ Et).
    simpl. rewrite app_nil_r. auto.
Qed.

Lemma log_loop_Ok (loads : string -> decoded) (results : list pydict) :
  forall st st' : log_state,
    stm_for_each results (Test2.log_result loads) st = (st', Ok tt) ->
    successful_calls st' = (successful_calls st + length (filter is_200 results))%nat /\
    failed_calls st'
    = (failed_calls st + length (filter (fun r => negb (is_200 r)) results))%nat /\
    log_app_usage_values st'
    = (log_app_usage_values st ++ flat_map (observed_app_usage loads) results)%list.
Proof.
  induction results as [|r rest IH]; intros st st' H; simpl in H.
  - injection H as <-. simpl. rewrite app_nil_r. repeat split; lia.
  - unfold stm_bind in H.
    destruct (Test2.log_result loads r st) as [st1 [[]|e]] eqn:Hr; [|discriminate].
    destruct (log_result_Ok _ _ _ _ Hr) as (Hs1 & Hf1 & Ha1).
    destruct (IH _ _ H) as (Hs & Hf & Ha).
    rewrite Hs, Hf, Ha, Hs1, Hf1, Ha1. rewrite !filter_cons.
    destruct (is_200 r); simpl; rewrite <- app_assoc; repeat split; lia.
Qed.

Lemma log_Ok (loads : string -> decoded) (results : list pydict)
    (b : batch_summary) :
  Test2._log_batch_summary loads results = Ok (Some b) ->
  results <> [] /\
  exists st,
    stm_for_each results (Test2.log_result loads) init_log_state = (st, Ok tt) /\
    b = {| total_requests := length results;
           successful := successful_calls st;
           failed := failed_calls st;
           max_app_usage := py_max_floats (log_app_usage_values st);
           costs := account_costs st |}.
Proof.
  unfold Test2._log_batch_summary. destruct results as [|r rest]; [discriminate|].
  destruct (stm_for_each (r :: rest) _ init_log_state) as [st [[]|e]];
    [|discriminate].
  destruct (rows_printable _); [|discriminate].
  intros H. injection H as <-. split; [discriminate|]. eauto.
Qed.


(** X7. The maximum application usage that [_log_batch_summary] prints is the
    one that [_summarize_rate_limits_from_batch] returns for the same
    results. *)
Theorem log_and_summary_agree
    (loads : string -> decoded) (results : list pydict)
    (b : batch_summary) (s : RateLimitSummary) :
  Test2._log_batch_summary loads results = Ok (Some b) ->
  Test2._summarize_rate_limits_from_batch loads results = Ok s ->
  max_app_usage b = insights_app_usage s.
Proof.
  intros Hb Hs. apply log_Ok in Hb as (_ & st & Hloop & ->).
  apply summarize_Ok in Hs as (st2 & Hloop2 & ->). simpl.
  apply log_loop_Ok in Hloop as (_ & _ & Ha).
  apply summarize_loop_Ok in Hloop2 as [Ha2 _].
  rewrite Ha, Ha2. reflexivity.
Qed.

(** ** The maximum eta of an account *)

Lemma is_max_eta_ext (R R' : json -> Prop) (m : json) :
  (forall v, R v <-> R' v) -> is_max_eta R m -> is_max_eta R' m.
Proof.
  intros Hext [(x & Hx & H0 & Hle) Hin]. split.
  - exists x. split; [exact Hx|]. split; [exact H0|].
    intros v y Hv. apply Hle, Hext, Hv.
  - destruct Hin as [->|Hin]; [left; reflexivity | right; apply Hext, Hin].
Qed.

Lemma cost_ok_ext (R R' : json -> Prop) (c : cost) :
  (forall v, R v <-> R' v) -> cost_ok R c -> cost_ok R' c.
Proof.
  intros Hext (H1 & H2 & Hm).
  split; [exact H1|]. split; [exact H2|]. eapply is_max_eta_ext; eassumption.
Qed.

Lemma costs_ok_ext (R R' : string -> json -> Prop) (st st' : log_state) :
  (forall acc v, R acc v <-> R' acc v) ->
  account_costs st' = account_costs st ->
  costs_ok R st -> costs_ok R' st'.
Proof.
  intros Hext Heq H acc. rewrite Heq. specialize (H acc).
  destruct (account_costs st !! acc) as [c|].
  - eapply cost_ok_ext; [apply Hext | exact H].
  - intros v Hv. apply (H v), Hext, Hv.
Qed.

Lemma is_int_int_of (v : json) : is_int v = true <-> exists z, int_of v = Some z.
Proof.
  destruct v; simpl; split; try discriminate; eauto; intros [? ?]; discriminate.
Qed.

(** The sum of two [int]s is their sum, an [int]. *)
Lemma py_add_ints (cur x : json) :
  is_int cur = true -> is_int x = true ->
  exists a b, int_of cur = Some a /\ int_of x = Some b /\
              py_add cur x = Ok (JInt (a + b)).
Proof.
  intros Hc Hx.
  apply is_int_int_of in Hc as [a Ha]. apply is_int_int_of in Hx as [b Hb].
  exists a, b. unfold py_add. rewrite Ha, Hb. auto.
Qed.

Lemma x_gt_irrefl (a : xnum) : x_gt a a = false.
Proof.
  destruct a; simpl; try reflexivity.
  apply negb_false_iff, Qle_bool_iff, Qle_refl.
Qed.

Lemma x_gt_le_false (a b c : xnum) :
  x_gt a b = false -> x_le b c = true -> x_gt a c = false.
Proof.
  destruct a, b, c; simpl; try discriminate; try reflexivity.
  intros Hab Hbc.
  apply negb_false_iff in Hab. apply negb_true_iff, negb_false_iff in Hbc.
  apply negb_false_iff. apply Qle_bool_iff in Hab, Hbc. apply Qle_bool_iff.
  eapply Qle_trans; eassumption.
Qed.

(** [max(cur, item)] of the maximum so far and of a number is the maximum
    once [item] is counted. *)
Lemma py_max2_is_max (R : json -> Prop) (cur item : json) :
  is_max_eta R cur -> is_number item = true ->
  exists m, py_max2 cur item = Ok m /\ is_max_eta (fun v => R v \/ v = item) m.
Proof.
  intros [(x & Hx & H0 & Hle) Hin] Hi.
  apply is_number_num_of in Hi as [y Hy].
  unfold py_max2, py_gt. rewrite Hy, Hx.
  destruct (x_gt y x) eqn:E.
  - exists item. split; [reflexivity|]. split; [|right; right; reflexivity].
    pose proof (x_gt_le _ _ E) as Hxy.
    exists y. split; [exact Hy|]. split; [eapply x_le_trans; eassumption|].
    intros v y' [Hv|Hv] Hy'.
    + eapply x_gt_le_false; [eapply Hle; eassumption | exact Hxy].
    + subst v. rewrite Hy in Hy'. injection Hy' as <-. apply x_gt_irrefl.
  - exists cur. split; [reflexivity|]. split; [|destruct Hin; auto].
    exists x. split; [exact Hx|]. split; [exact H0|].
    intros v y' [Hv|Hv] Hy'; [eapply Hle; eassumption|].
    subst v. rewrite Hy in Hy'. injection Hy' as <-. exact E.
Qed.

Lemma cost_entry_ok (R : string -> json -> Prop) (id : string) (d : pydict)
    (st : log_state) :
  costs_ok R st ->
  is_Some (account_costs st !! id) ->
  wf_cost_entry (JDict d) = true ->
  exists st',
    Test2.cost_entry id (JDict d) st = (st', Ok tt) /\
    costs_ok (fun acc v => R acc v \/ (acc = id /\ v = eta_of d)) st' /\
    is_Some (account_costs st' !! id).
Proof.
  intros Hok [c Hc] Hwf. cbn [wf_cost_entry] in Hwf.
  apply andb_true_iff in Hwf as [Hwf H3]. apply andb_true_iff in Hwf as [H1 H2].
  pose proof (Hok id) as Hid. rewrite Hc in Hid.
  destruct Hid as (Hn1 & Hn2 & Hmax).
  destruct (py_add_ints _ _ Hn1 H1) as (a1 & b1 & _ & _ & Hs1).
  destruct (py_add_ints _ _ Hn2 H2) as (a2 & b2 & _ & _ & Hs2).
  destruct (py_max2_is_max _ _ _ Hmax H3) as (m & Hm & Hmm).
  unfold eta_of in Hm.
  eexists.
  assert (Hcost : Test2.cost_of id st = c)
    by (unfold Test2.cost_of; rewrite Hc; reflexivity).
  assert (Hset : forall c' st0, Test2.cost_of id (Test2.set_cost id c' st0) = c').
  { intros c' st0. unfold Test2.cost_of, Test2.set_cost. simpl.
    rewrite lookup_insert_eq. reflexivity. }
  unfold Test2.cost_entry. stm_unfold. cbn [py_get].
  rewrite ?Hset, ?Hcost. cbn [total_cputime total_time max_eta]. rewrite Hs1.
  cbv beta iota.
  rewrite ?Hset, ?Hcost. cbn [total_cputime total_time max_eta]. rewrite Hs2.
  cbv beta iota.
  rewrite ?Hset, ?Hcost. cbn [total_cputime total_time max_eta]. rewrite Hm.
  cbv beta iota.
  split; [reflexivity|]. split.
  - intros acc. simpl.
    destruct (String.eqb_spec id acc) as [<-|Hne].
    + rewrite lookup_insert_eq. split; [reflexivity|]. split; [reflexivity|].
      eapply is_max_eta_ext; [|exact Hmm].
      intros v. simpl. unfold eta_of. split.
      * intros [Hv|Hv]; auto.
      * intros [Hv|[_ Hv]]; auto.
    + rewrite !lookup_insert_ne by exact Hne.
      pose proof (Hok acc) as Hacc.
      destruct (account_costs st !! acc) as [c'|].
      * eapply cost_ok_ext; [|exact Hacc].
        intros v. split; [auto|]. intros [Hv|[-> _]]; [exact Hv | contradiction].
      * intros v [Hv|[-> _]]; [apply (Hacc v Hv) | contradiction].
  - simpl. rewrite lookup_insert_eq. eauto.
Qed.

Lemma reported_in_entries_snoc (pre : list json) (d : pydict) (v : json) :
  reported_in_entries (pre ++ [JDict d]) v
  <-> reported_in_entries pre v \/ v = eta_of d.
Proof.
  unfold reported_in_entries. split.
  - intros (d' & Hin & Hd'). apply in_app_iff in Hin as [Hin|[Heq|[]]].
    + left. eauto.
    + right. injection Heq as Heq. congruence.
  - intros [(d' & Hin & Hd')|Hv].
    + exists d'. split; [apply in_app_iff; auto | exact Hd'].
    + exists d. split; [apply in_app_iff; right; left; reflexivity | auto].
Qed.

Lemma cost_entries_ok (R : string -> json -> Prop) (id : string) (es : list json)
    (st : log_state) :
  costs_ok R st ->
  is_Some (account_costs st !! id) ->
  forallb wf_cost_entry es = true ->
  exists st',
    stm_for_each es (Test2.cost_entry id) st = (st', Ok tt) /\
    costs_ok (fun acc v => R acc v \/ (acc = id /\ reported_in_entries es v)) st'.
Proof.
  intros Hok Hid Hwf.
  destruct (stm_for_each_prefix
    (fun pre st' =>
       costs_ok (fun acc v => R acc v \/ (acc = id /\ reported_in_entries pre v)) st' /\
       is_Some (account_costs st' !! id))
    es (Test2.cost_entry id)) with (st := st) as (st' & Hloop & Hfin & _).
  - intros pre e post st0 Hes [Hok0 Hid0].
    assert (He : wf_cost_entry e = true).
    { rewrite forallb_forall in Hwf. apply Hwf. rewrite Hes.
      apply in_app_iff. right. left. reflexivity. }
    destruct e as [| | | | | |d]; try discriminate.
    destruct (cost_entry_ok _ id d st0 Hok0 Hid0 He) as (st1 & Hrun & Hok1 & Hid1).
    exists st1. split; [exact Hrun|]. split; [|exact Hid1].
    eapply costs_ok_ext; [|reflexivity|exact Hok1].
    intros acc v. rewrite (reported_in_entries_snoc pre d v). tauto.
  - split; [|exact Hid].
    eapply costs_ok_ext; [|reflexivity|exact Hok].
    intros acc v. split; [auto|]. intros [Hv|[_ (d & [] & _)]]. exact Hv.
  - eauto.
Qed.

Lemma cost_account_ok (R : string -> json -> Prop) (id : string) (es : list json)
    (st : log_state) :
  costs_ok R st ->
  forallb wf_cost_entry es = true ->
  exists st',
    Test2.cost_account id (JList es) st = (st', Ok tt) /\
    costs_ok (fun acc v => R acc v \/ (acc = id /\ reported_in_entries es v)) st'.
Proof.
  intros Hok Hwf. unfold Test2.cost_account. stm_unfold. simpl.
  apply cost_entries_ok; [| |exact Hwf].
  - intros acc. unfold Test2.init_cost.
    destruct (account_costs st !! id) as [c|] eqn:Hc; [apply Hok|].
    simpl. destruct (String.eqb_spec id acc) as [<-|Hne].
    + rewrite lookup_insert_eq. pose proof (Hok id) as Hid. rewrite Hc in Hid.
      split; [reflexivity|]. split; [reflexivity|]. split; [|left; reflexivity].
      exists (XFin (inject_Z 0)). split; [reflexivity|]. split; [reflexivity|].
      intros v y Hv. destruct (Hid v Hv).
    + rewrite lookup_insert_ne by exact Hne. apply Hok.
  - unfold Test2.init_cost.
    destruct (account_costs st !! id) as [c|] eqn:Hc; [rewrite Hc; eauto|].
    simpl. rewrite lookup_insert_eq. eauto.
Qed.

Lemma reported_in_items_snoc (pre : pydict) (id : string) (es : list json)
    (acc : string) (v : json) :
  reported_in_items (pre ++ [(id, JList es)]) acc v
  <-> reported_in_items pre acc v \/ (acc = id /\ reported_in_entries es v).
Proof.
  unfold reported_in_items. split.
  - intros (es' & Hin & Hr). apply in_app_iff in Hin as [Hin|[Heq|[]]].
    + left. eauto.
    + right. injection Heq as <- <-. auto.
  - intros [(es' & Hin & Hr)|[-> Hr]].
    + exists es'. split; [apply in_app_iff; auto | exact Hr].
    + exists es. split; [apply in_app_iff; right; left; reflexivity | exact Hr].
Qed.

Lemma cost_items_ok (R : string -> json -> Prop) (items : pydict) (st : log_state) :
  costs_ok R st ->
  wf_cost_items items = true ->
  exists st',
    stm_for_each items (fun kv => Test2.cost_account (fst kv) (snd kv)) st
    = (st', Ok tt) /\
    costs_ok (fun acc v => R acc v \/ reported_in_items items acc v) st'.
Proof.
  intros Hok Hwf.
  apply (stm_for_each_prefix
    (fun pre st' => costs_ok (fun acc v => R acc v \/ reported_in_items pre acc v) st')).
  - intros pre [id entries] post st0 Hitems Hok0. simpl.
    assert (He : match entries with
                 | JList es => forallb wf_cost_entry es
                 | _ => false
                 end = true).
    { unfold wf_cost_items in Hwf. rewrite forallb_forall in Hwf.
      apply (Hwf (id, entries)). rewrite Hitems.
      apply in_app_iff. right. left. reflexivity. }
    destruct entries as [| | | | |es|]; try discriminate.
    destruct (cost_account_ok _ id es st0 Hok0 He) as (st1 & Hrun & Hok1).
    exists st1. split; [exact Hrun|].
    eapply costs_ok_ext; [|reflexivity|exact Hok1].
    intros acc v. rewrite reported_in_items_snoc. tauto.
  - eapply costs_ok_ext; [|reflexivity|exact Hok].
    intros acc v. split; [auto|]. intros [Hv|(es & [] & _)]. exact Hv.
Qed.

Lemma eta_reported_snoc (loads : string -> decoded) (pre : list pydict)
    (r : pydict) (acc : string) (v : json) :
  eta_reported loads (pre ++ [r]) acc v
  <-> eta_reported loads pre acc v \/
      exists items, usage_of loads r = Some items /\ reported_in_items items acc v.
Proof.
  unfold eta_reported. split.
  - intros (r' & items & Hin & Hu & Hr). apply in_app_iff in Hin as [Hin|[<-|[]]].
    + left. eauto.
    + right. eauto.
  - intros [(r' & items & Hin & Hu & Hr)|(items & Hu & Hr)].
    + exists r', items. split; [apply in_app_iff; auto | auto].
    + exists r, items. split; [apply in_app_iff; right; left; reflexivity | auto].
Qed.

Lemma log_usage_costs (loads : string -> decoded) (R : string -> json -> Prop)
    (hd : pydict) (st : log_state) :
  costs_ok R st ->
  match py_json_loads loads
          (dict_get_default "x-business-use-case-usage" hd (JStr "{}")) with
  | Ok (JDict items) => wf_cost_items items
  | Ok _ => false
  | Raise e => is_skipped e
  end = true ->
  exists st',
    Test2.log_usage loads hd st = (st', Ok tt) /\
    costs_ok (fun acc v =>
                R acc v \/
                exists items,
                  py_json_loads loads
                    (dict_get_default "x-business-use-case-usage" hd (JStr "{}"))
                  = Ok (JDict items) /\ reported_in_items items acc v) st'.
Proof.
  intros Hok Hwf. unfold Test2.log_usage. stm_unfold.
  destruct (py_json_loads loads _) as [v|e] eqn:El.
  - destruct v as [| | | | | |items]; try discriminate. simpl.
    destruct (cost_items_ok R items st Hok Hwf) as (st' & Hrun & Hok').
    rewrite Hrun. exists st'. split; [reflexivity|].
    eapply costs_ok_ext; [|reflexivity|exact Hok'].
    intros acc v. split.
    + intros [Hv|Hv]; [auto|]. right. eauto.
    + intros [Hv|(items' & [= <-] & Hv)]; auto.
  - exists st. split.
    + apply is_skipped_cases in Hwf as [-> | ->]; reflexivity.
    + eapply costs_ok_ext; [|reflexivity|exact Hok].
      intros acc v. split; [auto|]. intros [Hv|(items & Hi & _)];
        [exact Hv | discriminate].
Qed.

Lemma log_result_costs (loads : string -> decoded) (R : string -> json -> Prop)
    (r : pydict) (st : log_state) :
  costs_ok R st ->
  wf_log_result loads r = true ->
  exists st',
    Test2.log_result loads r st = (st', Ok tt) /\
    costs_ok (fun acc v =>
                R acc v \/
                exists items,
                  usage_of loads r = Some items /\ reported_in_items items acc v) st'.
Proof.
  intros Hok Hwf. unfold Test2.log_result. stm_unfold. fold (is_200 r).
  set (st0 := Test2.count_call (is_200 r) st).
  assert (Hok0 : costs_ok R st0)
    by (eapply costs_ok_ext; [reflexivity|reflexivity|exact Hok]).
  assert (Hskip : usage_of loads r = None ->
                  exists st', (st0, @Ok unit tt) = (st', Ok tt) /\
                    costs_ok (fun acc v =>
                      R acc v \/
                      exists items, usage_of loads r = Some items /\
                                    reported_in_items items acc v) st').
  { intros Hu. exists st0. split; [reflexivity|].
    eapply costs_ok_ext; [|reflexivity|exact Hok0].
    intros acc v. split; [auto|]. intros [Hv|(items & Hi & _)];
      [exact Hv | congruence]. }
  unfold wf_log_result in Hwf. unfold usage_of in *.
  destruct (dict_get_default "headers" r (JList [])) as [| | | | |hs|] eqn:Eh;
    try (rewrite Hwf; apply Hskip; reflexivity).
  destruct hs as [|h hs']; [apply Hskip; reflexivity|].
  apply andb_true_iff in Hwf as [Hwf Hu]. apply andb_true_iff in Hwf as [Hh Ht].
  cbn [truthy negb Test2.headers_dict_of].
  destruct (headers_of_list_returns _ Hh []) as [hd Hhd]. rewrite Hhd.
  rewrite log_throttle_eq.
  rewrite (headers_dict_text "x-fb-ads-insights-throttle" _ _ Hhd).
  rewrite <- (headers_dict_text "x-business-use-case-usage" _ _ Hhd) in Hu |- *.
  assert (Hgo : forall st1,
    account_costs st1 = account_costs st0 ->
    exists st',
      Test2.log_usage loads hd st1 = (st', Ok tt) /\
      costs_ok (fun acc v =>
        R acc v \/
        exists items,
          match py_json_loads loads
                  (dict_get_default "x-business-use-case-usage" hd (JStr "{}")) with
          | Ok (JDict items0) => Some items0
          | _ => None
          end = Some items /\ reported_in_items items acc v) st').
  { intros st1 Hsame.
    assert (Hok1 : costs_ok R st1)
      by (eapply costs_ok_ext; [reflexivity|exact Hsame|exact Hok0]).
    destruct (log_usage_costs loads R hd st1 Hok1 Hu) as (st' & Hrun & Hok').
    exists st'. split; [exact Hrun|].
    eapply costs_ok_ext; [|reflexivity|exact Hok'].
    intros acc v. split.
    - intros [Hv|(items & Hi & Hv)]; [auto|]. right. exists items.
      rewrite Hi. auto.
    - intros [Hv|(items & Hi & Hv)]; [auto|]. right. exists items.
      destruct (py_json_loads loads _) as [[| | | | | |items0]|]; try discriminate.
      injection Hi as ->. auto. }
  unfold wf_throttle in Ht.
  destruct (py_json_loads loads (header_text "x-fb-ads-insights-throttle" (h :: hs')))
    as [v|e] eqn:El.
  - destruct v as [| | | | | |t]; try discriminate.
    apply andb_true_iff in Ht as [Ht _]. apply negb_true_iff in Ht. rewrite Ht.
    apply Hgo. destruct (number_at "app_id_util_pct" t); reflexivity.
  - apply is_skipped_cases in Ht as [-> | ->]; apply Hgo; reflexivity.
Qed.

(** The loop of [_log_batch_summary] on results as it expects them: it ends
    without an exception, and the [max_eta] it has for an account is then the
    maximum of 0 and of the etas reported for it. *)
Lemma log_loop_costs (loads : string -> decoded) (results : list pydict) :
  forallb (wf_log_result loads) results = true ->
  exists st,
    stm_for_each results (Test2.log_result loads) init_log_state = (st, Ok tt) /\
    costs_ok (eta_reported loads results) st.
Proof.
  intros Hwf.
  apply (stm_for_each_prefix
    (fun pre st => costs_ok (eta_reported loads pre) st)
    results (Test2.log_result loads)).
  - intros pre r post st0 Hres Hok0.
    assert (Hr : wf_log_result loads r = true).
    { rewrite forallb_forall in Hwf. apply Hwf. rewrite Hres.
      apply in_app_iff. right. left. reflexivity. }
    destruct (log_result_costs loads _ r st0 Hok0 Hr) as (st1 & Hrun & Hok1).
    exists st1. split; [exact Hrun|].
    eapply costs_ok_ext; [|reflexivity|exact Hok1].
    intros acc v. rewrite eta_reported_snoc. tauto.
  - intros acc. simpl. rewrite lookup_empty.
    intros v (r & items & [] & _).
Qed.

(** X8. On results as it expects them the loop of [_log_batch_summary] over
    the results ends without an exception, and whenever the summary is
    printed, the [max_eta] it prints for an account is the maximum of 0 and
    of the etas of all the entries that the usage headers of the results list
    for that account: a number that is not a NaN and not less than 0, that
    none of these etas is greater than, and that is the initial 0 or one of
    them.  The results it expects have integer costs and numeric etas in
    their usage headers, and no integer of the throttle header is out of the
    range of the floats. *)
Theorem log_max_eta_is_maximum
    (loads : string -> decoded) (results : list pydict) :
  forallb (wf_log_result loads) results = true ->
  (exists st,
      stm_for_each results (Test2.log_result loads) init_log_state = (st, Ok tt)) /\
  forall b,
    Test2._log_batch_summary loads results = Ok (Some b) ->
    forall acc c,
      costs b !! acc = Some c ->
      (exists x, num_of (max_eta c) = Some x /\
                 x_le (XFin 0) x = true /\
                 forall v y, eta_reported loads results acc v ->
                             num_of v = Some y -> x_gt y x = false) /\
      (max_eta c = JInt 0 \/ eta_reported loads results acc (max_eta c)).
Proof.
  intros Hwf.
  destruct (log_loop_costs loads results Hwf) as (st & Hloop & Hok).
  split; [eauto|].
  intros b Hb acc c Hc.
  apply log_Ok in Hb as (_ & st' & Hloop' & ->).
  rewrite Hloop in Hloop'. injection Hloop' as <-.
  simpl in Hc. specialize (Hok acc). rewrite Hc in Hok.
  destruct Hok as (_ & _ & Hmax). exact Hmax.
Qed.

Lemma log_max_eta_is_maximum_witness :
  exists b,
    Test2._log_batch_summary json_loads logged_results = Ok (Some b) /\
    (max_eta <$> costs b !! "123") = Some (JInt 120) /\
    forall acc c,
      costs b !! acc = Some c ->
      (exists x, num_of (max_eta c) = Some x /\
                 x_le (XFin 0) x = true /\
                 forall v y, eta_reported json_loads logged_results acc v ->
                             num_of v = Some y -> x_gt y x = false) /\
      (max_eta c = JInt 0 \/ eta_reported json_loads logged_results acc (max_eta c)).
Proof.
  assert (Hwf : forallb (wf_log_result json_loads) logged_results = true)
    by (vm_compute; reflexivity).
  assert (Hb : Test2._log_batch_summary json_loads logged_results
               = Ok (Some {| total_requests := 2; successful := 1; failed := 1;
                             max_app_usage :=
                               Some (S754_finite false 7036874417766400 (-48));
                             costs := {["123" := {| total_cputime := JInt 0;
                                                    total_time := JInt 0;
                                                    max_eta := JInt 120 |}]} |}))
    by (vm_compute; reflexivity).
  eexists. split; [exact Hb|]. split; [vm_compute; reflexivity|].
  apply (proj2 (log_max_eta_is_maximum json_loads logged_results Hwf) _ Hb).
Defined.


Lemma log_and_summary_agree_witness :
  exists b s,
    Test2._log_batch_summary json_loads logged_results = Ok (Some b) /\
    Test2._summarize_rate_limits_from_batch json_loads logged_results = Ok s /\
    max_app_usage b = Some (S754_finite false 7036874417766400 (-48)) /\
    max_app_usage b = insights_app_usage s.
Proof.
  eexists. eexists.
  split; [vm_compute; reflexivity|]. split; [vm_compute; reflexivity|].
  split; [reflexivity|].
  apply (log_and_summary_agree json_loads logged_results
           {| total_requests := 2; successful := 1; failed := 1;
              max_app_usage := Some (S754_finite false 7036874417766400 (-48));
              costs := {["123" := {| total_cputime := JInt 0; total_time := JInt 0;
                                     max_eta := JInt 120 |}]} |}
           {| insights_app_usage := Some (S754_finite false 7036874417766400 (-48));
              insights_account_usages := {["act_123" := float_of_Z 10]};
              etas := {["act_123" := JInt 0]} |}).
  - vm_compute. reflexivity.
  - vm_compute. reflexivity.
Defined.

(** * The keys and the etas of a summary *)

Lemma act_prefix (id : string) : startswith ("act_" ++ id) "act_" = true.
Proof.
  unfold startswith. rewrite !append_String, append_empty. simpl.
  destruct id; reflexivity.
Qed.

Lemma py_max2_eta (cur item m : json) :
  eta_value cur -> py_max2 cur item = Ok m -> eta_value m.
Proof.
  unfold py_max2, py_gt, mbind, outcome_bind, mret, outcome_ret.
  intros (qc & Hc & Hpos).
  destruct (num_of item) as [qi|] eqn:Ei; [|discriminate]. rewrite Hc.
  intros H. injection H as <-.
  destruct (x_gt qi qc) eqn:Hgt.
  - exists qi. split; [exact Ei|].
    eapply x_le_trans; [exact Hpos|]. apply x_gt_le, Hgt.
  - exists qc. auto.
Qed.

Lemma eta_entry_inv (id : string) (entry : json) (st : agg_state) :
  summary_inv st -> summary_inv (fst (Test2.eta_entry id entry st)).
Proof.
  intros Hst. unfold Test2.eta_entry. st_unfold.
  destruct (py_get entry _ _) as [eta|e]; simpl; [|exact Hst].
  destruct (py_max2 _ eta) as [m|e] eqn:Em; simpl; [|exact Hst].
  destruct Hst as [Hu He]. split; [exact Hu|]. simpl.
  apply map_Forall_insert_2; [|exact He]. split; [apply act_prefix|].
  eapply py_max2_eta; [|exact Em].
  destruct (st_etas st !! id) as [v|] eqn:Ev; simpl.
  - apply (He id v Ev).
  - exists (XFin (inject_Z 0)). split; reflexivity.
Qed.

Lemma buc_block_inv (loads : string -> decoded) (hd : pydict)
    (st : agg_state) :
  summary_inv st -> summary_inv (fst (Test2.buc_block loads hd st)).
Proof.
  intros Hst. unfold Test2.buc_block. st_unfold.
  destruct (py_json_loads loads _) as [buc|e]; simpl; [|destruct e; exact Hst].
  destruct (Test2.py_items buc) as [items|e]; simpl; [|destruct e; exact Hst].
  match goal with
  | |- context [for_each items ?f st] =>
      assert (Hs : summary_inv (fst (for_each items f st)))
  end.
  { apply for_each_invariant; [|exact Hst]. intros [id entries] st0 H0.
    destruct entries; try exact H0.
    apply for_each_invariant; [|exact H0].
    intros entry st1. apply eta_entry_inv. }
  destruct (for_each items _ st) as [st1 [[]|[]]]; exact Hs.
Qed.

Lemma acc_id_from_url_act (r : pydict) (a : string) :
  Test2.acc_id_from_url r = Some a -> startswith a "act_" = true.
Proof.
  unfold Test2.acc_id_from_url.
  destruct (dict_get_default "requested_url" r _); try discriminate.
  destruct (startswith (first_segment s) "act_") eqn:E; [|discriminate].
  intros [= <-]. exact E.
Qed.

Lemma summarize_result_inv (loads : string -> decoded) (r : pydict)
    (st : agg_state) :
  summary_inv st -> summary_inv (fst (Test2.summarize_result loads r st)).
Proof.
  intros Hst. unfold Test2.summarize_result.
  destruct (negb _); [exact Hst|]. st_unfold.
  destruct (Test2.headers_dict_of _) as [hd|e]; simpl; [|exact Hst].
  rewrite throttle_block_eq.
  assert (Ht : forall t, summary_inv (throttle_update (Test2.acc_id_from_url r) t st)).
  { intros t. unfold throttle_update.
    assert (H1 : summary_inv
                   match number_at "app_id_util_pct" t with
                   | Some q => append_app_usage q st
                   | None => st
                   end)
      by (destruct (number_at "app_id_util_pct" t); exact Hst).
    destruct (Test2.acc_id_from_url r) as [a|] eqn:Ea; [|exact H1].
    destruct (number_at "acc_id_util_pct" t) as [q|]; [|exact H1].
    destruct H1 as [Hu He]. split; [|exact He]. simpl.
    apply map_Forall_insert_2; [|exact Hu].
    eapply acc_id_from_url_act. exact Ea. }
  assert (Hp : forall t, summary_inv (throttle_partial t st)).
  { intros t. unfold throttle_partial.
    destruct (overflows_at "app_id_util_pct" t); [exact Hst|].
    destruct (number_at "app_id_util_pct" t); exact Hst. }
  destruct (py_json_loads loads _) as [[| | | | | |t]|[]]; simpl;
    try exact Hst; try (apply buc_block_inv; exact Hst).
  destruct (throttle_overflows _ t); simpl; [apply Hp|].
  apply buc_block_inv. apply Ht.
Qed.

(** X9. Whatever the headers say, every account of the two mappings that
    [_summarize_rate_limits_from_batch] returns has an id that starts with
    [act_], and every eta it returns is a number that is not negative (and
    not a NaN). *)
Theorem summary_keys_and_etas
    (loads : string -> decoded) (results : list pydict)
    (s : RateLimitSummary) :
  Test2._summarize_rate_limits_from_batch loads results = Ok s ->
  (forall acc q, insights_account_usages s !! acc = Some q ->
                 startswith acc "act_" = true) /\
  (forall acc v, etas s !! acc = Some v ->
                 startswith acc "act_" = true /\
                 exists x, num_of v = Some x /\ x_le (XFin 0) x = true).
Proof.
  intros H. apply summarize_Ok in H as (st & Hloop & ->). simpl.
  pose proof (for_each_invariant summary_inv results
                (Test2.summarize_result loads)
                (fun r st0 => summarize_result_inv loads r st0) init_state) as Hinv.
  rewrite Hloop in Hinv. simpl in Hinv.
  destruct Hinv as [Hu He]; [split; apply map_Forall_empty|].
  split.
  - intros acc q Hq. apply (Hu acc q Hq).
  - intros acc v Hv. apply (He acc v Hv).
Qed.

Lemma summary_keys_and_etas_witness :
  exists s,
    Test2._summarize_rate_limits_from_batch json_loads logged_results = Ok s /\
    insights_account_usages s !! "act_123" = Some (float_of_Z 10) /\
    (forall acc q, insights_account_usages s !! acc = Some q ->
                   startswith acc "act_" = true) /\
    (forall acc v, etas s !! acc = Some v ->
                   startswith acc "act_" = true /\
                   exists x, num_of v = Some x /\ x_le (XFin 0) x = true).
Proof.
  assert (Hs : Test2._summarize_rate_limits_from_batch json_loads logged_results
               = Ok {| insights_app_usage :=
                         Some (S754_finite false 7036874417766400 (-48));
                       insights_account_usages := {["act_123" := float_of_Z 10]};
                       etas := {["act_123" := JInt 0]} |})
    by (vm_compute; reflexivity).
  eexists. split; [exact Hs|]. split; [vm_compute; reflexivity|].
  apply (summary_keys_and_etas json_loads logged_results _ Hs).
Defined.

(** * The endpoints *)

Lemma py_add_raises (cur x : json) (e : exn) :
  py_add cur x = Raise e -> e = TypeError \/ e = OverflowError.
Proof.
  unfold py_add.
  destruct (int_of cur), (int_of x); try discriminate.
  all: destruct (is_number cur && is_number x) eqn:E; [|intros [= <-]; auto].
  all: apply andb_true_iff in E as [E1 E2]; unfold mbind, outcome_bind.
  all: destruct (py_float cur) eqn:P1;
    [|intros [= <-]; right; apply (py_float_raises cur); assumption].
  all: destruct (py_float x) eqn:P2;
    [discriminate|intros [= <-]; right; apply (py_float_raises x); assumption].
Qed.

Lemma py_max2_raises (cur item : json) (e : exn) :
  py_max2 cur item = Raise e -> e = TypeError.
Proof.
  unfold py_max2, py_gt, mbind, outcome_bind, mret, outcome_ret.
  destruct (num_of item); [|congruence].
  destruct (num_of cur); [|congruence].
  discriminate.
Qed.

Lemma cost_entry_raises (id : string) (entry : json) (st : log_state) (e : exn) :
  snd (Test2.cost_entry id entry st) = Raise e ->
  e = AttributeError \/ e = TypeError \/ e = OverflowError.
Proof.
  unfold Test2.cost_entry. stm_unfold.
  repeat match goal with
         | |- context [match py_get ?v ?k ?d with Ok _ => _ | Raise _ => _ end] =>
             let H := fresh "Hg" in
             destruct (py_get v k d) eqn:H; simpl;
             [|apply py_get_raises in H; subst; intros [= <-]; auto]
         | |- context [match py_add ?a ?b with Ok _ => _ | Raise _ => _ end] =>
             let H := fresh "Ha" in
             destruct (py_add a b) eqn:H; simpl;
             [|apply py_add_raises in H; destruct H; subst; intros [= <-]; auto]
         | |- context [match py_max2 ?a ?b with Ok _ => _ | Raise _ => _ end] =>
             let H := fresh "Hm" in
             destruct (py_max2 a b) eqn:H; simpl;
             [|apply py_max2_raises in H; subst; intros [= <-]; auto]
         end.
  discriminate.
Qed.

Lemma log_usage_raises (loads : string -> decoded) (hd : pydict)
    (st : log_state) (e : exn) :
  snd (Test2.log_usage loads hd st) = Raise e ->
  e = AttributeError \/ e = OverflowError \/ decoder_escape e.
Proof.
  unfold Test2.log_usage. stm_unfold.
  destruct (py_json_loads loads _) as [buc|e0] eqn:El; simpl.
  - destruct buc as [| | | | | |items]; simpl; try (intros [= <-]; auto).
    match goal with
    | |- context [stm_for_each items ?f st] =>
        assert (Hloop : forall e1, snd (stm_for_each items f st) = Raise e1 ->
                  e1 = AttributeError \/ e1 = TypeError \/ e1 = OverflowError)
    end.
    { apply (stm_for_each_raises
               (fun e => e = AttributeError \/ e = TypeError \/ e = OverflowError)).
      intros [id entries] st0 e0. unfold Test2.cost_account. stm_unfold. simpl.
      destruct (py_iter entries) as [es|e1] eqn:Hi; simpl.
      - apply (stm_for_each_raises
                 (fun e => e = AttributeError \/ e = TypeError \/ e = OverflowError)).
        intros entry st1 e1. apply cost_entry_raises.
      - destruct entries; simpl in Hi; try discriminate;
          injection Hi as <-; intros [= <-]; auto. }
    destruct (stm_for_each items _ st) as [st1 [[]|e1]]; simpl in *; [discriminate|].
    destruct (Hloop e1 eq_refl) as [-> |[-> | ->]];
      [intros [= <-]; auto | discriminate | intros [= <-]; auto].
  - apply py_json_loads_raises in El as [Hs|[-> | ->]].
    + apply is_skipped_cases in Hs as [-> | ->]; discriminate.
    + intros [= <-]. unfold decoder_escape. auto.
    + intros [= <-]. unfold decoder_escape. auto.
Qed.

Lemma log_result_raises (loads : string -> decoded) (r : pydict)
    (st : log_state) (e : exn) :
  snd (Test2.log_result loads r st) = Raise e ->
  e = AttributeError \/ e = TypeError \/ e = OverflowError \/ decoder_escape e.
Proof.
  unfold Test2.log_result. stm_unfold.
  destruct (negb _); [discriminate|].
  destruct (Test2.headers_dict_of _) as [hd|e0] eqn:Hh.
  2: { simpl. intros [= <-]. apply headers_dict_of_raises in Hh. tauto. }
  rewrite log_throttle_eq.
  destruct (py_json_loads loads _) as [v|e0] eqn:El.
  - destruct v; try (simpl; intros [= <-]; auto).
    destruct (overflows_at _ _); [simpl; intros [= <-]; auto|].
    intros H. apply log_usage_raises in H. tauto.
  - apply py_json_loads_raises in El as [Hs|[-> | ->]].
    + apply is_skipped_cases in Hs as [-> | ->];
        intros H; apply log_usage_raises in H; tauto.
    + simpl. intros [= <-]. unfold decoder_escape. auto.
    + simpl. intros [= <-]. unfold decoder_escape. auto.
Qed.

Lemma log_raises (loads : string -> decoded) (results : list pydict) (e : exn) :
  Test2._log_batch_summary loads results = Raise e ->
  e = AttributeError \/ e = TypeError \/ e = OverflowError \/ decoder_escape e.
Proof.
  unfold Test2._log_batch_summary. destruct results as [|r rest]; [discriminate|].
  intros H.
  pose proof (stm_for_each_raises
           (fun e => e = AttributeError \/ e = TypeError \/ e = OverflowError \/
                     decoder_escape e)
           (r :: rest) (Test2.log_result loads)
           (log_result_raises loads) init_log_state) as Hloop.
  destruct (stm_for_each (r :: rest) _ init_log_state) as [st [[]|e0]].
  - destruct (rows_printable _); [discriminate|].
    injection H as <-. unfold decoder_escape. auto.
  - apply Hloop. simpl. congruence.
Qed.

(** X10. The answer of [/batch] in [main.py] tells what happened.  Status 400
    is answered for a [ValueError]: one of the checks, and then no call was
    made, or, once the call is made, that of the decoder for an integer
    literal of too many digits in the answer or in the body of one of its
    elements.  Otherwise the call was made, and the handler returns the
    results of [send_batch_to_facebook] under [status: success], or answers
    502 for a [RuntimeError] (a [RecursionError] of the decoder is one) and
    500 for an [AttributeError] or a [TypeError].  This holds of the handler
    of [POST] and of that of [GET]. *)
Theorem main_batch_answer
    (loads : string -> decoded) (net : Network) (payload : BatchRequest) :
  let call := Main.make_call API_VERSION (access_token payload)
                (map lstrip_slash (relative_urls payload)) 120 in
  let answers_as_said (r : list Call * answer pydict) : Prop :=
  match snd r with
  | Returned body =>
      fst r = [call] /\
      exists results,
        Main.send_batch_to_facebook loads net (relative_urls payload)
          (access_token payload) API_VERSION 120 = ([call], Ok results) /\
        body = [("status", JStr "success"); ("results", JList (map JDict results))]
  | Raised h =>
      (status_code h = 400 /\
       ((fst r = [] /\
         exists ve, ve <> IntegerStringTooLong /\
                    detail_of h = FromException EmptyString (ValueError ve)) \/
        (fst r = [call] /\
         detail_of h = FromException EmptyString (ValueError IntegerStringTooLong)))) \/
      (status_code h = 502 /\ fst r = [call] /\
       exists e, ((exists re, e = RuntimeError re) \/ e = RecursionError) /\
                 detail_of h = FromException "Bad Gateway: " e) \/
      (status_code h = 500 /\ fst r = [call] /\
       exists e, (e = AttributeError \/ e = TypeError) /\
                 detail_of h = FromException "Internal error: " e)
  end in
  answers_as_said (Main.process_batch_request_post loads net payload) /\
  answers_as_said (Main.process_batch_request_get loads net (access_token payload)
                     (relative_urls payload)).
Proof.
  intros call answers_as_said.
  assert (Hpost : answers_as_said (Main.process_batch_request_post loads net payload));
    [|split; exact Hpost].
  subst answers_as_said. cbv beta.
  unfold Main.process_batch_request_post, Main.send_batch_to_facebook.
  assert (Hchecks : forall ve, ve <> IntegerStringTooLong ->
            exists ve', ve' <> IntegerStringTooLong /\
                        FromException EmptyString (ValueError ve)
                        = FromException EmptyString (ValueError ve')) by eauto.
  destruct (bad_token (access_token payload)).
  { left. simpl. split; [reflexivity|]. left. split; [reflexivity|].
    apply Hchecks. discriminate. }
  destruct (bad_count (relative_urls payload)).
  { left. simpl. split; [reflexivity|]. left. split; [reflexivity|].
    apply Hchecks. discriminate. }
  destruct (Main.normalize_urls API_VERSION (relative_urls payload))
    as [normalized|e] eqn:Hn.
  - apply main_normalize_urls_Ok in Hn. subst normalized. fold call.
    destruct (net call) as [err|text]; [right; left; simpl; eauto 7|].
    destruct (Main.process_response loads _ text) as [rs|e] eqn:Hr.
    + simpl. split; [reflexivity|]. eauto.
    + apply main_response_raises_cases in Hr as [[re ->]|[-> |[-> |[-> | ->]]]].
      * right. left. simpl. eauto 7.
      * right. right. simpl. eauto 7.
      * right. right. simpl. eauto 7.
      * left. simpl. auto.
      * right. left. simpl. eauto 7.
  - apply main_normalize_raises in Hn as (url & _ & ->). left. simpl.
    split; [reflexivity|]. left. split; [reflexivity|].
    apply Hchecks. discriminate.
Qed.

(** X11. The answer of [POST /batch] in [test2.py]: the body returned holds the
    results of [send_batch_to_facebook] and their summary.  A status 400 means
    that no call was made, or that the one call was answered with a text that
    does not decode, or that the decoder met an integer literal of too many
    digits, in the answer, in a body or in one of the two headers.  502 and
    500 are answered after the call only: 502 for a [RuntimeError] (a
    [RecursionError] of the decoder is one), 500 for an [AttributeError], a
    [TypeError], an [IndexError] or an [OverflowError] of the sender, of the
    aggregator or of [_log_batch_summary]. *)
Theorem test2_batch_answer
    (loads : string -> decoded) (net : Network) (payload : BatchRequest) :
  let call := Test2.make_call API_VERSION (access_token payload)
                (map lstrip_slash (relative_urls payload)) 180 in
  let r := Test2.process_batch_request_post loads net payload in
  match snd r with
  | Returned body =>
      fst r = [call] /\
      response_status body = "success" /\
      Test2.send_batch_to_facebook loads net (relative_urls payload)
        (access_token payload) API_VERSION 180 = ([call], Ok (response_results body)) /\
      Test2._summarize_rate_limits_from_batch loads (response_results body)
      = Ok (rate_limit_summary body)
  | Raised h =>
      (status_code h = 400 /\
       (fst r = [] \/
        (fst r = [call] /\
         exists text, net call = HttpResponse text /\ loads text = Undecoded NotJson) \/
        (fst r = [call] /\
         detail_of h = FromException EmptyString (ValueError IntegerStringTooLong)))) \/
      (status_code h = 502 /\ fst r = [call] /\
       exists e, ((exists re, e = RuntimeError re) \/ e = RecursionError) /\
                 detail_of h = FromException "Bad Gateway: " e) \/
      (status_code h = 500 /\ fst r = [call] /\
       exists e, (e = AttributeError \/ e = TypeError \/ e = IndexError \/
                  e = OverflowError) /\
                 detail_of h = FromException "Internal Server Error: " e)
  end.
Proof.
  intros call r. subst r.
  unfold Test2.process_batch_request_post, Test2.send_batch_to_facebook.
  destruct (bad_token (access_token payload)); [left; simpl; eauto|].
  destruct (bad_count (relative_urls payload)); [left; simpl; eauto|].
  fold call. destruct (net call) as [err|text] eqn:Hnet;
    [right; left; simpl; eauto 7|].
  destruct (Test2.process_response loads _ text) as [rs|e] eqn:Hr.
  - unfold mbind, outcome_bind, mret, outcome_ret.
    destruct (Test2._summarize_rate_limits_from_batch loads rs) as [s|e] eqn:Hs.
    + destruct (Test2._log_batch_summary loads rs) as [b|e] eqn:Hb.
      * simpl. auto.
      * apply log_raises in Hb as [-> |[-> |[-> |[-> | ->]]]].
        -- right. right. simpl. eauto 8.
        -- right. right. simpl. eauto 8.
        -- right. right. simpl. eauto 9.
        -- left. simpl. auto.
        -- right. left. simpl. eauto 7.
    + apply summarize_raises in Hs as [-> |[-> |[-> |[-> | ->]]]].
      * right. right. simpl. eauto 8.
      * right. right. simpl. eauto 8.
      * right. right. simpl. eauto 9.
      * left. simpl. auto.
      * right. left. simpl. eauto 7.
  - apply test2_response_raises_cases in Hr
      as [[-> Hl]|[[re ->]|[-> |[-> |[-> |[-> | ->]]]]]].
    + left. simpl. split; [reflexivity|]. right. left. eauto.
    + right. left. simpl. eauto 7.
    + right. right. simpl. eauto 8.
    + right. right. simpl. eauto 8.
    + right. right. simpl. eauto 9.
    + left. simpl. auto.
    + right. left. simpl. eauto 7.
Qed.

(** X12. An upstream answer whose text does not decode, to a request that passes
    the checks: [POST /batch] of [test2.py] answers 400, as for a bad request,
    after the call was made, whereas that of [main.py] answers 502. *)
Theorem undecodable_answer_status
    (loads : string -> decoded) (net : Network) (payload : BatchRequest)
    (text : string) :
  bad_token (access_token payload) = false ->
  bad_count (relative_urls payload) = false ->
  loads text = Undecoded NotJson ->
  (net (Test2.make_call API_VERSION (access_token payload)
          (map lstrip_slash (relative_urls payload)) 180) = HttpResponse text ->
   Test2.process_batch_request_post loads net payload
   = ([Test2.make_call API_VERSION (access_token payload)
         (map lstrip_slash (relative_urls payload)) 180],
      Raised {| status_code := 400;
                detail_of := FromException EmptyString JSONDecodeError |})) /\
  (Forall (fun url => leading_segment url <> API_VERSION) (relative_urls payload) ->
   net (Main.make_call API_VERSION (access_token payload)
          (map lstrip_slash (relative_urls payload)) 120) = HttpResponse text ->
   Main.process_batch_request_post loads net payload
   = ([Main.make_call API_VERSION (access_token payload)
         (map lstrip_slash (relative_urls payload)) 120],
      Raised {| status_code := 502;
                detail_of := FromException "Bad Gateway: "
                               (RuntimeError (ResponseNotJson (take_chars 1000 text))) |})).
Proof.
  intros Ht Hc Hl. split.
  - intros Hnet.
    unfold Test2.process_batch_request_post, Test2.send_batch_to_facebook.
    rewrite Ht, Hc, Hnet. unfold Test2.process_response. rewrite Hl. reflexivity.
  - intros Hall Hnet.
    unfold Main.process_batch_request_post, Main.send_batch_to_facebook.
    rewrite Ht, Hc.
    destruct (main_normalize_cases (relative_urls payload))
      as [[_ ->]|(pre & u & post & Hu & _ & Hseg & _)].
    + rewrite Hnet. unfold Main.process_response. rewrite Hl. reflexivity.
    + exfalso. rewrite Hu in Hall. apply Forall_app in Hall as [_ Hall].
      apply Forall_cons in Hall as [Hne _]. contradiction.
Qed.

Lemma undecodable_answer_status_witness :
  Test2.process_batch_request_post json_loads (upstream "<html>")
    {| access_token := "EAAB"; relative_urls := ["me"] |}
  = ([Test2.make_call API_VERSION "EAAB" ["me"] 180],
     Raised {| status_code := 400;
               detail_of := FromException EmptyString JSONDecodeError |}) /\
  Main.process_batch_request_post json_loads (upstream "<html>")
    {| access_token := "EAAB"; relative_urls := ["me"] |}
  = ([Main.make_call API_VERSION "EAAB" ["me"] 120],
     Raised {| status_code := 502;
               detail_of := FromException "Bad Gateway: "
                              (RuntimeError (ResponseNotJson "<html>")) |}).
Proof.
  destruct (undecodable_answer_status json_loads (upstream "<html>")
              {| access_token := "EAAB"; relative_urls := ["me"] |} "<html>"
              eq_refl eq_refl eq_refl) as [H2 H1].
  split.
  - apply H2. reflexivity.
  - apply H1; [|reflexivity]. repeat constructor. vm_compute. discriminate.
Defined.

(** Every result that the sender of [test2.py] returns carries one of the
    submitted paths, stripped. *)
Lemma test2_result_path (loads : string -> decoded) (net : Network)
    (urls : list string) (token api_version : string) (timeout_sec : Z)
    (calls : list Call) (rs : list pydict) (r : pydict) :
  Test2.send_batch_to_facebook loads net urls token api_version timeout_sec
  = (calls, Ok rs) ->
  In r rs ->
  exists url, In url urls /\
              dict_get "requested_url" r = Some (JStr (lstrip_slash url)).
Proof.
  intros Hsend Hin.
  apply test2_send_Ok in Hsend as (text & items & _ & _ & _ & Hloop).
  rewrite test2_process_items_loop in Hloop.
  apply item_loop_Ok in Hloop as [Hlen Hitems].
  apply list_elem_of_In, list_elem_of_lookup in Hin as [i Hi].
  assert (Hlt : (i < length items)%nat).
  { rewrite <- Hlen. apply lookup_lt_is_Some_1. eauto. }
  apply lookup_lt_is_Some_2 in Hlt as [item Hitem].
  destruct (Hitems i item Hitem) as (r' & Hr' & Hp).
  rewrite Hi in Hr'. injection Hr' as <-. simpl in Hp.
  apply test2_item_fields in Hp as (_ & (u & Hu & Hreq) & _).
  rewrite list_lookup_fmap in Hu.
  destruct (urls !! i) as [url|] eqn:Hurl; [|discriminate].
  injection Hu as <-. exists url. split; [|exact Hreq].
  apply list_elem_of_In, list_elem_of_lookup. eauto.
Qed.

(** An account that has a usage in the summary is the account of the path of
    one of the results. *)
Lemma summary_account_source (loads : string -> decoded)
    (results : list pydict) (s : RateLimitSummary) (acc : string) (q : float) :
  Test2._summarize_rate_limits_from_batch loads results = Ok s ->
  insights_account_usages s !! acc = Some q ->
  exists r, In r results /\ Test2.acc_id_from_url r = Some acc.
Proof.
  intros H Hq. apply summarize_Ok in H as (st & Hloop & ->).
  apply summarize_loop_Ok in Hloop as [_ Hu]. simpl in Hq.
  rewrite Hu in Hq.
  destruct (last (omap (observed_account_usage loads acc) results)) as [q'|] eqn:El;
    [|simpl in Hq; rewrite lookup_empty in Hq; discriminate].
  apply last_Some_elem_of, list_elem_of_omap in El as (r & Hr & Hobs).
  exists r. split; [apply list_elem_of_In; exact Hr|].
  unfold observed_account_usage in Hobs.
  destruct (Test2.acc_id_from_url r) as [a|]; [|discriminate].
  destruct (String.eqb_spec a acc) as [Heq|]; [congruence | discriminate].
Qed.

(** X13. [GET /rate_limit] answers 400 only to an empty list of ids, and makes no
    call then; to a list that is not empty it answers 500 whatever fails, also
    for a token that the sender refuses or more than 50 ids, for which no call
    is made.  Every account of the usages it returns starts with [act_] and is
    the leading segment of the probe path of one of the ids. *)
Theorem rate_limit_answer
    (loads : string -> decoded) (net : Network)
    (token : string) (ids : list string) :
  let call := Test2.make_call API_VERSION token
                (map lstrip_slash (map Test2.probe_url ids)) 180 in
  let r := Test2.get_facebook_rate_limit loads net token ids in
  match snd r with
  | Returned body =>
      fst r = [call] /\
      forall acc q,
        acc_id_util_pct body !! acc = Some q ->
        startswith acc "act_" = true /\
        exists id, In id ids /\ acc = leading_segment (Test2.probe_url id)
  | Raised h =>
      (ids = [] /\ fst r = [] /\ status_code h = 400) \/
      (ids <> [] /\ status_code h = 500 /\
       ((bad_token token = true \/ (50 < length ids)%nat) /\ fst r = [] \/
        bad_token token = false /\ (length ids <= 50)%nat /\ fst r = [call]))
  end.
Proof.
  intros call r. subst r. unfold Test2.get_facebook_rate_limit.
  destruct ids as [|id0 rest]; [left; simpl; auto|].
  set (ids := id0 :: rest) in *.
  assert (Hne : ids <> []) by discriminate.
  destruct (Test2.send_batch_to_facebook loads net (map Test2.probe_url ids)
              token API_VERSION 180) as [calls o] eqn:Hsend.
  assert (Hcalls :
    (bad_token token = true \/ (50 < length ids)%nat) /\ calls = [] \/
    bad_token token = false /\ (length ids <= 50)%nat /\ calls = [call]).
  { unfold Test2.send_batch_to_facebook in Hsend.
    destruct (bad_token token); [injection Hsend as <- _; auto|].
    unfold bad_count in Hsend. rewrite length_map in Hsend.
    destruct (1 <=? length ids)%nat eqn:H1; [|discriminate].
    destruct (length ids <=? 50)%nat eqn:H50; simpl in Hsend.
    - apply Nat.leb_le in H50. injection Hsend as <- _. auto.
    - apply Nat.leb_gt in H50. injection Hsend as <- _. auto. }
  destruct o as [results|e].
  - unfold mbind, outcome_bind.
    destruct (Test2._summarize_rate_limits_from_batch loads results) as [s|e] eqn:Hs.
    + simpl. pose proof Hsend as Hsend'.
      apply test2_send_Ok in Hsend' as (text & items & -> & _). split; [reflexivity|].
      intros acc q Hq.
      destruct (summary_account_source _ _ _ _ _ Hs Hq) as (r & Hr & Hacc).
      split; [eapply acc_id_from_url_act; exact Hacc|].
      destruct (test2_result_path _ _ _ _ _ _ _ _ r Hsend Hr) as (url & Hurl & Hreq).
      apply in_map_iff in Hurl as (id & <- & Hid).
      exists id. split; [exact Hid|].
      unfold Test2.acc_id_from_url, dict_get_default in Hacc. rewrite Hreq in Hacc.
      destruct (startswith _ "act_"); [|discriminate].
      injection Hacc as <-. reflexivity.
    + right. simpl. auto.
  - right. simpl. auto.
Qed.

(** * Headers and results that contribute nothing *)

(** X14. The dictionary that the aggregator and [_log_batch_summary] build from a
    list of headers is built for every list of objects with string names;
    looked up under a name in lower case it gives the value of the last header
    of the list that has this name, whatever the case of its letters, and
    nothing when there is none. *)
Theorem header_lookup_last_wins (hs : list json) :
  (forallb wf_header hs = true ->
   exists hd, Test2.headers_dict_of (JList hs) = Ok hd) /\
  forall (hd : pydict) (name : string),
    Test2.headers_dict_of (JList hs) = Ok hd ->
    dict_get name hd = last_header name hs.
Proof.
  split.
  - intros Hwf. apply headers_of_list_returns. exact Hwf.
  - intros hd name H. simpl in H.
    rewrite (headers_of_list_lookup name hs [] hd H).
    destruct (last_header name hs); reflexivity.
Qed.

Lemma header_lookup_last_wins_witness :
  exists hd,
    Test2.headers_dict_of
      (JList [JDict [("name", JStr "X-App-Usage"); ("value", JStr "first")];
              JDict [("name", JStr "Date"); ("value", JStr "today")];
              JDict [("name", JStr "x-app-usage"); ("value", JStr "last")]])
    = Ok hd /\
    dict_get "x-app-usage" hd = Some (JStr "last") /\
    dict_get "X-App-Usage" hd = None.
Proof.
  destruct (header_lookup_last_wins
              [JDict [("name", JStr "X-App-Usage"); ("value", JStr "first")];
               JDict [("name", JStr "Date"); ("value", JStr "today")];
               JDict [("name", JStr "x-app-usage"); ("value", JStr "last")]])
    as [Hreturns Hlookup].
  destruct (Hreturns eq_refl) as [hd Hhd].
  exists hd. split; [exact Hhd|].
  split; [rewrite (Hlookup hd "x-app-usage" Hhd) | rewrite (Hlookup hd "X-App-Usage" Hhd)];
    vm_compute; reflexivity.
Defined.

Lemma for_each_app {A} (l1 l2 : list A) (body : A -> St unit) (st : agg_state) :
  for_each (l1 ++ l2) body st
  = match for_each l1 body st with
    | (st1, Ok _) => for_each l2 body st1
    | (st1, Raise e) => (st1, Raise e)
    end.
Proof.
  revert st. induction l1 as [|x rest IH]; intros st; simpl; [reflexivity|].
  unfold st_bind. destruct (body x st) as [st1 [[]|e]]; [apply IH | reflexivity].
Qed.

(** X15. A result without headers contributes nothing to the summary: taking it
    out of the list changes neither what [_summarize_rate_limits_from_batch]
    returns nor whether it raises. *)
Theorem summarize_ignores_headerless
    (loads : string -> decoded) (pre post : list pydict) (r : pydict) :
  headerless r = true ->
  Test2._summarize_rate_limits_from_batch loads (pre ++ r :: post)
  = Test2._summarize_rate_limits_from_batch loads (pre ++ post).
Proof.
  intros Hr. unfold Test2._summarize_rate_limits_from_batch.
  rewrite !for_each_app.
  destruct (for_each pre _ init_state) as [st1 [[]|e]]; [|reflexivity].
  simpl. unfold st_bind.
  assert (Hskip : Test2.summarize_result loads r st1 = (st1, Ok tt)).
  { unfold Test2.summarize_result. unfold headerless in Hr. rewrite Hr. reflexivity. }
  rewrite Hskip. reflexivity.
Qed.

Lemma summarize_ignores_headerless_witness :
  Test2._summarize_rate_limits_from_batch json_loads logged_results
  = Test2._summarize_rate_limits_from_batch json_loads
      [result_with_headers 0 "act_123/insights"
         [("x-fb-ads-insights-throttle", throttle "25.0" "10");
          ("x-business-use-case-usage", usage_120_then_0)]].
Proof.
  apply (summarize_ignores_headerless json_loads
           [result_with_headers 0 "act_123/insights"
              [("x-fb-ads-insights-throttle", throttle "25.0" "10");
               ("x-business-use-case-usage", usage_120_then_0)]]
           []
           [("request_index", JInt 1); ("requested_url", JStr "act_123/ads");
            ("status_code", JInt 400); ("headers", JList []); ("data", JNull);
            ("error", JDict [("code", JInt 100)])]).
  reflexivity.
Defined.

(** * The totals of [_log_batch_summary] *)

Lemma sums_ok_ext (f g f' g' : string -> Z) (L L' : string -> Prop)
    (st st' : log_state) :
  (forall acc, f acc = f' acc) ->
  (forall acc, g acc = g' acc) ->
  (forall acc, L acc <-> L' acc) ->
  account_costs st' = account_costs st ->
  sums_ok f g L st -> sums_ok f' g' L' st'.
Proof.
  intros Hf Hg HL Heq H acc. rewrite Heq. specialize (H acc).
  destruct (account_costs st !! acc) as [c|]; destruct H as (H1 & H2 & H3);
    rewrite <- Hf, <- Hg; (split; [exact H1|]); (split; [exact H2|]).
  - apply HL, H3.
  - intros H. apply H3, HL, H.
Qed.

Lemma py_add_int (a : Z) (x : json) (z : Z) :
  int_of x = Some z -> py_add (JInt a) x = Ok (JInt (a + z)).
Proof.
  intros H. unfold py_add. cbn [int_of]. rewrite H. reflexivity.
Qed.

(** A loop that returns has kept an invariant that its body keeps whenever
    it returns. *)
Lemma stm_for_each_prefix_Ok {S A} (I : list A -> S -> Prop) (l : list A)
    (body : A -> Stm S unit) :
  (forall pre x post st st',
      l = (pre ++ x :: post)%list -> I pre st ->
      body x st = (st', Ok tt) -> I (pre ++ [x])%list st') ->
  forall st st', I [] st -> stm_for_each l body st = (st', Ok tt) -> I l st'.
Proof.
  intros Hbody.
  assert (H : forall rest pre st st',
             l = (pre ++ rest)%list -> I pre st ->
             stm_for_each rest body st = (st', Ok tt) -> I l st').
  { induction rest as [|x rest IH]; intros pre st st' Hl Hpre Hrun; simpl in Hrun.
    - rewrite app_nil_r in Hl. subst pre. injection Hrun as <-. exact Hpre.
    - unfold stm_bind in Hrun.
      destruct (body x st) as [st1 [[]|e]] eqn:Hx; [|discriminate].
      apply (IH (pre ++ [x])%list st1 st'); [|eapply Hbody; eauto|exact Hrun].
      rewrite <- app_assoc. exact Hl. }
  intros st st' Hst Hrun. apply (H l [] st st'); auto.
Qed.

Lemma entries_total_snoc (k : string) (pre : list json) (e : json) :
  entries_total k (pre ++ [e]) = entries_total k pre + int_at k e.
Proof.
  unfold entries_total. induction pre as [|x pre IH]; simpl; [lia|].
  rewrite IH. lia.
Qed.

Lemma items_total_snoc (k acc : string) (pre : pydict) (kv : string * json) :
  items_total k acc (pre ++ [kv])
  = items_total k acc pre
    + (if String.eqb (fst kv) acc
       then match snd kv with
            | JList es => entries_total k es
            | _ => 0
            end
       else 0).
Proof.
  unfold items_total. induction pre as [|x pre IH]; simpl; [lia|].
  rewrite IH. lia.
Qed.

Lemma results_total_snoc (loads : string -> decoded) (k acc : string)
    (pre : list pydict) (r : pydict) :
  results_total loads k acc (pre ++ [r])
  = results_total loads k acc pre
    + match usage_of loads r with
      | Some items => items_total k acc items
      | None => 0
      end.
Proof.
  unfold results_total. induction pre as [|x pre IH]; simpl; [lia|].
  rewrite IH. lia.
Qed.

Lemma cost_entry_sums (f g : string -> Z) (L : string -> Prop) (id : string)
    (d : pydict) (st st' : log_state) :
  sums_ok f g L st ->
  is_Some (account_costs st !! id) ->
  wf_cost_entry (JDict d) = true ->
  Test2.cost_entry id (JDict d) st = (st', Ok tt) ->
  sums_ok (fun acc => f acc + if String.eqb id acc
                              then int_at "total_cputime" (JDict d) else 0)
          (fun acc => g acc + if String.eqb id acc
                              then int_at "total_time" (JDict d) else 0)
          L st' /\
  is_Some (account_costs st' !! id).
Proof.
  intros Hok [c Hc] Hint Hrun. cbn [wf_cost_entry] in Hint.
  apply andb_true_iff in Hint as [Hint _].
  apply andb_true_iff in Hint as [H1 H2].
  apply is_int_int_of in H1 as [z1 Hz1].
  apply is_int_int_of in H2 as [z2 Hz2].
  pose proof (Hok id) as Hid. rewrite Hc in Hid. destruct Hid as (Hcpu & Htime & HL).
  assert (Hcost : Test2.cost_of id st = c)
    by (unfold Test2.cost_of; rewrite Hc; reflexivity).
  assert (Hset : forall c' st0, Test2.cost_of id (Test2.set_cost id c' st0) = c').
  { intros c' st0. unfold Test2.cost_of, Test2.set_cost. simpl.
    rewrite lookup_insert_eq. reflexivity. }
  pose proof (py_add_int (f id) _ z1 Hz1) as Hs1. rewrite <- Hcpu in Hs1.
  pose proof (py_add_int (g id) _ z2 Hz2) as Hs2. rewrite <- Htime in Hs2.
  unfold Test2.cost_entry in Hrun. stm_unfold. simpl in Hrun.
  rewrite ?Hset, ?Hcost in Hrun. simpl in Hrun. rewrite Hs1 in Hrun. simpl in Hrun.
  rewrite ?Hset, ?Hcost in Hrun. simpl in Hrun. rewrite Hs2 in Hrun. simpl in Hrun.
  rewrite ?Hset, ?Hcost in Hrun. simpl in Hrun.
  destruct (py_max2 (max_eta c) _) as [m|e]; simpl in Hrun; [|discriminate].
  injection Hrun as <-. split.
  - intros acc. simpl. destruct (String.eqb_spec id acc) as [<-|Hne].
    + rewrite lookup_insert_eq. simpl. rewrite Hz1, Hz2. simpl. auto.
    + rewrite !lookup_insert_ne by exact Hne.
      pose proof (Hok acc) as Hacc. rewrite !Z.add_0_r. exact Hacc.
  - simpl. rewrite lookup_insert_eq. eauto.
Qed.

Lemma cost_entries_sums (f g : string -> Z) (L : string -> Prop) (id : string)
    (es : list json) (st st' : log_state) :
  sums_ok f g L st ->
  is_Some (account_costs st !! id) ->
  forallb wf_cost_entry es = true ->
  stm_for_each es (Test2.cost_entry id) st = (st', Ok tt) ->
  sums_ok (fun acc => f acc + if String.eqb id acc
                              then entries_total "total_cputime" es else 0)
          (fun acc => g acc + if String.eqb id acc
                              then entries_total "total_time" es else 0)
          L st'.
Proof.
  intros Hok Hid Hint Hrun.
  apply (stm_for_each_prefix_Ok
    (fun pre st0 =>
       sums_ok (fun acc => f acc + if String.eqb id acc
                                   then entries_total "total_cputime" pre else 0)
               (fun acc => g acc + if String.eqb id acc
                                   then entries_total "total_time" pre else 0)
               L st0 /\
       is_Some (account_costs st0 !! id))
    es (Test2.cost_entry id)) with (st := st) (st' := st') in Hrun.
  - apply Hrun.
  - intros pre e post st0 st1 Hes [Hok0 Hid0] Hstep.
    assert (He : wf_cost_entry e = true).
    { rewrite forallb_forall in Hint. apply Hint. rewrite Hes.
      apply in_app_iff. right. left. reflexivity. }
    destruct e as [| | | | | |d]; try discriminate.
    destruct (cost_entry_sums _ _ L id d st0 st1 Hok0 Hid0 He Hstep) as [Hok1 Hid1].
    split; [|exact Hid1].
    eapply sums_ok_ext; [| | |reflexivity|exact Hok1].
    + intros acc. cbv beta. rewrite entries_total_snoc.
      destruct (String.eqb id acc); lia.
    + intros acc. cbv beta. rewrite entries_total_snoc.
      destruct (String.eqb id acc); lia.
    + reflexivity.
  - split; [|exact Hid].
    eapply sums_ok_ext; [| | |reflexivity|exact Hok].
    + intros acc. simpl. destruct (String.eqb id acc); lia.
    + intros acc. simpl. destruct (String.eqb id acc); lia.
    + reflexivity.
Qed.

Lemma cost_account_sums (f g : string -> Z) (L : string -> Prop) (id : string)
    (es : list json) (st st' : log_state) :
  sums_ok f g L st ->
  forallb wf_cost_entry es = true ->
  Test2.cost_account id (JList es) st = (st', Ok tt) ->
  sums_ok (fun acc => f acc + if String.eqb id acc
                              then entries_total "total_cputime" es else 0)
          (fun acc => g acc + if String.eqb id acc
                              then entries_total "total_time" es else 0)
          (fun acc => L acc \/ acc = id) st'.
Proof.
  intros Hok Hint Hrun. unfold Test2.cost_account in Hrun. stm_unfold.
  simpl in Hrun.
  eapply (cost_entries_sums f g (fun acc => L acc \/ acc = id)); [| |exact Hint|exact Hrun].
  - intros acc. unfold Test2.init_cost. pose proof (Hok acc) as Hacc.
    destruct (account_costs st !! id) as [c|] eqn:Hc.
    + destruct (account_costs st !! acc) as [c'|] eqn:Hc'.
      * destruct Hacc as (? & ? & ?). auto.
      * destruct Hacc as (? & ? & HL). split; [assumption|]. split; [assumption|].
        intros [HLacc | ->]; [contradiction | congruence].
    + simpl. destruct (String.eqb_spec id acc) as [<-|Hne].
      * rewrite lookup_insert_eq. rewrite Hc in Hacc. destruct Hacc as (-> & -> & _).
        simpl. auto.
      * rewrite lookup_insert_ne by exact Hne.
        destruct (account_costs st !! acc) as [c'|].
        -- destruct Hacc as (? & ? & ?). auto.
        -- destruct Hacc as (? & ? & HL). split; [assumption|]. split; [assumption|].
           intros [HLacc | ->]; [contradiction | congruence].
  - unfold Test2.init_cost.
    destruct (account_costs st !! id) as [c|] eqn:Hc; [rewrite Hc; eauto|].
    simpl. rewrite lookup_insert_eq. eauto.
Qed.

Lemma cost_items_sums (f g : string -> Z) (L : string -> Prop) (items : pydict)
    (st st' : log_state) :
  sums_ok f g L st ->
  wf_cost_items items = true ->
  stm_for_each items (fun kv => Test2.cost_account (fst kv) (snd kv)) st
  = (st', Ok tt) ->
  sums_ok (fun acc => f acc + items_total "total_cputime" acc items)
          (fun acc => g acc + items_total "total_time" acc items)
          (fun acc => L acc \/ In acc (map fst items)) st'.
Proof.
  intros Hok Hwf Hrun.
  apply (stm_for_each_prefix_Ok
    (fun pre st0 =>
       sums_ok (fun acc => f acc + items_total "total_cputime" acc pre)
               (fun acc => g acc + items_total "total_time" acc pre)
               (fun acc => L acc \/ In acc (map fst pre)) st0)
    items (fun kv => Test2.cost_account (fst kv) (snd kv))) with (st := st) (st' := st')
    in Hrun.
  - exact Hrun.
  - intros pre [id entries] post st0 st1 Hitems Hok0 Hstep. simpl in Hstep.
    assert (Hin : In (id, entries) items).
    { rewrite Hitems. apply in_app_iff. right. left. reflexivity. }
    assert (He : match entries with
                 | JList es => forallb wf_cost_entry es
                 | _ => false
                 end = true).
    { unfold wf_cost_items in Hwf. rewrite forallb_forall in Hwf.
      apply (Hwf (id, entries) Hin). }
    destruct entries as [| | | | |es|]; try discriminate.
    pose proof (cost_account_sums _ _ _ id es st0 st1 Hok0 He Hstep) as Hok1.
    eapply sums_ok_ext; [| | |reflexivity|exact Hok1].
    + intros acc. cbv beta. rewrite items_total_snoc. cbn [fst snd]. lia.
    + intros acc. cbv beta. rewrite items_total_snoc. cbn [fst snd]. lia.
    + intros acc. simpl. rewrite map_app, in_app_iff. simpl.
      split; intros H; repeat destruct H as [H|H]; subst; auto; try contradiction.
  - eapply sums_ok_ext; [| | |reflexivity|exact Hok].
    + intros acc. simpl. lia.
    + intros acc. simpl. lia.
    + intros acc. simpl. tauto.
Qed.

(** One turn of the loop on a result as [_log_batch_summary] expects it: the
    counters and the application usages are updated, and then the accounts of
    the usage header, if there is one, are gone through. *)
Lemma log_result_shape (loads : string -> decoded) (r : pydict)
    (st : log_state) :
  wf_log_result loads r = true ->
  exists st1,
    account_costs st1 = account_costs st /\
    match usage_of loads r with
    | Some items =>
        wf_cost_items items = true /\
        forall st',
          stm_for_each items (fun kv => Test2.cost_account (fst kv) (snd kv)) st1
          = (st', Ok tt) ->
          Test2.log_result loads r st = (st', Ok tt)
    | None => Test2.log_result loads r st = (st1, Ok tt)
    end.
Proof.
  intros Hwf. unfold Test2.log_result. stm_unfold. fold (is_200 r).
  set (st0 := Test2.count_call (is_200 r) st).
  unfold wf_log_result in Hwf. unfold usage_of.
  destruct (dict_get_default "headers" r (JList [])) as [| | | | |hs|] eqn:Eh;
    try (rewrite Hwf; exists st0; split; reflexivity).
  destruct hs as [|h hs']; [exists st0; split; reflexivity|].
  apply andb_true_iff in Hwf as [Hwf Hu]. apply andb_true_iff in Hwf as [Hh Ht].
  cbn [truthy negb Test2.headers_dict_of].
  destruct (headers_of_list_returns _ Hh []) as [hd Hhd]. rewrite Hhd.
  rewrite log_throttle_eq.
  rewrite (headers_dict_text "x-fb-ads-insights-throttle" _ _ Hhd).
  rewrite <- (headers_dict_text "x-business-use-case-usage" _ _ Hhd) in Hu |- *.
  assert (Hgo : forall st1,
    account_costs st1 = account_costs st ->
    exists st2,
      account_costs st2 = account_costs st /\
      match
        match py_json_loads loads
                (dict_get_default "x-business-use-case-usage" hd (JStr "{}")) with
        | Ok (JDict items0) => Some items0
        | _ => None
        end
      with
      | Some items =>
          wf_cost_items items = true /\
          forall st',
            stm_for_each items (fun kv => Test2.cost_account (fst kv) (snd kv)) st2
            = (st', Ok tt) ->
            Test2.log_usage loads hd st1 = (st', Ok tt)
      | None => Test2.log_usage loads hd st1 = (st2, Ok tt)
      end).
  { intros st1 Hsame. exists st1. split; [exact Hsame|].
    unfold Test2.log_usage. stm_unfold.
    destruct (py_json_loads loads _) as [v|e] eqn:El.
    - destruct v as [| | | | | |items]; try discriminate. simpl.
      split; [exact Hu|]. intros st' Hrun. rewrite Hrun. reflexivity.
    - apply is_skipped_cases in Hu as [-> | ->]; reflexivity. }
  unfold wf_throttle in Ht.
  destruct (py_json_loads loads (header_text "x-fb-ads-insights-throttle" (h :: hs')))
    as [v|e] eqn:El.
  - destruct v as [| | | | | |t]; try discriminate.
    apply andb_true_iff in Ht as [Ht _]. apply negb_true_iff in Ht. rewrite Ht.
    apply Hgo. destruct (number_at "app_id_util_pct" t); reflexivity.
  - apply is_skipped_cases in Ht as [-> | ->]; apply Hgo; reflexivity.
Qed.

Lemma log_result_sums (loads : string -> decoded) (R : string -> json -> Prop)
    (f g : string -> Z) (L : string -> Prop) (r : pydict) (st st' : log_state) :
  costs_ok R st ->
  sums_ok f g L st ->
  wf_log_result loads r = true ->
  Test2.log_result loads r st = (st', Ok tt) ->
  sums_ok (fun acc => f acc + match usage_of loads r with
                              | Some items => items_total "total_cputime" acc items
                              | None => 0
                              end)
          (fun acc => g acc + match usage_of loads r with
                              | Some items => items_total "total_time" acc items
                              | None => 0
                              end)
          (fun acc => L acc \/
                      exists items, usage_of loads r = Some items /\
                                    In acc (map fst items)) st'.
Proof.
  intros Hok Hsum Hwf Hrun.
  destruct (log_result_shape loads r st Hwf) as (st1 & Hsame & Hshape).
  destruct (usage_of loads r) as [items|] eqn:Hu.
  - destruct Hshape as [Hwfi Hinner].
    assert (Hok1 : costs_ok R st1)
      by (eapply costs_ok_ext; [reflexivity|exact Hsame|exact Hok]).
    destruct (cost_items_ok R items st1 Hok1 Hwfi) as (st2 & Hrun2 & _).
    rewrite (Hinner st2 Hrun2) in Hrun. injection Hrun as <-.
    assert (Hsum1 : sums_ok f g L st1)
      by (eapply sums_ok_ext; [reflexivity|reflexivity|reflexivity|exact Hsame|exact Hsum]).
    pose proof (cost_items_sums f g L items st1 st2 Hsum1 Hwfi Hrun2) as H2.
    eapply sums_ok_ext; [reflexivity|reflexivity| |reflexivity|exact H2].
    intros acc. split.
    + intros [H|H]; [auto|]. right. eauto.
    + intros [H|(items' & [= <-] & H)]; auto.
  - rewrite Hshape in Hrun. injection Hrun as <-.
    eapply sums_ok_ext; [| | |exact Hsame|exact Hsum].
    + intros acc. lia.
    + intros acc. lia.
    + intros acc. split; [auto|]. intros [H|(items & Hi & _)]; [exact H | discriminate].
Qed.

Lemma account_listed_snoc (loads : string -> decoded) (pre : list pydict)
    (r : pydict) (acc : string) :
  account_listed loads (pre ++ [r]) acc
  <-> account_listed loads pre acc \/
      exists items, usage_of loads r = Some items /\ In acc (map fst items).
Proof.
  unfold account_listed. split.
  - intros (r' & items & Hin & Hu & Hr). apply in_app_iff in Hin as [Hin|[<-|[]]].
    + left. eauto.
    + right. eauto.
  - intros [(r' & items & Hin & Hu & Hr)|(items & Hu & Hr)].
    + exists r', items. split; [apply in_app_iff; auto | auto].
    + exists r, items. split; [apply in_app_iff; right; left; reflexivity | auto].
Qed.

(** The loop of [_log_batch_summary] on results as it expects them: it ends
    without an exception, with a cost for each account that a usage header
    has as a key, whose two totals are the sums over the entries listed. *)
Lemma log_loop_sums (loads : string -> decoded) (results : list pydict) :
  forallb (wf_log_result loads) results = true ->
  exists st,
    stm_for_each results (Test2.log_result loads) init_log_state = (st, Ok tt) /\
    costs_ok (eta_reported loads results) st /\
    sums_ok (fun acc => results_total loads "total_cputime" acc results)
            (fun acc => results_total loads "total_time" acc results)
            (account_listed loads results) st.
Proof.
  intros Hwf.
  apply (stm_for_each_prefix
    (fun pre st =>
       costs_ok (eta_reported loads pre) st /\
       sums_ok (fun acc => results_total loads "total_cputime" acc pre)
               (fun acc => results_total loads "total_time" acc pre)
               (account_listed loads pre) st)
    results (Test2.log_result loads)).
  - intros pre r post st0 Hres [Hok0 Hsum0].
    assert (Hin : In r results).
    { rewrite Hres. apply in_app_iff. right. left. reflexivity. }
    assert (Hr : wf_log_result loads r = true)
      by (rewrite forallb_forall in Hwf; apply Hwf, Hin).
    destruct (log_result_costs loads _ r st0 Hok0 Hr) as (st1 & Hrun & Hok1).
    exists st1. split; [exact Hrun|]. split.
    + eapply costs_ok_ext; [|reflexivity|exact Hok1].
      intros acc x. rewrite eta_reported_snoc. tauto.
    + pose proof (log_result_sums loads _ _ _ _ r st0 st1 Hok0 Hsum0 Hr Hrun) as H1.
      eapply sums_ok_ext; [| | |reflexivity|exact H1].
      * intros acc. cbv beta. rewrite results_total_snoc. reflexivity.
      * intros acc. cbv beta. rewrite results_total_snoc. reflexivity.
      * intros acc. rewrite account_listed_snoc. tauto.
  - split.
    + intros acc. simpl. rewrite lookup_empty. intros q (r & items & [] & _).
    + intros acc. simpl. rewrite lookup_empty.
      split; [reflexivity|]. split; [reflexivity|].
      intros (r & items & [] & _).
Qed.

(** A total of more than 4300 digits has no text: on results as
    [_log_batch_summary] expects them, whose [total_cputime] for an account
    add up to such a total, the loop ends and [str] raises [ValueError]. *)
Lemma log_long_total (loads : string -> decoded) (results : list pydict)
    (acc : string) :
  results <> [] ->
  forallb (wf_log_result loads) results = true ->
  10 ^ Z.of_nat max_str_digits
  <= Z.abs (results_total loads "total_cputime" acc results) ->
  Test2._log_batch_summary loads results = Raise (ValueError IntegerStringTooLong).
Proof.
  intros Hne Hwf Hlong.
  destruct (log_loop_sums loads results Hwf) as (st & Hloop & _ & Hsum).
  unfold Test2._log_batch_summary. destruct results as [|r rest]; [contradiction|].
  rewrite Hloop.
  assert (Hp : rows_printable (account_costs st) = false).
  { specialize (Hsum acc). cbv beta in Hsum.
    remember (10 ^ Z.of_nat max_str_digits) as bound eqn:Hbound.
    assert (Hpos : 0 < bound)
      by (subst bound; apply Z.pow_pos_nonneg; [reflexivity | apply Nat2Z.is_nonneg]).
    destruct (account_costs st !! acc) as [c|] eqn:Hc.
    - destruct Hsum as (Hcpu & _ & _).
      apply not_true_is_false. intros Hall. unfold rows_printable in Hall.
      rewrite forallb_forall in Hall.
      assert (Hin : In (acc, c) (map_to_list (account_costs st)))
        by (apply list_elem_of_In, elem_of_map_to_list; exact Hc).
      apply Hall in Hin. cbn [snd] in Hin. rewrite Hcpu in Hin.
      apply andb_true_iff in Hin as [Hin _]. apply andb_true_iff in Hin as [Hin _].
      unfold printable in Hin. rewrite <- Hbound in Hin.
      apply Z.ltb_lt in Hin. lia.
    - destruct Hsum as (H0 & _ & _). rewrite H0 in Hlong.
      change (Z.abs 0) with 0 in Hlong. lia. }
  rewrite Hp. reflexivity.
Qed.



(** * A validated payload *)

(** X17. For a payload whose paths [BatchRequest.validate_urls] accepts, the
    count check of the sender never fires: a status 400 of [POST /batch] in
    [main.py] reports the invalid access token, or a submitted path whose
    leading segment is the version tag, or, once the call is made, the
    integer literal of too many digits that the decoder refused. *)
Theorem validated_payload_bad_request
    (loads : string -> decoded) (net : Network) (payload : BatchRequest)
    (h : HTTPException) :
  Models.validate_urls (relative_urls payload) = Ok (relative_urls payload) ->
  snd (Main.process_batch_request_post loads net payload) = Raised h ->
  status_code h = 400 ->
  (bad_token (access_token payload) = true /\
   detail_of h = FromException EmptyString (ValueError InvalidAccessToken)) \/
  (exists url,
      In url (relative_urls payload) /\
      leading_segment url = API_VERSION /\
      detail_of h = FromException EmptyString (ValueError (VersionInRelativeUrl url))) \/
  (fst (Main.process_batch_request_post loads net payload)
   = [Main.make_call API_VERSION (access_token payload)
        (map lstrip_slash (relative_urls payload)) 120] /\
   detail_of h = FromException EmptyString (ValueError IntegerStringTooLong)).
Proof.
  unfold Models.validate_urls, Main.process_batch_request_post,
    Main.send_batch_to_facebook.
  intros Hv. destruct (bad_count (relative_urls payload)); [discriminate|]. clear Hv.
  destruct (bad_token (access_token payload)).
  { simpl. intros [= <-] _. left. auto. }
  destruct (main_normalize_cases (relative_urls payload))
    as [[_ ->]|(pre & url & post & Hu & _ & Hseg & ->)].
  - simpl. destruct (net _) as [err|text]; [intros [= <-]; discriminate|].
    destruct (Main.process_response loads _ text) as [rs|e] eqn:Hr; [discriminate|].
    apply main_response_raises_cases in Hr as [[re ->]|[-> |[-> |[-> | ->]]]];
      intros [= <-]; try discriminate.
    intros _. right. right. split; reflexivity.
  - simpl. intros [= <-] _. right. left. exists url. split; [|auto].
    rewrite Hu. apply in_app_iff. right. left. reflexivity.
Qed.

Lemma validated_payload_bad_request_witness :
  exists url,
    In url ["me"; "/v23.0/me"] /\
    leading_segment url = API_VERSION /\
    FromException EmptyString (ValueError (VersionInRelativeUrl "/v23.0/me"))
    = FromException EmptyString (ValueError (VersionInRelativeUrl url)).
Proof.
  destruct (validated_payload_bad_request json_loads (upstream "[]")
              {| access_token := "EAAB"; relative_urls := ["me"; "/v23.0/me"] |}
              {| status_code := 400;
                 detail_of := FromException EmptyString
                                (ValueError (VersionInRelativeUrl "/v23.0/me")) |}
              eq_refl eq_refl eq_refl) as [[Hbad _]|[H|[_ Hd]]].
  - discriminate Hbad.
  - exact H.
  - discriminate Hd.
Defined.
